(** * Workflow_App: filtering, sorting, aggregation and report selection

    A shallow embedding of the reporting pipeline of the task dashboard:
    the task grid's filter and sort step (TaskGrid, src/unnamed/part_004),
    the dashboard metrics (src/app/page.tsx), the two report renderers
    (generatePDFReport and generateExcelReport, in src/lib/email.ts), the
    report dialog's date handlers (ReportDialog, src/unnamed/part_007) and
    the task editor's attachment cap (TaskDialog, src/unnamed/part_005).

    Conventions of the embedding.
    - A JavaScript [Date] is its [getTime()] value: milliseconds since the
      epoch, in [Z].  The date-fns helpers are modelled on the UTC calendar.
    - A count is a [nat] or an integer in [Z], and a price is a whole
      amount in [Z].  The numbers of the day average are IEEE 754 doubles,
      the primitive floats of the kernel, rounded at each operation as the
      hardware rounds them.
    - [String.prototype.toLowerCase] and [String.prototype.trim] rest on
      the Unicode tables of the JavaScript engine; they are the operations
      of an [Engine], which every definition that calls them takes as a
      parameter.
    - [x?: T | null] is [option T]; [None] stands for both [undefined] and
      [null].
    - [Array.prototype.sort] is the stable sort the language standard
      requires, written as a stable insertion sort over the comparator.
    - React state is an explicit record; a handler is a function from state
      to state, and [toast] appends to the state's list of notifications. *)

From Stdlib Require Import String Ascii ZArith QArith Qround List Bool Lia.
From Stdlib Require Import Permutation Sorted DecimalString.
From Stdlib Require OrderedTypeEx Floats.
Import ListNotations.
Open Scope Z_scope.

(** ** Entity model (src/types/task.ts) *)

Inductive WorkItemType := Project | Job.
Inductive SourceType := Call | Text | Email | InPerson.
Inductive PriorityType := Low | Medium | High | Urgent.
Inductive MaterialStatus := Ordered | YetToBeShipped | InTransit | Received.
Inductive WorkConfirmationStatus := Awaiting | Confirmed.
Inductive TaskStatus := NotInitiated | InProgress | Completed.

Definition Date := Z.

Record Task := {
  id : string;
  title : string;
  site : string;
  description : string;
  notes : option string;
  status : TaskStatus;
  images : list string;
  userId : string;
  createdAt : Date;
  updatedAt : Date;
  dateInitiated : option Date;
  dateCompleted : option Date;
  assignedTo : option string;
  uploaderEmail : option string;
  type : WorkItemType;
  source : SourceType;
  priority : option PriorityType;
  requiresMaterial : bool;
  materialStatus : option MaterialStatus;
  materialDescription : string;
  quotedPrice : option Z;
  confirmedPrice : option Z;
  workConfirmationStatus : WorkConfirmationStatus;
  poNumber : option string
}.

Definition TaskStatus_eq_dec (a b : TaskStatus) : {a = b} + {a <> b}.
Proof. decide equality. Defined.

Definition TaskStatus_eqb (a b : TaskStatus) : bool :=
  match a, b with
  | NotInitiated, NotInitiated | InProgress, InProgress
  | Completed, Completed => true
  | _, _ => false
  end.

Definition WorkItemType_eqb (a b : WorkItemType) : bool :=
  match a, b with
  | Project, Project | Job, Job => true
  | _, _ => false
  end.

Definition PriorityType_eqb (a b : PriorityType) : bool :=
  match a, b with
  | Low, Low | Medium, Medium | High, High | Urgent, Urgent => true
  | _, _ => false
  end.

Definition MaterialStatus_eqb (a b : MaterialStatus) : bool :=
  match a, b with
  | Ordered, Ordered | YetToBeShipped, YetToBeShipped
  | InTransit, InTransit | Received, Received => true
  | _, _ => false
  end.

Definition WorkConfirmationStatus_eqb (a b : WorkConfirmationStatus) : bool :=
  match a, b with
  | Awaiting, Awaiting | Confirmed, Confirmed => true
  | _, _ => false
  end.

(** [x === y] on an optional enumerated field. *)
Definition opt_eqb {A} (eqb : A -> A -> bool) (x y : option A) : bool :=
  match x, y with
  | Some a, Some b => eqb a b
  | None, None => true
  | _, _ => false
  end.

(** [arr.includes(x)] *)
Definition includes {A} (eqb : A -> A -> bool) (arr : list A) (x : A) : bool :=
  existsb (eqb x) arr.

(** [x || d] on an optional value whose present values are all truthy. *)
Definition orElse {A} (x : option A) (d : A) : A :=
  match x with Some a => a | None => d end.

(** [x || d] on an optional number: [0] is falsy, like [null]. *)
Definition numOr (x : option Z) (d : Z) : Z :=
  match x with
  | Some n => if n =? 0 then d else n
  | None => d
  end.

(** Truthiness of an optional string: present and non-empty. *)
Definition truthyStr (x : option string) : bool :=
  match x with
  | Some s => negb (String.eqb s "")
  | None => false
  end.

Definition isSome {A} (x : option A) : bool :=
  match x with Some _ => true | None => false end.

(** ** Calendar helpers (date-fns, on the UTC calendar) *)

Definition MS_PER_DAY : Z := 1000 * 60 * 60 * 24.

Definition dayNumber (d : Date) : Z := d / MS_PER_DAY.
Definition dayStart (n : Z) : Date := n * MS_PER_DAY.
Definition dayEnd (n : Z) : Date := n * MS_PER_DAY + (MS_PER_DAY - 1).

Definition startOfDay (d : Date) : Date := dayStart (dayNumber d).
Definition endOfDay (d : Date) : Date := dayEnd (dayNumber d).

(** Day of the week, 0 = Sunday; day 0 (1 January 1970) is a Thursday. *)
Definition getDay (d : Date) : Z := (dayNumber d + 4) mod 7.

(** Weeks start on Sunday, the date-fns default. *)
Definition startOfWeek (d : Date) : Date := dayStart (dayNumber d - getDay d).
Definition endOfWeek (d : Date) : Date := dayEnd (dayNumber d - getDay d + 6).

(** Proleptic Gregorian calendar: day number to (year, month 1..12, day)
    and back. *)
Definition civilFromDays (n : Z) : Z * Z * Z :=
  let z := n + 719468 in
  let era := z / 146097 in
  let doe := z - era * 146097 in
  let yoe := (doe - doe / 1460 + doe / 36524 - doe / 146096) / 365 in
  let y := yoe + era * 400 in
  let doy := doe - (365 * yoe + yoe / 4 - yoe / 100) in
  let mp := (5 * doy + 2) / 153 in
  let d := doy - (153 * mp + 2) / 5 + 1 in
  let m := if mp <? 10 then mp + 3 else mp - 9 in
  (if m <=? 2 then y + 1 else y, m, d).

Definition daysFromCivil (y m d : Z) : Z :=
  let y' := if m <=? 2 then y - 1 else y in
  let era := y' / 400 in
  let yoe := y' - era * 400 in
  let doy := (153 * (if 2 <? m then m - 3 else m + 9) + 2) / 5 + d - 1 in
  let doe := yoe * 365 + yoe / 4 - yoe / 100 + doy in
  era * 146097 + doe - 719468.

Definition getFullYear (d : Date) : Z := fst (fst (civilFromDays (dayNumber d))).
Definition getMonth1 (d : Date) : Z := snd (fst (civilFromDays (dayNumber d))).

(** First day of the month [k] months after month [m] of year [y]. *)
Definition firstOfMonth (y m k : Z) : Z :=
  let i := (m - 1) + k in
  daysFromCivil (y + i / 12) (i mod 12 + 1) 1.

Definition startOfMonth (d : Date) : Date :=
  dayStart (firstOfMonth (getFullYear d) (getMonth1 d) 0).
Definition endOfMonth (d : Date) : Date :=
  dayEnd (firstOfMonth (getFullYear d) (getMonth1 d) 1 - 1).

Definition quarterMonth (m : Z) : Z := (m - 1) / 3 * 3 + 1.

Definition startOfQuarter (d : Date) : Date :=
  dayStart (firstOfMonth (getFullYear d) (quarterMonth (getMonth1 d)) 0).
Definition endOfQuarter (d : Date) : Date :=
  dayEnd (firstOfMonth (getFullYear d) (quarterMonth (getMonth1 d)) 3 - 1).

Definition startOfYear (d : Date) : Date :=
  dayStart (firstOfMonth (getFullYear d) 1 0).
Definition endOfYear (d : Date) : Date :=
  dayEnd (firstOfMonth (getFullYear d) 1 12 - 1).

(** [isAfter(d1, d2)]: [d1] is strictly later than [d2]. *)
Definition isAfter (d1 d2 : Date) : bool := d2 <? d1.

(** ** Dashboard metrics (src/app/page.tsx) *)

Record Metrics := {
  total : nat;
  completed : nat;
  inProgress : nat;
  notStarted : nat;
  projects : nat;
  jobs : nat
}.

Definition hasStatus (s : TaskStatus) (t : Task) : bool :=
  TaskStatus_eqb (status t) s.
Definition hasType (k : WorkItemType) (t : Task) : bool :=
  WorkItemType_eqb (type t) k.

Definition newMetrics (tasks : list Task) : Metrics := {|
  total := length tasks;
  completed := length (filter (hasStatus Completed) tasks);
  inProgress := length (filter (hasStatus InProgress) tasks);
  notStarted := length (filter (hasStatus NotInitiated) tasks);
  projects := length (filter (hasType Project) tasks);
  jobs := length (filter (hasType Job) tasks)
|}.

(** A JavaScript [number] of the day average: an IEEE 754 double, with the
    additions, subtractions and divisions of the hardware. *)
Definition number := PrimFloat.float.

(** The double nearest to an integer, a tie going to the even mantissa; it
    is the integer itself up to 2^53 in size, so for every time stamp a
    [Date] can hold and for every length of an array. *)
Definition Number_of_Z (z : Z) : number :=
  FloatOps.SF2Prim
    (SpecFloat.binary_normalize FloatOps.prec FloatOps.emax z 0 false).

(** [Math.round]: a number that is not finite, a zero and a whole number
    come back as they are; any other number, [m / 2^k] with its sign, goes
    to the whole number nearest to it, a half going up; a result of zero
    keeps the sign of the argument. *)
Definition Math_round (x : number) : number :=
  match FloatOps.Prim2SF x with
  | SpecFloat.S754_finite s m e =>
      if 0 <=? e then x
      else
        let scale := 2 ^ (- e) in
        let v := if s then Z.neg m else Z.pos m in
        let n := (2 * v + scale) / (2 * scale) in
        if n =? 0 then (if s then PrimFloat.neg_zero else PrimFloat.zero)
        else Number_of_Z n
  | _ => x
  end.

Definition hasBothDates (t : Task) : bool :=
  isSome (dateCompleted t) && isSome (dateInitiated t).

(** [task.dateCompleted!.getTime() - task.dateInitiated!.getTime()], which
    the code evaluates on items that carry both dates only. *)
Definition completionTime (t : Task) : number :=
  match dateCompleted t, dateInitiated t with
  | Some c, Some i => PrimFloat.sub (Number_of_Z c) (Number_of_Z i)
  | _, _ => PrimFloat.nan
  end.

(** The [reduce] of [calculateAverageCompletionTime]: the durations in
    days, added one after the other from 0 in the order of the list. *)
Definition totalDays (completedTasks : list Task) : number :=
  fold_left
    (fun sum task =>
       PrimFloat.add sum
         (PrimFloat.div (completionTime task) (Number_of_Z (1000 * 60 * 60 * 24))))
    completedTasks PrimFloat.zero.

Definition calculateAverageCompletionTime (tasks : list Task) : number :=
  let completedTasks := filter hasBothDates tasks in
  if Nat.eqb (length completedTasks) 0 then PrimFloat.zero
  else
    Math_round
      (PrimFloat.div (totalDays completedTasks)
         (Number_of_Z (Z.of_nat (length completedTasks)))).

(** ** Strings *)

(** The string functions of the JavaScript engine that the code calls and
    that rest on the Unicode tables, which are no part of the repository:
    [String.prototype.toLowerCase], which lowers every letter that has a
    lower-case form, and [String.prototype.trim], which strips every white
    space and line terminator at both ends.  They are left open: whatever
    is proved of a definition that takes an engine holds for every
    engine, the browser's among them. *)
Class Engine := {
  toLowerCase : string -> string;
  trim : string -> string
}.

(** An engine for the worked examples, which agrees with the browser's on
    ASCII text: it lowers the letters A to Z and strips the ASCII white
    space (tab, line feed, vertical tab, form feed, carriage return,
    space). *)
Definition asciiLowerChar (c : ascii) : ascii :=
  let n := nat_of_ascii c in
  if (65 <=? n)%nat && (n <=? 90)%nat then ascii_of_nat (n + 32) else c.

Fixpoint asciiToLowerCase (s : string) : string :=
  match s with
  | EmptyString => EmptyString
  | String c r => String (asciiLowerChar c) (asciiToLowerCase r)
  end.

Definition isAsciiSpace (c : ascii) : bool :=
  let n := nat_of_ascii c in
  ((9 <=? n)%nat && (n <=? 13)%nat) || (n =? 32)%nat.

Fixpoint asciiTrimStart (s : string) : string :=
  match s with
  | EmptyString => EmptyString
  | String c r => if isAsciiSpace c then asciiTrimStart r else s
  end.

(** Drops the white space at the end: a character is kept when it is no
    white space or something is kept after it. *)
Fixpoint asciiTrimEnd (s : string) : string :=
  match s with
  | EmptyString => EmptyString
  | String c r =>
      match asciiTrimEnd r with
      | EmptyString =>
          if isAsciiSpace c then EmptyString else String c EmptyString
      | kept => String c kept
      end
  end.

Definition asciiTrim (s : string) : string := asciiTrimEnd (asciiTrimStart s).

Definition asciiEngine : Engine :=
  {| toLowerCase := asciiToLowerCase; trim := asciiTrim |}.

(** [s.includes(q)]: [q] occurs in [s] as a contiguous substring. *)
Fixpoint strIncludes (s q : string) : bool :=
  String.prefix q s
  || match s with
     | EmptyString => false
     | String _ r => strIncludes r q
     end.

(** [x?.toLowerCase().includes(q)] *)
Definition optIncludes {engine : Engine}
    (x : option string) (q : string) : bool :=
  match x with
  | Some s => strIncludes (toLowerCase s) q
  | None => false
  end.

(** [a.localeCompare(b)], as the code-point order; negative, zero or
    positive. *)
Definition localeCompare (a b : string) : Z :=
  match String.compare a b with
  | Lt => -1
  | Eq => 0
  | Gt => 1
  end.

(** ** Task grid: filter and sort (TaskGrid, src/unnamed/part_004) *)

Definition PRIORITY_ORDER (key : PriorityType) : Z :=
  match key with
  | Urgent => 4
  | High => 3
  | Medium => 2
  | Low => 1
  end.

Inductive SortOption :=
  | newest | oldest | title_asc | title_desc
  | priority_high | priority_low | price_high | price_low.

Module Filters.
Record t := {
  status : list TaskStatus;
  types : list WorkItemType;
  users : list string;
  materialStatus : list MaterialStatus;
  priorities : list PriorityType;
  requiresMaterial : option bool;
  hasDocuments : option bool;
  hasPrice : option bool
}.
End Filters.

Module UserInfo.
Record t := {
  id : string;
  name : string;
  email : string
}.
End UserInfo.

Definition initialFilters : Filters.t := {|
  Filters.status := [];
  Filters.types := [];
  Filters.users := [];
  Filters.materialStatus := [];
  Filters.priorities := [];
  Filters.requiresMaterial := None;
  Filters.hasDocuments := None;
  Filters.hasPrice := None
|}.

(** [arr.length > 0] *)
Definition nonEmpty {A} (arr : list A) : bool :=
  match arr with [] => false | _ :: _ => true end.

(** The predicate of the search filter; [query] is already lower-cased. *)
Definition matchesSearch {engine : Engine}
    (role : string) (userList : list UserInfo.t)
    (query : string) (task : Task) : bool :=
  let user :=
    find (fun u => String.eqb (UserInfo.id u) (userId task)) userList in
  strIncludes (toLowerCase (title task)) query
  || strIncludes (toLowerCase (description task)) query
  || strIncludes (toLowerCase (site task)) query
  || optIncludes (notes task) query
  || (negb (String.eqb (materialDescription task) "")
      && strIncludes (toLowerCase (materialDescription task)) query)
  || (String.eqb role "admin"
      && (optIncludes (uploaderEmail task) query
          || optIncludes (option_map UserInfo.name user) query
          || optIncludes (option_map UserInfo.email user) query)).

Definition statusPred (f : Filters.t) (task : Task) : bool :=
  includes TaskStatus_eqb (Filters.status f) (status task).
Definition typePred (f : Filters.t) (task : Task) : bool :=
  includes WorkItemType_eqb (Filters.types f) (type task).
Definition priorityPred (f : Filters.t) (task : Task) : bool :=
  includes (opt_eqb PriorityType_eqb) (map Some (Filters.priorities f))
    (priority task).
Definition userPred (f : Filters.t) (task : Task) : bool :=
  includes String.eqb (Filters.users f) (userId task).
Definition materialStatusPred (f : Filters.t) (task : Task) : bool :=
  match materialStatus task with
  | Some m => includes MaterialStatus_eqb (Filters.materialStatus f) m
  | None => false
  end.
Definition requiresMaterialPred (want : bool) (task : Task) : bool :=
  Bool.eqb (requiresMaterial task) want.
Definition hasDocumentsPred (want : bool) (task : Task) : bool :=
  if want then nonEmpty (images task) else negb (nonEmpty (images task)).
Definition hasPricePred (want : bool) (task : Task) : bool :=
  if want then isSome (quotedPrice task) || isSome (confirmedPrice task)
  else negb (isSome (quotedPrice task)) && negb (isSome (confirmedPrice task)).

(** One guarded filter step: [if (guard) result = result.filter(p)]. *)
Definition filterWhen {A} (guard : bool) (p : A -> bool) (result : list A)
    : list A :=
  if guard then filter p result else result.

(** A tri-state filter step: [if (x !== null) result = result.filter(...)]. *)
Definition filterTri {A} (x : option bool) (p : bool -> A -> bool)
    (result : list A) : list A :=
  match x with
  | Some want => filter (p want) result
  | None => result
  end.

(** The filtering half of [filteredAndSortedTasks]. *)
Definition applyFilters {engine : Engine}
    (role : string) (userList : list UserInfo.t)
    (searchQuery : string) (filters : Filters.t) (tasks : list Task)
    : list Task :=
  let result := tasks in
  let result :=
    filterWhen (negb (String.eqb searchQuery ""))
      (matchesSearch role userList (toLowerCase searchQuery)) result in
  let result :=
    filterWhen (nonEmpty (Filters.status filters)) (statusPred filters) result in
  let result :=
    filterWhen (nonEmpty (Filters.types filters)) (typePred filters) result in
  let result :=
    filterWhen (nonEmpty (Filters.priorities filters)) (priorityPred filters)
      result in
  let result :=
    filterWhen (nonEmpty (Filters.users filters)) (userPred filters) result in
  let result :=
    filterWhen (nonEmpty (Filters.materialStatus filters))
      (materialStatusPred filters) result in
  let result :=
    filterTri (Filters.requiresMaterial filters) requiresMaterialPred result in
  let result :=
    filterTri (Filters.hasDocuments filters) hasDocumentsPred result in
  filterTri (Filters.hasPrice filters) hasPricePred result.

(** [a.confirmedPrice || a.quotedPrice || 0] *)
Definition effectivePrice (a : Task) : Z :=
  numOr (confirmedPrice a) (numOr (quotedPrice a) 0).

(** [PRIORITY_ORDER[a.priority || 'medium']] *)
Definition priorityRank (a : Task) : Z :=
  PRIORITY_ORDER (orElse (priority a) Medium).

(** The comparator handed to [result.sort]. *)
Definition compareTasks (sortBy : SortOption) (a b : Task) : Z :=
  match sortBy with
  | newest => createdAt b - createdAt a
  | oldest => createdAt a - createdAt b
  | title_asc => localeCompare (title a) (title b)
  | title_desc => localeCompare (title b) (title a)
  | priority_high =>
      let aPriorityHigh := priorityRank a in
      let bPriorityHigh := priorityRank b in
      if negb (aPriorityHigh =? bPriorityHigh)
      then bPriorityHigh - aPriorityHigh
      else createdAt b - createdAt a
  | priority_low =>
      let aPriorityLow := priorityRank a in
      let bPriorityLow := priorityRank b in
      if negb (aPriorityLow =? bPriorityLow)
      then aPriorityLow - bPriorityLow
      else createdAt b - createdAt a
  | price_high =>
      let bPrice := effectivePrice b in
      let aPrice := effectivePrice a in
      bPrice - aPrice
  | price_low =>
      let bPrice2 := effectivePrice b in
      let aPrice2 := effectivePrice a in
      aPrice2 - bPrice2
  end.

(** [Array.prototype.sort(cmp)]: stable; [x] goes before the first element
    it does not compare greater than. *)
Fixpoint insertBy {A} (cmp : A -> A -> Z) (x : A) (l : list A) : list A :=
  match l with
  | [] => [x]
  | y :: l' => if cmp x y <=? 0 then x :: l else y :: insertBy cmp x l'
  end.

Definition Array_sort {A} (cmp : A -> A -> Z) (l : list A) : list A :=
  fold_right (insertBy cmp) [] l.

Definition filteredAndSortedTasks {engine : Engine}
    (role : string) (userList : list UserInfo.t)
    (searchQuery : string) (sortBy : SortOption) (filters : Filters.t)
    (tasks : list Task) : list Task :=
  Array_sort (compareTasks sortBy)
    (applyFilters role userList searchQuery filters tasks).

(** ** Report renderers (src/lib/email.ts) *)

Inductive ReportPeriod := daily | weekly | monthly | quarterly | yearly.

Module ReportOptions.
Record t := {
  period : ReportPeriod;
  startDate : option Date;
  endDate : option Date;
  includeCompleted : option bool;
  includeInProgress : option bool;
  includeNotStarted : option bool;
  includeProjects : option bool;
  includeJobs : option bool;
  includePriceDetails : option bool;
  selectedTasks : option (list string)
}.
End ReportOptions.

(** [x ?? d] *)
Definition nullishOr {A} (x : option A) (d : A) : A :=
  match x with Some a => a | None => d end.

Definition getDefaultDateRange (p : ReportPeriod) (date : Date) : Date * Date :=
  match p with
  | daily => (startOfDay date, endOfDay date)
  | weekly => (startOfWeek date, endOfWeek date)
  | monthly => (startOfMonth date, endOfMonth date)
  | quarterly => (startOfQuarter date, endOfQuarter date)
  | yearly => (startOfYear date, endOfYear date)
  end.

Definition periodName (p : ReportPeriod) : string :=
  match p with
  | daily => "daily"
  | weekly => "weekly"
  | monthly => "monthly"
  | quarterly => "quarterly"
  | yearly => "yearly"
  end.

(** [toUpperCase] of one letter; the code applies it to the first letter of
    the period names and of the priority keys only, which are lower-case
    ASCII words. *)
Definition upperChar (c : ascii) : ascii :=
  let n := nat_of_ascii c in
  if (97 <=? n)%nat && (n <=? 122)%nat then ascii_of_nat (n - 32) else c.

(** [s.charAt(0).toUpperCase() + s.slice(1)] *)
Definition capitalize (s : string) : string :=
  match s with
  | EmptyString => EmptyString
  | String c r => String (upperChar c) r
  end.

Definition Z_to_string (n : Z) : string := NilEmpty.string_of_int (Z.to_int n).

(** What a renderer writes into a table cell or a text line. *)
Inductive Cell :=
  | CStr (s : string)
  | CNum (n : Z)
  | CDate (d : Date)            (* format(d, "PP") *)
  | CLongDate (d : Date)        (* format(d, "PPP") *)
  | CPeriod (s e : Date).       (* format(s, "PPP") to format(e, "PPP") *)

(** [price !== null ? `$${price.toFixed(2)}` : "-"], on whole amounts. *)
Definition formatPrice (price : option Z) : string :=
  match price with
  | Some p => ("$" ++ Z_to_string p ++ ".00")%string
  | None => "-"
  end.

(** The date range both renderers start from; [now] is [new Date()]. *)
Definition reportDateRange (now : Date) (options : ReportOptions.t)
    : option (Date * Date) :=
  match ReportOptions.startDate options, ReportOptions.endDate options with
  | Some s, Some e => Some (startOfDay s, endOfDay e)
  | _, _ =>
      match ReportOptions.period options with
      | daily => Some (getDefaultDateRange daily now)
      | _ => None
      end
  end.

Definition statusFilters (options : ReportOptions.t) (s : TaskStatus) : bool :=
  match s with
  | Completed => nullishOr (ReportOptions.includeCompleted options) true
  | InProgress => nullishOr (ReportOptions.includeInProgress options) true
  | NotInitiated => nullishOr (ReportOptions.includeNotStarted options) true
  end.

Definition typeFilters (options : ReportOptions.t) (k : WorkItemType) : bool :=
  match k with
  | Project => nullishOr (ReportOptions.includeProjects options) true
  | Job => nullishOr (ReportOptions.includeJobs options) true
  end.

Definition inDateRange (dateRange : Date * Date) (task : Task) : bool :=
  let taskDate := createdAt task in
  (fst dateRange <=? taskDate) && (taskDate <=? snd dateRange).

Definition byNewest (a b : Task) : Z := createdAt b - createdAt a.

(** [filteredTasks] of [generatePDFReport], after its sort. *)
Definition pdfFilteredTasks (now : Date) (tasks : list Task)
    (options : ReportOptions.t) : list Task :=
  let dateRange := reportDateRange now options in
  let filteredTasks :=
    match ReportOptions.selectedTasks options with
    | Some sel =>
        filter (fun task => includes String.eqb sel (id task)) tasks
    | None =>
        let filteredTasks :=
          match dateRange with
          | Some r => filter (inDateRange r) tasks
          | None => tasks
          end in
        filter
          (fun task =>
             statusFilters options (status task)
             && typeFilters options (type task))
          filteredTasks
    end in
  Array_sort byNewest filteredTasks.

(** [filteredTasks] of [generateExcelReport], after its sort. *)
Definition excelFilteredTasks (now : Date) (tasks : list Task)
    (options : ReportOptions.t) : list Task :=
  let dateRange := reportDateRange now options in
  let filteredTasks :=
    match ReportOptions.selectedTasks options with
    | Some sel =>
        filter (fun task => includes String.eqb sel (id task)) tasks
    | None =>
        let filteredTasks :=
          match dateRange with
          | Some r => filter (inDateRange r) tasks
          | None => tasks
          end in
        filter
          (fun task =>
             statusFilters options (status task)
             && typeFilters options (type task))
          filteredTasks
    end in
  Array_sort byNewest filteredTasks.

Module Summary.
Record t := {
  totalTasks : nat;
  completed : nat;
  inProgress : nat;
  notStarted : nat;
  projects : nat;
  jobs : nat;
  urgent : nat;
  high : nat;
  medium : nat;
  low : nat;
  confirmedWork : nat;
  awaitingConfirmation : nat;
  withPO : nat
}.
End Summary.

Definition hasPriority (p : PriorityType) (t : Task) : bool :=
  opt_eqb PriorityType_eqb (priority t) (Some p).
Definition hasConfirmation (c : WorkConfirmationStatus) (t : Task) : bool :=
  WorkConfirmationStatus_eqb (workConfirmationStatus t) c.

(** The counts both renderers take over [filteredTasks]. *)
Definition summarize (filteredTasks : list Task) : Summary.t := {|
  Summary.totalTasks := length filteredTasks;
  Summary.completed := length (filter (hasStatus Completed) filteredTasks);
  Summary.inProgress := length (filter (hasStatus InProgress) filteredTasks);
  Summary.notStarted := length (filter (hasStatus NotInitiated) filteredTasks);
  Summary.projects := length (filter (hasType Project) filteredTasks);
  Summary.jobs := length (filter (hasType Job) filteredTasks);
  Summary.urgent := length (filter (hasPriority Urgent) filteredTasks);
  Summary.high := length (filter (hasPriority High) filteredTasks);
  Summary.medium := length (filter (hasPriority Medium) filteredTasks);
  Summary.low := length (filter (hasPriority Low) filteredTasks);
  Summary.confirmedWork :=
    length (filter (hasConfirmation Confirmed) filteredTasks);
  Summary.awaitingConfirmation :=
    length (filter (hasConfirmation Awaiting) filteredTasks);
  Summary.withPO :=
    length (filter (fun t => truthyStr (poNumber t)) filteredTasks)
|}.

(** The totals of the price summary.  Prices are whole amounts here, and
    on whole amounts below 2^53 the additions of the code are exact; the
    totals only fill their two cells of the report. *)
Definition totalQuoted (filteredTasks : list Task) : Z :=
  fold_left (fun sum task => sum + numOr (quotedPrice task) 0) filteredTasks 0.
Definition totalConfirmed (filteredTasks : list Task) : Z :=
  fold_left (fun sum task => sum + numOr (confirmedPrice task) 0)
    filteredTasks 0.

Definition wantsPrices (options : ReportOptions.t) : bool :=
  nullishOr (ReportOptions.includePriceDetails options) false.

Definition statusText (s : TaskStatus) : string :=
  match s with
  | NotInitiated => "not initiated"
  | InProgress => "in progress"
  | Completed => "completed"
  end.
Definition typeText (k : WorkItemType) : string :=
  match k with Project => "project" | Job => "job" end.
Definition priorityText (p : PriorityType) : string :=
  match p with
  | Low => "low" | Medium => "medium" | High => "high" | Urgent => "urgent"
  end.
Definition sourceText (s : SourceType) : string :=
  match s with
  | Call => "call" | Text => "text" | Email => "email"
  | InPerson => "in-person"
  end.
Definition materialText (m : MaterialStatus) : string :=
  match m with
  | Ordered => "ordered" | YetToBeShipped => "yet to be shipped"
  | InTransit => "in transit" | Received => "received"
  end.
Definition workStatusText (c : WorkConfirmationStatus) : string :=
  match c with
  | Awaiting => "Awaiting Confirmation"
  | Confirmed => "Confirmed"
  end.

(** [s || d] on an optional string: the empty string is falsy. *)
Definition strOr (x : option string) (d : string) : string :=
  match x with
  | Some s => if String.eqb s "" then d else s
  | None => d
  end.

Definition dateOr (x : option Date) (d : string) : Cell :=
  match x with Some t0 => CDate t0 | None => CStr d end.

Definition pdfHeaders (options : ReportOptions.t) : list string :=
  ["Title"; "Site"; "Type"; "Status"; "Priority"; "Work Status"; "PO Number";
   "Created"; "Started"; "Completed"]%string
  ++ (if wantsPrices options
      then ["Quoted Price"; "Confirmed Price"]%string
      else []).

Definition pdfRow (options : ReportOptions.t) (task : Task) : list Cell :=
  [CStr (title task); CStr (site task); CStr (typeText (type task));
   CStr (statusText (status task));
   CStr (priorityText (orElse (priority task) Medium));
   CStr (workStatusText (workConfirmationStatus task));
   CStr (strOr (poNumber task) "-");
   CDate (createdAt task);
   dateOr (dateInitiated task) "-";
   dateOr (dateCompleted task) "-"]
  ++ (if wantsPrices options
      then [CStr (formatPrice (quotedPrice task));
            CStr (formatPrice (confirmedPrice task))]
      else []).

Module PDF.
Record t := {
  title : string;
  generatedOn : Date;
  periodLine : option (Date * Date);
  startY : Q;
  head : list string;
  body : list (list Cell);
  summary : Summary.t;
  priceSummary : option (string * string)
}.
End PDF.

Definition generatePDFReport (now : Date) (tasks : list Task)
    (options : ReportOptions.t) : PDF.t :=
  let dateRange := reportDateRange now options in
  let selecting := isSome (ReportOptions.selectedTasks options) in
  let title :=
    if selecting then "Custom Data Report"%string
    else ("Work Tasks Report - "
          ++ capitalize (periodName (ReportOptions.period options)))%string in
  let periodLine := if selecting then None else dateRange in
  let filteredTasks := pdfFilteredTasks now tasks options in
  {| PDF.title := title;
     PDF.generatedOn := now;
     PDF.periodLine := periodLine;
     PDF.startY := if isSome periodLine then (7 # 4)%Q else (3 # 2)%Q;
     PDF.head := pdfHeaders options;
     PDF.body := map (pdfRow options) filteredTasks;
     PDF.summary := summarize filteredTasks;
     PDF.priceSummary :=
       if wantsPrices options
       then Some (formatPrice (Some (totalQuoted filteredTasks)),
                  formatPrice (Some (totalConfirmed filteredTasks)))
       else None |}.

Module Workbook.
(** The "Tasks" sheet is built from one keyed object per item; the
    "Summary" sheet from an array of rows. *)
Record t := {
  Tasks : list (list (string * Cell));
  Summary : list (list Cell)
}.
End Workbook.

Definition excelRow (options : ReportOptions.t) (task : Task)
    : list (string * Cell) :=
  let baseData :=
    [("Title", CStr (title task));
     ("Site", CStr (site task));
     ("Type", CStr (typeText (type task)));
     ("Status", CStr (statusText (status task)));
     ("Priority", CStr (priorityText (orElse (priority task) Medium)));
     ("Work Status", CStr (workStatusText (workConfirmationStatus task)));
     ("PO Number", CStr (strOr (poNumber task) ""));
     ("Description", CStr (description task));
     ("Notes", CStr (strOr (notes task) ""));
     ("Created", CDate (createdAt task));
     ("Updated", CDate (updatedAt task));
     ("Date Initiated", dateOr (dateInitiated task) "");
     ("Date Completed", dateOr (dateCompleted task) "");
     ("Source", CStr (sourceText (source task)));
     ("Requires Material",
      CStr (if requiresMaterial task then "Yes" else "No"));
     ("Material Status",
      CStr (match materialStatus task with
            | Some m => materialText m
            | None => ""
            end));
     ("Material Description", CStr (materialDescription task))]%string in
  let priceCell (p : option Z) :=
    match p with Some n => CNum n | None => CStr "" end in
  if wantsPrices options
  then baseData
       ++ [("Quoted Price", priceCell (quotedPrice task));
           ("Confirmed Price", priceCell (confirmedPrice task))]%string
  else baseData.

Definition generateExcelReport (now : Date) (tasks : list Task)
    (options : ReportOptions.t) : Workbook.t :=
  let dateRange := reportDateRange now options in
  let filteredTasks := excelFilteredTasks now tasks options in
  let data := map (excelRow options) filteredTasks in
  let s := summarize filteredTasks in
  let num (n : nat) := CNum (Z.of_nat n) in
  let summaryData :=
    [[CStr "Report Summary"];
     [CStr "Generated On"; CLongDate now];
     [CStr "Period";
      match dateRange with
      | Some r => CPeriod (fst r) (snd r)
      | None => CStr "All Time"
      end];
     [CStr ""];
     [CStr "Total Tasks"; num (Summary.totalTasks s)];
     [CStr ""];
     [CStr "Status Distribution"];
     [CStr "Completed"; num (Summary.completed s)];
     [CStr "In Progress"; num (Summary.inProgress s)];
     [CStr "Not Started"; num (Summary.notStarted s)];
     [CStr ""];
     [CStr "Type Distribution"];
     [CStr "Projects"; num (Summary.projects s)];
     [CStr "Jobs"; num (Summary.jobs s)];
     [CStr ""];
     [CStr "Priority Distribution"];
     [CStr "Urgent"; num (Summary.urgent s)];
     [CStr "High"; num (Summary.high s)];
     [CStr "Medium"; num (Summary.medium s)];
     [CStr "Low"; num (Summary.low s)];
     [CStr ""];
     [CStr "Work Confirmation"];
     [CStr "Confirmed"; num (Summary.confirmedWork s)];
     [CStr "Awaiting Confirmation"; num (Summary.awaitingConfirmation s)];
     [CStr "With PO"; num (Summary.withPO s)]]%string in
  let summaryData :=
    if wantsPrices options
    then summaryData
         ++ [[CStr ""];
             [CStr "Price Summary"];
             [CStr "Total Quoted"; CNum (totalQuoted filteredTasks)];
             [CStr "Total Confirmed"; CNum (totalConfirmed filteredTasks)]
            ]%string
    else summaryData in
  {| Workbook.Tasks := data; Workbook.Summary := summaryData |}.

(** Every piece of text a workbook carries: sheet names, column keys and
    text cells. *)
Definition cellText (c : Cell) : list string :=
  match c with CStr s => [s] | _ => [] end.

Definition workbookText (w : Workbook.t) : list string :=
  ["Tasks"; "Summary"]%string
  ++ flat_map (fun row => flat_map (fun kv => fst kv :: cellText (snd kv)) row)
       (Workbook.Tasks w)
  ++ flat_map (fun row => flat_map cellText row) (Workbook.Summary w).

(** The row of the summary sheet labelled "Period". *)
Definition excelPeriodRow (w : Workbook.t) : option (list Cell) :=
  find (fun row =>
          match row with
          | CStr label :: _ => String.eqb label "Period"
          | _ => false
          end)
       (Workbook.Summary w).

(** ** Report dialog (ReportDialog, src/unnamed/part_007) *)

Module Toast.
Record t := {
  variant : option string;
  title : string;
  description : string
}.
End Toast.

Inductive DialogPeriod :=
  | named (p : ReportPeriod)
  | custom
  | selection.

Module ReportDialog.
Record t := {
  period : DialogPeriod;
  selectedDate : option Date;
  startDate : option Date;
  endDate : option Date;
  includeCompleted : bool;
  includeInProgress : bool;
  includeNotStarted : bool;
  includeProjects : bool;
  includeJobs : bool;
  selectedTasks : list string;
  toasts : list Toast.t
}.

Definition setPeriod (v : DialogPeriod) (st : t) : t :=
  {| period := v; selectedDate := selectedDate st;
     startDate := startDate st; endDate := endDate st;
     includeCompleted := includeCompleted st;
     includeInProgress := includeInProgress st;
     includeNotStarted := includeNotStarted st;
     includeProjects := includeProjects st;
     includeJobs := includeJobs st;
     selectedTasks := selectedTasks st; toasts := toasts st |}.

Definition setSelectedDate (v : option Date) (st : t) : t :=
  {| period := period st; selectedDate := v;
     startDate := startDate st; endDate := endDate st;
     includeCompleted := includeCompleted st;
     includeInProgress := includeInProgress st;
     includeNotStarted := includeNotStarted st;
     includeProjects := includeProjects st;
     includeJobs := includeJobs st;
     selectedTasks := selectedTasks st; toasts := toasts st |}.

Definition setStartDate (v : option Date) (st : t) : t :=
  {| period := period st; selectedDate := selectedDate st;
     startDate := v; endDate := endDate st;
     includeCompleted := includeCompleted st;
     includeInProgress := includeInProgress st;
     includeNotStarted := includeNotStarted st;
     includeProjects := includeProjects st;
     includeJobs := includeJobs st;
     selectedTasks := selectedTasks st; toasts := toasts st |}.

Definition setEndDate (v : option Date) (st : t) : t :=
  {| period := period st; selectedDate := selectedDate st;
     startDate := startDate st; endDate := v;
     includeCompleted := includeCompleted st;
     includeInProgress := includeInProgress st;
     includeNotStarted := includeNotStarted st;
     includeProjects := includeProjects st;
     includeJobs := includeJobs st;
     selectedTasks := selectedTasks st; toasts := toasts st |}.

Definition setSelectedTasks (v : list string) (st : t) : t :=
  {| period := period st; selectedDate := selectedDate st;
     startDate := startDate st; endDate := endDate st;
     includeCompleted := includeCompleted st;
     includeInProgress := includeInProgress st;
     includeNotStarted := includeNotStarted st;
     includeProjects := includeProjects st;
     includeJobs := includeJobs st;
     selectedTasks := v; toasts := toasts st |}.

Definition toast (v : Toast.t) (st : t) : t :=
  {| period := period st; selectedDate := selectedDate st;
     startDate := startDate st; endDate := endDate st;
     includeCompleted := includeCompleted st;
     includeInProgress := includeInProgress st;
     includeNotStarted := includeNotStarted st;
     includeProjects := includeProjects st;
     includeJobs := includeJobs st;
     selectedTasks := selectedTasks st; toasts := toasts st ++ [v] |}.

(** The dialog as first opened. *)
Definition initial : t :=
  {| period := named daily; selectedDate := None;
     startDate := None; endDate := None;
     includeCompleted := true; includeInProgress := true;
     includeNotStarted := true; includeProjects := true;
     includeJobs := true; selectedTasks := []; toasts := [] |}.
End ReportDialog.

Definition invalidDateToast : Toast.t :=
  {| Toast.variant := Some "destructive"%string;
     Toast.title := "Invalid Date";
     Toast.description := "Cannot select dates beyond today" |}.

(** [const today = endOfDay(new Date())] *)
Definition today (now : Date) : Date := endOfDay now.

Definition handlePeriodChange (value : DialogPeriod) (st : ReportDialog.t)
    : ReportDialog.t :=
  ReportDialog.setSelectedTasks []
    (ReportDialog.setEndDate None
       (ReportDialog.setStartDate None
          (ReportDialog.setSelectedDate None
             (ReportDialog.setPeriod value st)))).

(** The calendar range of a named period around [date]; [None] is the
    [default: return] of the switch. *)
Definition periodRange (p : DialogPeriod) (date : Date) : option (Date * Date) :=
  match p with
  | named weekly => Some (startOfWeek date, endOfWeek date)
  | named monthly => Some (startOfMonth date, endOfMonth date)
  | named quarterly => Some (startOfQuarter date, endOfQuarter date)
  | named yearly => Some (startOfYear date, endOfYear date)
  | _ => None
  end.

Definition handleDateSelect (now : Date) (date : option Date)
    (st : ReportDialog.t) : ReportDialog.t :=
  match date with
  | Some d =>
      if isAfter d (today now) then ReportDialog.toast invalidDateToast st
      else
        let st := ReportDialog.setSelectedDate date st in
        match periodRange (ReportDialog.period st) d with
        | Some (start, end_) =>
            let end_ := if isAfter end_ (today now) then today now else end_ in
            ReportDialog.setEndDate (Some end_)
              (ReportDialog.setStartDate (Some start) st)
        | None => st
        end
  | None => ReportDialog.setSelectedDate date st
  end.

Definition handleStartDateSelect (now : Date) (date : option Date)
    (st : ReportDialog.t) : ReportDialog.t :=
  match date with
  | Some d =>
      if isAfter d (today now) then ReportDialog.toast invalidDateToast st
      else
        let st' := ReportDialog.setStartDate date st in
        match ReportDialog.endDate st with
        | Some e =>
            if isAfter d e then ReportDialog.setEndDate None st' else st'
        | None => st'
        end
  | None => ReportDialog.setStartDate date st
  end.

Definition handleEndDateSelect (now : Date) (date : option Date)
    (st : ReportDialog.t) : ReportDialog.t :=
  match date with
  | Some d =>
      if isAfter d (today now) then ReportDialog.toast invalidDateToast st
      else ReportDialog.setEndDate date st
  | None => ReportDialog.setEndDate date st
  end.

(** The [disabled] predicate of the end-date calendar:
    [(startDate ? date < startDate : false) || isAfter(date, today)]. *)
Definition endDateDisabled (now : Date) (st : ReportDialog.t) (date : Date)
    : bool :=
  match ReportDialog.startDate st with
  | Some s => date <? s
  | None => false
  end
  || isAfter date (today now).

(** The options object [handleGenerateReport] hands to the renderers. *)
Definition dialogOptions (st : ReportDialog.t) (includePrices : bool)
    : ReportOptions.t :=
  let isDaily :=
    match ReportDialog.period st with named daily => true | _ => false end in
  {| ReportOptions.period :=
       match ReportDialog.period st with
       | named p => p
       | custom | selection => daily
       end;
     ReportOptions.startDate :=
       if isDaily then None else ReportDialog.startDate st;
     ReportOptions.endDate :=
       if isDaily then None else ReportDialog.endDate st;
     ReportOptions.includeCompleted := Some (ReportDialog.includeCompleted st);
     ReportOptions.includeInProgress :=
       Some (ReportDialog.includeInProgress st);
     ReportOptions.includeNotStarted :=
       Some (ReportDialog.includeNotStarted st);
     ReportOptions.includeProjects := Some (ReportDialog.includeProjects st);
     ReportOptions.includeJobs := Some (ReportDialog.includeJobs st);
     ReportOptions.includePriceDetails := Some includePrices;
     ReportOptions.selectedTasks :=
       match ReportDialog.period st with
       | selection => Some (ReportDialog.selectedTasks st)
       | _ => None
       end |}.

(** ** Task editor: attachments (TaskDialog, src/unnamed/part_005) *)

Definition File := string.

Record TaskImage := {
  file : File;
  preview : string
}.

Module TaskDialog.
Record t := {
  taskImages : list TaskImage;
  existingImages : list string;
  toasts : list Toast.t
}.
End TaskDialog.

Definition fileLimitToast (remainingSlots : Z) : Toast.t :=
  {| Toast.variant := Some "destructive"%string;
     Toast.title := "Error";
     Toast.description :=
       ("You can only add " ++ Z_to_string remainingSlots ++ " more file"
        ++ (if (remainingSlots =? 1)%Z then "" else "s"))%string |}.

(** [files] is [e.target.files]; [createObjectURL] stands for the browser's
    [URL.createObjectURL]. *)
Definition handleFileChange (createObjectURL : File -> string)
    (files : option (list File)) (st : TaskDialog.t) : TaskDialog.t :=
  match files with
  | Some ((_ :: _) as files) =>
      let totalFiles :=
        Z.of_nat (length (TaskDialog.taskImages st))
        + Z.of_nat (length (TaskDialog.existingImages st)) in
      let remainingSlots := 50 - totalFiles in
      if Z.of_nat (length files) >? remainingSlots
      then
        {| TaskDialog.taskImages := TaskDialog.taskImages st;
           TaskDialog.existingImages := TaskDialog.existingImages st;
           TaskDialog.toasts :=
             TaskDialog.toasts st ++ [fileLimitToast remainingSlots] |}
      else
        let newFiles :=
          map (fun f => {| file := f; preview := createObjectURL f |}) files in
        {| TaskDialog.taskImages := TaskDialog.taskImages st ++ newFiles;
           TaskDialog.existingImages := TaskDialog.existingImages st;
           TaskDialog.toasts := TaskDialog.toasts st |}
  | _ => st
  end.

(** Number of documents attached in the editor: saved plus pending. *)
Definition attachmentCount (st : TaskDialog.t) : nat :=
  length (TaskDialog.taskImages st) + length (TaskDialog.existingImages st).

(** A run of file-add actions. *)
Definition addFilesRun (createObjectURL : File -> string)
    (actions : list (option (list File))) (st : TaskDialog.t) : TaskDialog.t :=
  fold_left (fun s files => handleFileChange createObjectURL files s) actions st.

(** ** Vocabulary of the statements *)

(** [x] may stand before [y] under comparator [cmp]. *)
Definition notAfter {A} (cmp : A -> A -> Z) (x y : A) : Prop := cmp x y <= 0.

(** The effective price as the specification words it: the confirmed price
    if present, else the quoted price if present, else zero.  Compared with
    [effectivePrice], which is what the comparator computes. *)
Definition effectivePrice_spec (t : Task) : Z :=
  match confirmedPrice t with
  | Some c => c
  | None => match quotedPrice t with Some q => q | None => 0 end
  end.

(** A job with the given id, creation time, status, priority, prices and
    dates; every other field empty. *)
Definition sampleTask (i : string) (created : Date) (s : TaskStatus)
    (p : PriorityType) (quoted confirmed : option Z)
    (initiated finished : option Date) : Task :=
  {| id := i; title := i; site := ""; description := ""; notes := None;
     status := s; images := []; userId := "u1";
     createdAt := created; updatedAt := created;
     dateInitiated := initiated; dateCompleted := finished;
     assignedTo := None; uploaderEmail := None;
     type := Job; source := Call; priority := Some p;
     requiresMaterial := false; materialStatus := None;
     materialDescription := "";
     quotedPrice := quoted; confirmedPrice := confirmed;
     workConfirmationStatus := Awaiting; poNumber := None |}.

(** [query] occurs in [field], letter case aside: the lower-cased query is
    a part of the lower-cased field. *)
Definition containsCI {engine : Engine} (field query : string) : Prop :=
  exists pre post,
    toLowerCase field = (pre ++ toLowerCase query ++ post)%string.

(** The free-text criterion: no query, or the query occurs in the title,
    the description, the site, the notes or the material description (when
    there is one), or, for an admin, in the uploader's email or in the name
    or email of the first listed user with the task's user id. *)
Definition satisfiesSearch {engine : Engine}
    (role : string) (userList : list UserInfo.t)
    (searchQuery : string) (t : Task) : Prop :=
  searchQuery = ""%string
  \/ containsCI (title t) searchQuery
  \/ containsCI (description t) searchQuery
  \/ containsCI (site t) searchQuery
  \/ (exists n, notes t = Some n /\ containsCI n searchQuery)
  \/ (materialDescription t <> ""%string
      /\ containsCI (materialDescription t) searchQuery)
  \/ (role = "admin"%string
      /\ ((exists e, uploaderEmail t = Some e /\ containsCI e searchQuery)
          \/ (exists u,
                find (fun u => String.eqb (UserInfo.id u) (userId t)) userList
                = Some u
                /\ (containsCI (UserInfo.name u) searchQuery
                    \/ containsCI (UserInfo.email u) searchQuery)))).

(** The criteria of the filter panel; an empty set or a [null] tri-state
    asks nothing of the item. *)
Definition satisfiesFilters (f : Filters.t) (t : Task) : Prop :=
  (Filters.status f = [] \/ In (status t) (Filters.status f))
  /\ (Filters.types f = [] \/ In (type t) (Filters.types f))
  /\ (Filters.priorities f = []
      \/ exists p, priority t = Some p /\ In p (Filters.priorities f))
  /\ (Filters.users f = [] \/ In (userId t) (Filters.users f))
  /\ (Filters.materialStatus f = []
      \/ exists m, materialStatus t = Some m /\ In m (Filters.materialStatus f))
  /\ (forall want, Filters.requiresMaterial f = Some want ->
        requiresMaterial t = want)
  /\ (forall want, Filters.hasDocuments f = Some want ->
        (want = true <-> images t <> []))
  /\ (forall want, Filters.hasPrice f = Some want ->
        (want = true <-> (quotedPrice t <> None \/ confirmedPrice t <> None))).



(** 1 January and 11 January 2024, midnight. *)
Definition jan1 : Date := 1704067200000.
Definition jan11 : Date := 1704931200000.

(** ** Task grid: filter panel, badge and pages (TaskGrid, src/unnamed/part_004) *)


(** The number shown on the filter button. *)
Definition activeFilterCount (filters : Filters.t) : Z :=
  let count := 0 in
  let count := if nonEmpty (Filters.status filters) then count + 1 else count in
  let count := if nonEmpty (Filters.types filters) then count + 1 else count in
  let count := if nonEmpty (Filters.users filters) then count + 1 else count in
  let count :=
    if nonEmpty (Filters.materialStatus filters) then count + 1 else count in
  let count :=
    if nonEmpty (Filters.priorities filters) then count + 1 else count in
  let count :=
    if isSome (Filters.requiresMaterial filters) then count + 1 else count in
  let count :=
    if isSome (Filters.hasDocuments filters) then count + 1 else count in
  let count := if isSome (Filters.hasPrice filters) then count + 1 else count in
  count.

(** The eight dimensions of the filter panel, in the order in which the
    filter step takes them. *)
Inductive Dimension :=
  | byStatus
  | byType
  | byPriority
  | byUser
  | byMaterialStatus
  | byRequiresMaterial
  | byHasDocuments
  | byHasPrice.

Definition allDimensions : list Dimension :=
  [byStatus; byType; byPriority; byUser; byMaterialStatus;
   byRequiresMaterial; byHasDocuments; byHasPrice].

(** The condition under which the filter step filters by the dimension:
    its set is not empty, or its switch is not [null]. *)
Definition dimensionInUse (filters : Filters.t) (d : Dimension) : bool :=
  match d with
  | byStatus => nonEmpty (Filters.status filters)
  | byType => nonEmpty (Filters.types filters)
  | byPriority => nonEmpty (Filters.priorities filters)
  | byUser => nonEmpty (Filters.users filters)
  | byMaterialStatus => nonEmpty (Filters.materialStatus filters)
  | byRequiresMaterial => isSome (Filters.requiresMaterial filters)
  | byHasDocuments => isSome (Filters.hasDocuments filters)
  | byHasPrice => isSome (Filters.hasPrice filters)
  end.

(** The dimension's part of the filter step. *)
Definition dimensionStep (filters : Filters.t) (d : Dimension)
    (result : list Task) : list Task :=
  match d with
  | byStatus =>
      filterWhen (nonEmpty (Filters.status filters)) (statusPred filters) result
  | byType =>
      filterWhen (nonEmpty (Filters.types filters)) (typePred filters) result
  | byPriority =>
      filterWhen (nonEmpty (Filters.priorities filters)) (priorityPred filters)
        result
  | byUser =>
      filterWhen (nonEmpty (Filters.users filters)) (userPred filters) result
  | byMaterialStatus =>
      filterWhen (nonEmpty (Filters.materialStatus filters))
        (materialStatusPred filters) result
  | byRequiresMaterial =>
      filterTri (Filters.requiresMaterial filters) requiresMaterialPred result
  | byHasDocuments =>
      filterTri (Filters.hasDocuments filters) hasDocumentsPred result
  | byHasPrice => filterTri (Filters.hasPrice filters) hasPricePred result
  end.

(** The filters with one dimension put back to its initial value. *)
Definition clearDimension (d : Dimension) (filters : Filters.t) : Filters.t :=
  {| Filters.status :=
       match d with byStatus => [] | _ => Filters.status filters end;
     Filters.types :=
       match d with byType => [] | _ => Filters.types filters end;
     Filters.users :=
       match d with byUser => [] | _ => Filters.users filters end;
     Filters.materialStatus :=
       match d with
       | byMaterialStatus => []
       | _ => Filters.materialStatus filters
       end;
     Filters.priorities :=
       match d with byPriority => [] | _ => Filters.priorities filters end;
     Filters.requiresMaterial :=
       match d with
       | byRequiresMaterial => None
       | _ => Filters.requiresMaterial filters
       end;
     Filters.hasDocuments :=
       match d with
       | byHasDocuments => None
       | _ => Filters.hasDocuments filters
       end;
     Filters.hasPrice :=
       match d with byHasPrice => None | _ => Filters.hasPrice filters end |}.

(** The user list of the filter panel, narrowed by its own search box. *)
Definition filteredUsers {engine : Engine}
    (userList : list UserInfo.t) (userSearchQuery : string)
    : list UserInfo.t :=
  if String.eqb userSearchQuery "" then userList
  else
    let query := toLowerCase userSearchQuery in
    filter
      (fun user =>
         strIncludes (toLowerCase (UserInfo.name user)) query
         || strIncludes (toLowerCase (UserInfo.email user)) query)
      userList.

(** What a checkbox hands to [onCheckedChange]. *)
Inductive CheckedState :=
  | checkedIs (b : bool)
  | indeterminate.

(** Truthiness of a [CheckedState]: ['indeterminate'] is a non-empty
    string. *)
Definition truthyChecked (checked : CheckedState) : bool :=
  match checked with
  | checkedIs b => b
  | indeterminate => true
  end.

(** [checked ? [...prev, v] : prev.filter(s => s !== v)] *)
Definition toggleChecked {A} (eqb : A -> A -> bool) (checked : CheckedState)
    (v : A) (prev : list A) : list A :=
  if truthyChecked checked then prev ++ [v]
  else filter (fun s => negb (eqb s v)) prev.

(** [checked === 'indeterminate' ? null : checked] *)
Definition triChecked (checked : CheckedState) : option bool :=
  match checked with
  | indeterminate => None
  | checkedIs b => Some b
  end.

Definition onStatusChecked (status : TaskStatus) (checked : CheckedState)
    (prev : Filters.t) : Filters.t :=
  {| Filters.status :=
       toggleChecked TaskStatus_eqb checked status (Filters.status prev);
     Filters.types := Filters.types prev;
     Filters.users := Filters.users prev;
     Filters.materialStatus := Filters.materialStatus prev;
     Filters.priorities := Filters.priorities prev;
     Filters.requiresMaterial := Filters.requiresMaterial prev;
     Filters.hasDocuments := Filters.hasDocuments prev;
     Filters.hasPrice := Filters.hasPrice prev |}.

Definition onTypeChecked (type : WorkItemType) (checked : CheckedState)
    (prev : Filters.t) : Filters.t :=
  {| Filters.status := Filters.status prev;
     Filters.types :=
       toggleChecked WorkItemType_eqb checked type (Filters.types prev);
     Filters.users := Filters.users prev;
     Filters.materialStatus := Filters.materialStatus prev;
     Filters.priorities := Filters.priorities prev;
     Filters.requiresMaterial := Filters.requiresMaterial prev;
     Filters.hasDocuments := Filters.hasDocuments prev;
     Filters.hasPrice := Filters.hasPrice prev |}.

Definition onPriorityChecked (priority : PriorityType) (checked : CheckedState)
    (prev : Filters.t) : Filters.t :=
  {| Filters.status := Filters.status prev;
     Filters.types := Filters.types prev;
     Filters.users := Filters.users prev;
     Filters.materialStatus := Filters.materialStatus prev;
     Filters.priorities :=
       toggleChecked PriorityType_eqb checked priority (Filters.priorities prev);
     Filters.requiresMaterial := Filters.requiresMaterial prev;
     Filters.hasDocuments := Filters.hasDocuments prev;
     Filters.hasPrice := Filters.hasPrice prev |}.

Definition onMaterialStatusChecked (status : MaterialStatus)
    (checked : CheckedState) (prev : Filters.t) : Filters.t :=
  {| Filters.status := Filters.status prev;
     Filters.types := Filters.types prev;
     Filters.users := Filters.users prev;
     Filters.materialStatus :=
       toggleChecked MaterialStatus_eqb checked status
         (Filters.materialStatus prev);
     Filters.priorities := Filters.priorities prev;
     Filters.requiresMaterial := Filters.requiresMaterial prev;
     Filters.hasDocuments := Filters.hasDocuments prev;
     Filters.hasPrice := Filters.hasPrice prev |}.

Definition onUserChecked (userId : string) (checked : CheckedState)
    (prev : Filters.t) : Filters.t :=
  {| Filters.status := Filters.status prev;
     Filters.types := Filters.types prev;
     Filters.users := toggleChecked String.eqb checked userId (Filters.users prev);
     Filters.materialStatus := Filters.materialStatus prev;
     Filters.priorities := Filters.priorities prev;
     Filters.requiresMaterial := Filters.requiresMaterial prev;
     Filters.hasDocuments := Filters.hasDocuments prev;
     Filters.hasPrice := Filters.hasPrice prev |}.

Definition onRequiresMaterialChecked (checked : CheckedState)
    (prev : Filters.t) : Filters.t :=
  {| Filters.status := Filters.status prev;
     Filters.types := Filters.types prev;
     Filters.users := Filters.users prev;
     Filters.materialStatus := Filters.materialStatus prev;
     Filters.priorities := Filters.priorities prev;
     Filters.requiresMaterial := triChecked checked;
     Filters.hasDocuments := Filters.hasDocuments prev;
     Filters.hasPrice := Filters.hasPrice prev |}.

Definition onHasDocumentsChecked (checked : CheckedState)
    (prev : Filters.t) : Filters.t :=
  {| Filters.status := Filters.status prev;
     Filters.types := Filters.types prev;
     Filters.users := Filters.users prev;
     Filters.materialStatus := Filters.materialStatus prev;
     Filters.priorities := Filters.priorities prev;
     Filters.requiresMaterial := Filters.requiresMaterial prev;
     Filters.hasDocuments := triChecked checked;
     Filters.hasPrice := Filters.hasPrice prev |}.

Definition onHasPriceChecked (checked : CheckedState)
    (prev : Filters.t) : Filters.t :=
  {| Filters.status := Filters.status prev;
     Filters.types := Filters.types prev;
     Filters.users := Filters.users prev;
     Filters.materialStatus := Filters.materialStatus prev;
     Filters.priorities := Filters.priorities prev;
     Filters.requiresMaterial := Filters.requiresMaterial prev;
     Filters.hasDocuments := Filters.hasDocuments prev;
     Filters.hasPrice := triChecked checked |}.


(** The relative index [Array.prototype.slice] computes from an argument:
    a negative one counts from the end, and both ends are clamped. *)
Definition relativeIndex (i len : Z) : Z :=
  if i <? 0 then Z.max (len + i) 0 else Z.min i len.

(** [arr.slice(start, end)] *)
Definition Array_slice {A} (start end_ : Z) (arr : list A) : list A :=
  let len := Z.of_nat (length arr) in
  let k := relativeIndex start len in
  let final := relativeIndex end_ len in
  firstn (Z.to_nat (final - k)) (skipn (Z.to_nat k) arr).




(** Whether an item passes every step of [applyFilters]. *)
Definition passesFilters {engine : Engine}
    (role : string) (userList : list UserInfo.t)
    (searchQuery : string) (filters : Filters.t) (task : Task) : bool :=
  (String.eqb searchQuery ""
   || matchesSearch role userList (toLowerCase searchQuery) task)
  && (negb (nonEmpty (Filters.status filters)) || statusPred filters task)
  && (negb (nonEmpty (Filters.types filters)) || typePred filters task)
  && (negb (nonEmpty (Filters.priorities filters)) || priorityPred filters task)
  && (negb (nonEmpty (Filters.users filters)) || userPred filters task)
  && (negb (nonEmpty (Filters.materialStatus filters))
      || materialStatusPred filters task)
  && match Filters.requiresMaterial filters with
     | Some want => requiresMaterialPred want task
     | None => true
     end
  && match Filters.hasDocuments filters with
     | Some want => hasDocumentsPred want task
     | None => true
     end
  && match Filters.hasPrice filters with
     | Some want => hasPricePred want task
     | None => true
     end.

(** ** Dashboard: further metrics and charts (src/app/page.tsx) *)

Record AdditionalMetrics := {
  totalValue : Z;
  confirmedValue : Z;
  materialTasks : nat;
  documentsCount : Z;
  confirmedTasks : nat;
  highPriorityTasks : nat;
  projectsInProgress : nat;
  avgCompletionTime : number
}.

Definition newAdditionalMetrics (tasks : list Task) : AdditionalMetrics := {|
  totalValue :=
    fold_left (fun sum task => sum + numOr (quotedPrice task) 0) tasks 0;
  confirmedValue :=
    fold_left (fun sum task => sum + numOr (confirmedPrice task) 0) tasks 0;
  materialTasks := length (filter (fun t => requiresMaterial t) tasks);
  documentsCount :=
    fold_left (fun sum task => sum + Z.of_nat (length (images task))) tasks 0;
  confirmedTasks := length (filter (hasConfirmation Confirmed) tasks);
  highPriorityTasks :=
    length (filter (fun t => hasPriority High t || hasPriority Urgent t) tasks);
  projectsInProgress :=
    length (filter (fun t => hasType Project t && hasStatus InProgress t) tasks);
  avgCompletionTime := calculateAverageCompletionTime tasks
|}.

(** The chart rows of [getStatusDistribution] and [getTypeDistribution]. *)
Definition getStatusDistribution (metrics : Metrics) : list (string * nat) :=
  [("Completed", completed metrics);
   ("In Progress", inProgress metrics);
   ("Not Started", notStarted metrics)]%string.

Definition getTypeDistribution (metrics : Metrics) : list (string * nat) :=
  [("Projects", projects metrics); ("Jobs", jobs metrics)]%string.

(** [Object.entries(distribution)] with each key capitalised. *)
Definition getPriorityDistribution (tasks : list Task) : list (string * nat) :=
  let distribution :=
    [("urgent", length (filter (hasPriority Urgent) tasks));
     ("high", length (filter (hasPriority High) tasks));
     ("medium", length (filter (hasPriority Medium) tasks));
     ("low", length (filter (hasPriority Low) tasks))]%string in
  map (fun entry => (capitalize (fst entry), snd entry)) distribution.






(** ** Report dialog: generating (ReportDialog, src/unnamed/part_007) *)


Definition dialogPeriodName (p : DialogPeriod) : string :=
  match p with
  | named q => periodName q
  | custom => "custom"
  | selection => "selection"
  end.

(** [s.padStart(width, "0")]: zeros in front until [width] characters. *)
Fixpoint padStart (fuel width : nat) (s : string) : string :=
  match fuel with
  | O => s
  | S fuel' =>
      if (String.length s <? width)%nat
      then padStart fuel' width ("0" ++ s)
      else s
  end.

Definition padZeros (width : nat) (s : string) : string :=
  padStart width width s.

(** [format(date, 'yyyy-MM-dd')], on the UTC calendar. *)
Definition formatISODate (date : Date) : string :=
  match civilFromDays (dayNumber date) with
  | (y, m, d) =>
      (padZeros 4 (Z_to_string y) ++ "-" ++ padZeros 2 (Z_to_string m) ++ "-"
       ++ padZeros 2 (Z_to_string d))%string
  end.

Definition reportName (now : Date) (includePrices : bool)
    (st : ReportDialog.t) : string :=
  let priceText := (if includePrices then "-with-prices" else "")%string in
  let dateStr := formatISODate now in
  ("work-tasks-report" ++ priceText ++ "-"
   ++ dialogPeriodName (ReportDialog.period st) ++ "-" ++ dateStr)%string.

Inductive ReportType := pdf | excel | email.

(** What a run of [handleGenerateReport] hands over: a saved PDF, a
    downloaded workbook, or both passed on to the email dialog. *)
Inductive ReportOutput :=
  | SavedPdf (fileName : string) (doc : PDF.t)
  | DownloadedExcel (fileName : string) (workbook : Workbook.t)
  | EmailDialogData (doc : PDF.t) (workbook : Workbook.t) (name : string).

Definition noSelectionToast : Toast.t :=
  {| Toast.variant := Some "destructive"%string;
     Toast.title := "Error";
     Toast.description := "Please select at least one task" |}.

Definition handleGenerateReport (now : Date) (tasks : list Task)
    (type : ReportType) (includePrices : bool) (st : ReportDialog.t)
    : ReportDialog.t * option ReportOutput :=
  let isSelection :=
    match ReportDialog.period st with selection => true | _ => false end in
  if isSelection && negb (nonEmpty (ReportDialog.selectedTasks st))
  then (ReportDialog.toast noSelectionToast st, None)
  else
    let filteredTasks :=
      if isSelection
      then filter
             (fun task =>
                includes String.eqb (ReportDialog.selectedTasks st) (id task))
             tasks
      else tasks in
    let options := dialogOptions st includePrices in
    let name := reportName now includePrices st in
    match type with
    | email =>
        (st,
         Some (EmailDialogData (generatePDFReport now filteredTasks options)
                 (generateExcelReport now filteredTasks options) name))
    | pdf =>
        (st,
         Some (SavedPdf (name ++ ".pdf")
                 (generatePDFReport now filteredTasks options)))
    | excel =>
        (st,
         Some (DownloadedExcel (name ++ ".xlsx")
                 (generateExcelReport now filteredTasks options)))
    end.

(** The task list of the selection pane, narrowed by its search box. *)
Definition selectableTasks {engine : Engine}
    (searchQuery : string) (tasks : list Task)
    : list Task :=
  filter
    (fun task =>
       if String.eqb searchQuery "" then true
       else
         let query := toLowerCase searchQuery in
         strIncludes (toLowerCase (title task)) query
         || strIncludes (toLowerCase (site task)) query
         || strIncludes (toLowerCase (description task)) query)
    tasks.

(** The checkbox of one task in the selection pane. *)
Definition onTaskChecked (taskId : string) (checked : CheckedState)
    (st : ReportDialog.t) : ReportDialog.t :=
  ReportDialog.setSelectedTasks
    (toggleChecked String.eqb checked taskId (ReportDialog.selectedTasks st)) st.

Definition onClearSelection (st : ReportDialog.t) : ReportDialog.t :=
  ReportDialog.setSelectedTasks [] st.

Definition onSelectAll {engine : Engine}
    (searchQuery : string) (tasks : list Task)
    (st : ReportDialog.t) : ReportDialog.t :=
  ReportDialog.setSelectedTasks (map id (selectableTasks searchQuery tasks)) st.

(** A day picked in one of the two calendars of the custom range;
    [None] is the selected day clicked again. *)
Inductive CalendarPick :=
  | pickStart (date : option Date)
  | pickEnd (date : option Date).

(** Whether the calendar offers the day: its [disabled] predicate is
    false on it. *)
Definition calendarOffers (now : Date) (st : ReportDialog.t)
    (a : CalendarPick) : bool :=
  match a with
  | pickStart (Some d) => negb (isAfter d (today now))
  | pickEnd (Some d) => negb (endDateDisabled now st d)
  | _ => true
  end.

Definition calendarSelect (now : Date) (a : CalendarPick)
    (st : ReportDialog.t) : ReportDialog.t :=
  match a with
  | pickStart date => handleStartDateSelect now date st
  | pickEnd date => handleEndDateSelect now date st
  end.

(** A run of picks, each taken only if its calendar offers the day. *)
Definition calendarRun (now : Date) (picks : list CalendarPick)
    (st : ReportDialog.t) : ReportDialog.t :=
  fold_left
    (fun s a => if calendarOffers now s a then calendarSelect now a s else s)
    picks st.

(** The stored range is in order and not past today. *)
Definition rangeInOrder (now : Date) (st : ReportDialog.t) : Prop :=
  (forall s, ReportDialog.startDate st = Some s -> s <= today now)
  /\ (forall e, ReportDialog.endDate st = Some e -> e <= today now)
  /\ (forall s e, ReportDialog.startDate st = Some s ->
                  ReportDialog.endDate st = Some e -> s <= e).

(** ** Task editor: the form (TaskDialog, src/unnamed/part_005) *)

(** The record [handleSave] hands to [onSave]; every field may be left
    out. *)
Module TaskData.
Record t := {
  title : option string;
  site : option string;
  description : option string;
  notes : option string;
  status : option TaskStatus;
  images : option (list File);
  existingImages : option (list string);
  type : option WorkItemType;
  source : option SourceType;
  priority : option PriorityType;
  dateInitiated : option Date;
  dateCompleted : option Date;
  requiresMaterial : option bool;
  materialStatus : option MaterialStatus;
  materialDescription : option string;
  quotedPrice : option Z;
  confirmedPrice : option Z;
  workConfirmationStatus : option WorkConfirmationStatus;
  poNumber : option string
}.
End TaskData.

Module TaskForm.
Record t := {
  title : string;
  site : string;
  description : string;
  notes : string;
  type : WorkItemType;
  source : SourceType;
  priority : PriorityType;
  dateInitiated : option Date;
  dateCompleted : option Date;
  requiresMaterial : bool;
  materialStatus : option MaterialStatus;
  materialDescription : string;
  quotedPrice : option Z;
  confirmedPrice : option Z;
  workConfirmationStatus : WorkConfirmationStatus;
  poNumber : string;
  files : TaskDialog.t
}.

Definition setDateInitiated (v : option Date) (f : t) : t :=
  {| title := title f; site := site f; description := description f;
     notes := notes f; type := type f; source := source f;
     priority := priority f; dateInitiated := v;
     dateCompleted := dateCompleted f;
     requiresMaterial := requiresMaterial f;
     materialStatus := materialStatus f;
     materialDescription := materialDescription f;
     quotedPrice := quotedPrice f; confirmedPrice := confirmedPrice f;
     workConfirmationStatus := workConfirmationStatus f;
     poNumber := poNumber f; files := files f |}.

Definition setDateCompleted (v : option Date) (f : t) : t :=
  {| title := title f; site := site f; description := description f;
     notes := notes f; type := type f; source := source f;
     priority := priority f; dateInitiated := dateInitiated f;
     dateCompleted := v;
     requiresMaterial := requiresMaterial f;
     materialStatus := materialStatus f;
     materialDescription := materialDescription f;
     quotedPrice := quotedPrice f; confirmedPrice := confirmedPrice f;
     workConfirmationStatus := workConfirmationStatus f;
     poNumber := poNumber f; files := files f |}.

Definition setFiles (v : TaskDialog.t) (f : t) : t :=
  {| title := title f; site := site f; description := description f;
     notes := notes f; type := type f; source := source f;
     priority := priority f; dateInitiated := dateInitiated f;
     dateCompleted := dateCompleted f;
     requiresMaterial := requiresMaterial f;
     materialStatus := materialStatus f;
     materialDescription := materialDescription f;
     quotedPrice := quotedPrice f; confirmedPrice := confirmedPrice f;
     workConfirmationStatus := workConfirmationStatus f;
     poNumber := poNumber f; files := v |}.

Definition toast (v : Toast.t) (f : t) : t :=
  setFiles
    {| TaskDialog.taskImages := TaskDialog.taskImages (files f);
       TaskDialog.existingImages := TaskDialog.existingImages (files f);
       TaskDialog.toasts := TaskDialog.toasts (files f) ++ [v] |} f.

Definition toasts (f : t) : list Toast.t := TaskDialog.toasts (files f).
End TaskForm.

(** The form after [resetForm]; the notifications raised so far stay. *)
Definition resetForm (f : TaskForm.t) : TaskForm.t :=
  {| TaskForm.title := ""%string; TaskForm.site := ""%string;
     TaskForm.description := ""%string;
     TaskForm.notes := ""%string; TaskForm.type := Job; TaskForm.source := Call;
     TaskForm.priority := Medium; TaskForm.dateInitiated := None;
     TaskForm.dateCompleted := None; TaskForm.requiresMaterial := false;
     TaskForm.materialStatus := None;
     TaskForm.materialDescription := ""%string;
     TaskForm.quotedPrice := None; TaskForm.confirmedPrice := None;
     TaskForm.workConfirmationStatus := Awaiting;
     TaskForm.poNumber := ""%string;
     TaskForm.files :=
       {| TaskDialog.taskImages := [];
          TaskDialog.existingImages := [];
          TaskDialog.toasts := TaskForm.toasts f |} |}.

(** The form filled from the task being edited. *)
Definition loadEditingTask (editingTask : Task) (f : TaskForm.t) : TaskForm.t :=
  {| TaskForm.title := title editingTask;
     TaskForm.site := site editingTask;
     TaskForm.description := description editingTask;
     TaskForm.notes := strOr (notes editingTask) "";
     TaskForm.type := type editingTask;
     TaskForm.source := source editingTask;
     TaskForm.priority := orElse (priority editingTask) Medium;
     TaskForm.dateInitiated := dateInitiated editingTask;
     TaskForm.dateCompleted := dateCompleted editingTask;
     TaskForm.requiresMaterial := requiresMaterial editingTask;
     TaskForm.materialStatus := materialStatus editingTask;
     TaskForm.materialDescription := materialDescription editingTask;
     TaskForm.quotedPrice :=
       match quotedPrice editingTask with
       | Some p => if p =? 0 then None else Some p
       | None => None
       end;
     TaskForm.confirmedPrice :=
       match confirmedPrice editingTask with
       | Some p => if p =? 0 then None else Some p
       | None => None
       end;
     TaskForm.workConfirmationStatus := workConfirmationStatus editingTask;
     TaskForm.poNumber := strOr (poNumber editingTask) "";
     TaskForm.files :=
       {| TaskDialog.taskImages := TaskDialog.taskImages (TaskForm.files f);
          TaskDialog.existingImages := images editingTask;
          TaskDialog.toasts := TaskForm.toasts f |} |}.

(** The status the editor derives from the two dates. *)
Definition formStatus (f : TaskForm.t) : TaskStatus :=
  if isSome (TaskForm.dateCompleted f) then Completed
  else if isSome (TaskForm.dateInitiated f) then InProgress
  else NotInitiated.

Definition isBefore (d1 d2 : Date) : bool := d1 <? d2.

Definition futureDateToast : Toast.t :=
  {| Toast.variant := Some "destructive"%string;
     Toast.title := "Invalid Date";
     Toast.description := "Cannot select a future date" |}.

Definition completionEarlierToast (title : string) : Toast.t :=
  {| Toast.variant := Some "destructive"%string;
     Toast.title := title;
     Toast.description :=
       "Completion date cannot be earlier than initiation date" |}.

Definition completionClearedToast : Toast.t :=
  {| Toast.variant := None;
     Toast.title := "Notice";
     Toast.description :=
       "Completion date was cleared as it was earlier than the new initiation date"
  |}.

Definition handleDateCompletedChange (now : Date) (date : option Date)
    (f : TaskForm.t) : TaskForm.t :=
  match date with
  | Some d =>
      if isAfter d (today now) then TaskForm.toast futureDateToast f
      else
        match TaskForm.dateInitiated f with
        | Some i =>
            if isBefore d i
            then TaskForm.toast (completionEarlierToast "Invalid Date") f
            else TaskForm.setDateCompleted date f
        | None => TaskForm.setDateCompleted date f
        end
  | None => TaskForm.setDateCompleted date f
  end.

Definition handleDateInitiatedChange (now : Date) (date : option Date)
    (f : TaskForm.t) : TaskForm.t :=
  match date with
  | Some d =>
      if isAfter d (today now) then TaskForm.toast futureDateToast f
      else
        let f' := TaskForm.setDateInitiated date f in
        match TaskForm.dateCompleted f with
        | Some c =>
            if isBefore c d
            then TaskForm.toast completionClearedToast
                   (TaskForm.setDateCompleted None f')
            else f'
        | None => f'
        end
  | None => TaskForm.setDateInitiated date f
  end.

(** [removeFile(index, isExisting)]; [None] stands for the [TypeError] of
    reading [preview] off a missing entry. *)
Definition removeFile (index : nat) (isExisting : bool) (st : TaskDialog.t)
    : option TaskDialog.t :=
  if isExisting
  then
    Some
      {| TaskDialog.taskImages := TaskDialog.taskImages st;
         TaskDialog.existingImages :=
           map snd
             (filter (fun p => negb (Nat.eqb (fst p) index))
                (combine (seq 0 (length (TaskDialog.existingImages st)))
                   (TaskDialog.existingImages st)));
         TaskDialog.toasts := TaskDialog.toasts st |}
  else
    match nth_error (TaskDialog.taskImages st) index with
    | Some _ =>
        Some
          {| TaskDialog.taskImages :=
               firstn index (TaskDialog.taskImages st)
               ++ skipn (S index) (TaskDialog.taskImages st);
             TaskDialog.existingImages := TaskDialog.existingImages st;
             TaskDialog.toasts := TaskDialog.toasts st |}
    | None => None
    end.

(** One action on the attachment list. *)
Inductive FileAction :=
  | addFiles (files : option (list File))
  | removeAt (index : nat) (isExisting : bool).

(** A run of attachment actions; a removal that throws leaves the list as
    it was. *)
Definition fileRun (createObjectURL : File -> string)
    (actions : list FileAction) (st : TaskDialog.t) : TaskDialog.t :=
  fold_left
    (fun s a =>
       match a with
       | addFiles files => handleFileChange createObjectURL files s
       | removeAt index isExisting =>
           match removeFile index isExisting s with
           | Some s' => s'
           | None => s
           end
       end)
    actions st.

Definition saveErrorToast (description : string) : Toast.t :=
  {| Toast.variant := Some "destructive"%string;
     Toast.title := "Error";
     Toast.description := description |}.

(** The checks of [handleSave]: the notification of the first check that
    fails, or the record handed to [onSave]. *)
Definition handleSave {engine : Engine}
    (f : TaskForm.t) : Toast.t + TaskData.t :=
  if String.eqb (trim (TaskForm.title f)) ""
  then inl (saveErrorToast
              ("Please provide a "
               ++ match TaskForm.type f with
                  | Project => "project"
                  | Job => "job"
                  end ++ " title")%string)
  else if String.eqb (trim (TaskForm.site f)) ""
  then inl (saveErrorToast "Please provide a site address")
  else if match TaskForm.dateCompleted f, TaskForm.dateInitiated f with
          | Some c, Some i => isBefore c i
          | _, _ => false
          end
  then inl (completionEarlierToast "Error")
  else if TaskForm.requiresMaterial f && negb (isSome (TaskForm.materialStatus f))
  then inl (saveErrorToast "Please select a material status")
  else
    inr
      {| TaskData.title := Some (TaskForm.title f);
         TaskData.site := Some (TaskForm.site f);
         TaskData.description := Some (TaskForm.description f);
         TaskData.notes := Some (TaskForm.notes f);
         TaskData.status := Some (formStatus f);
         TaskData.images :=
           Some (map file (TaskDialog.taskImages (TaskForm.files f)));
         TaskData.existingImages :=
           Some (TaskDialog.existingImages (TaskForm.files f));
         TaskData.type := Some (TaskForm.type f);
         TaskData.source := Some (TaskForm.source f);
         TaskData.priority := Some (TaskForm.priority f);
         TaskData.dateInitiated := TaskForm.dateInitiated f;
         TaskData.dateCompleted := TaskForm.dateCompleted f;
         TaskData.requiresMaterial := Some (TaskForm.requiresMaterial f);
         TaskData.materialStatus :=
           if TaskForm.requiresMaterial f then TaskForm.materialStatus f
           else None;
         TaskData.materialDescription :=
           Some (if TaskForm.requiresMaterial f
                 then TaskForm.materialDescription f
                 else ""%string);
         TaskData.quotedPrice := TaskForm.quotedPrice f;
         TaskData.confirmedPrice := TaskForm.confirmedPrice f;
         TaskData.workConfirmationStatus :=
           Some (TaskForm.workConfirmationStatus f);
         TaskData.poNumber :=
           if String.eqb (trim (TaskForm.poNumber f)) "" then None
           else Some (trim (TaskForm.poNumber f)) |}.

(** The dates of the form are in order and not past today. *)
Definition datesInOrder (now : Date) (f : TaskForm.t) : Prop :=
  (forall i, TaskForm.dateInitiated f = Some i -> i <= today now)
  /\ (forall c, TaskForm.dateCompleted f = Some c -> c <= today now)
  /\ (forall i c, TaskForm.dateInitiated f = Some i ->
                  TaskForm.dateCompleted f = Some c -> i <= c).

(** One use of a date picker of the form. *)
Inductive DateAction :=
  | setInitiated (date : option Date)
  | setCompleted (date : option Date).

Definition dateRun (now : Date) (actions : list DateAction) (f : TaskForm.t)
    : TaskForm.t :=
  fold_left
    (fun s a =>
       match a with
       | setInitiated date => handleDateInitiatedChange now date s
       | setCompleted date => handleDateCompletedChange now date s
       end)
    actions f.

(** ** Saving and loading tasks (src/app/page.tsx) *)

(** A task document as the store holds it.  The fields that the listener
    replaces by a default when they are missing are optional here;
    [timeSlots], an untyped list that nothing reads, is left out. *)
Module TaskDoc.
Record t := {
  title : string;
  site : string;
  description : string;
  notes : string;
  status : TaskStatus;
  images : list string;
  uploaderEmail : string;
  userId : string;
  createdAt : Date;
  updatedAt : Date;
  type : option WorkItemType;
  source : option SourceType;
  priority : option PriorityType;
  dateInitiated : option Date;
  dateCompleted : option Date;
  requiresMaterial : option bool;
  materialStatus : option MaterialStatus;
  materialDescription : option string;
  quotedPrice : option Z;
  confirmedPrice : option Z;
  workConfirmationStatus : option WorkConfirmationStatus;
  poNumber : option string
}.
End TaskDoc.

(** [x || null] on an optional number. *)
Definition numOrNull (x : option Z) : option Z :=
  match x with
  | Some n => if n =? 0 then None else Some n
  | None => None
  end.

(** [x || null] on an optional string. *)
Definition strOrNull (x : option string) : option string :=
  match x with
  | Some s => if String.eqb s "" then None else Some s
  | None => None
  end.

(** Truthiness of an optional boolean. *)
Definition truthyBool (x : option bool) : bool :=
  match x with Some b => b | None => false end.

(** The task the snapshot listener builds from a document. *)
Definition loadTask (docId : string) (data : TaskDoc.t) : Task :=
  {| id := docId;
     title := TaskDoc.title data;
     site := TaskDoc.site data;
     description := TaskDoc.description data;
     notes := Some (TaskDoc.notes data);
     status := TaskDoc.status data;
     images := TaskDoc.images data;
     userId := TaskDoc.userId data;
     createdAt := TaskDoc.createdAt data;
     updatedAt := TaskDoc.updatedAt data;
     dateInitiated := TaskDoc.dateInitiated data;
     dateCompleted := TaskDoc.dateCompleted data;
     assignedTo := None;
     uploaderEmail := Some (TaskDoc.uploaderEmail data);
     type := orElse (TaskDoc.type data) Job;
     source := orElse (TaskDoc.source data) Call;
     priority := Some (orElse (TaskDoc.priority data) Medium);
     requiresMaterial := truthyBool (TaskDoc.requiresMaterial data);
     materialStatus := TaskDoc.materialStatus data;
     materialDescription := strOr (TaskDoc.materialDescription data) "";
     quotedPrice := numOrNull (TaskDoc.quotedPrice data);
     confirmedPrice := numOrNull (TaskDoc.confirmedPrice data);
     workConfirmationStatus :=
       orElse (TaskDoc.workConfirmationStatus data) Awaiting;
     poNumber := strOrNull (TaskDoc.poNumber data) |}.

(** The path [handleSaveTask] asks [uploadImage] to store a new file
    under; [stamp] is [Date.now()]. *)
Definition imagePath (uid : string) (stamp : Z) (index : nat) (name : string)
    : string :=
  ("tasks/" ++ uid ++ "/" ++ Z_to_string stamp ++ "-"
   ++ Z_to_string (Z.of_nat index) ++ "-" ++ name)%string.

(** The stored document after [taskToSave] is written over [old]: every
    field of [taskToSave] replaces the stored one, and the PO number, which
    [taskToSave] carries only when it is not blank, is otherwise left as it
    was, like the owner and the creation time.  [allImages] is the saved
    list followed by the addresses of the new uploads, [newImageUrls]. *)
Definition writeTaskToSave {engine : Engine}
    (userEmail : option string) (now : Date)
    (newImageUrls : list string) (taskData : TaskData.t)
    (old : TaskDoc.t) : TaskDoc.t :=
  let allImages :=
    match TaskData.existingImages taskData with
    | Some l => l
    | None => []
    end
    ++ match TaskData.images taskData with
       | Some (_ :: _) => newImageUrls
       | _ => []
       end in
  let requiresMaterial := truthyBool (TaskData.requiresMaterial taskData) in
  {| TaskDoc.title := strOr (TaskData.title taskData) "";
     TaskDoc.site := strOr (TaskData.site taskData) "";
     TaskDoc.description := strOr (TaskData.description taskData) "";
     TaskDoc.notes := strOr (TaskData.notes taskData) "";
     TaskDoc.status := orElse (TaskData.status taskData) InProgress;
     TaskDoc.images := allImages;
     TaskDoc.uploaderEmail := strOr userEmail "";
     TaskDoc.userId := TaskDoc.userId old;
     TaskDoc.createdAt := TaskDoc.createdAt old;
     TaskDoc.updatedAt := now;
     TaskDoc.type := Some (orElse (TaskData.type taskData) Job);
     TaskDoc.source := Some (orElse (TaskData.source taskData) Call);
     TaskDoc.priority := Some (orElse (TaskData.priority taskData) Medium);
     TaskDoc.dateInitiated := TaskData.dateInitiated taskData;
     TaskDoc.dateCompleted := TaskData.dateCompleted taskData;
     TaskDoc.requiresMaterial := Some requiresMaterial;
     TaskDoc.materialStatus :=
       if requiresMaterial then TaskData.materialStatus taskData else None;
     TaskDoc.materialDescription :=
       Some (if requiresMaterial
             then strOr (TaskData.materialDescription taskData) ""
             else ""%string);
     TaskDoc.quotedPrice := numOrNull (TaskData.quotedPrice taskData);
     TaskDoc.confirmedPrice := numOrNull (TaskData.confirmedPrice taskData);
     TaskDoc.workConfirmationStatus :=
       Some (orElse (TaskData.workConfirmationStatus taskData) Awaiting);
     TaskDoc.poNumber :=
       match TaskData.poNumber taskData with
       | Some p =>
           if String.eqb (trim p) "" then TaskDoc.poNumber old
           else Some (trim p)
       | None => TaskDoc.poNumber old
       end |}.

(** A document that does not exist yet: what [addDoc] starts from, with
    the owner and the creation time it adds. *)
Definition newDoc (uid : string) (now : Date) : TaskDoc.t :=
  {| TaskDoc.title := ""%string; TaskDoc.site := ""%string;
     TaskDoc.description := ""%string; TaskDoc.notes := ""%string;
     TaskDoc.status := InProgress; TaskDoc.images := [];
     TaskDoc.uploaderEmail := ""%string; TaskDoc.userId := uid;
     TaskDoc.createdAt := now; TaskDoc.updatedAt := now;
     TaskDoc.type := None; TaskDoc.source := None; TaskDoc.priority := None;
     TaskDoc.dateInitiated := None; TaskDoc.dateCompleted := None;
     TaskDoc.requiresMaterial := None; TaskDoc.materialStatus := None;
     TaskDoc.materialDescription := None; TaskDoc.quotedPrice := None;
     TaskDoc.confirmedPrice := None; TaskDoc.workConfirmationStatus := None;
     TaskDoc.poNumber := None |}.

(** [handleSaveTask], when the uploads and the write succeed: the
    document as stored afterwards.  With [editingTask] the written fields
    replace those of the stored document ([updateDoc]); without, a new
    document is added for the user ([addDoc]). *)
Definition handleSaveTask {engine : Engine}
    (uid : string) (userEmail : option string)
    (now : Date) (newImageUrls : list string) (taskData : TaskData.t)
    (editingTask : option TaskDoc.t) : TaskDoc.t :=
  match editingTask with
  | Some old => writeTaskToSave userEmail now newImageUrls taskData old
  | None =>
      writeTaskToSave userEmail now newImageUrls taskData (newDoc uid now)
  end.

(** ** Storage paths and file names
    (src/lib/imageCompression.ts, src/unnamed/part_002) *)

(** [s.split(sep)] for a one-character separator: never empty. *)
Fixpoint splitOn (sep : ascii) (s : string) : list string :=
  match s with
  | EmptyString => [EmptyString]
  | String c r =>
      if Ascii.eqb c sep then EmptyString :: splitOn sep r
      else
        match splitOn sep r with
        | h :: t => String c h :: t
        | [] => [String c EmptyString]
        end
  end.

(** [parts.join(sep)] *)
Definition join (sep : string) (parts : list string) : string :=
  String.concat sep parts.

(** Whether the character occurs in the string. *)
Fixpoint hasChar (c : ascii) (s : string) : bool :=
  match s with
  | EmptyString => false
  | String d r => Ascii.eqb d c || hasChar c r
  end.

(** The path [uploadImage] stores a file under: the directory of the path
    it is given, then the file's own name. *)
Definition uploadFullPath (path : string) (fileName : string) : string :=
  let basePath := join "/" (Array_slice 0 (-1) (splitOn "/" path)) in
  (basePath ++ "/" ++ fileName)%string.

(** [arr.pop()] read as a value: the last element, if any. *)
Definition Array_pop {A} (arr : list A) : option A :=
  match rev arr with
  | [] => None
  | x :: _ => Some x
  end.

(** [getFileNameFromUrl]; [decodeURIComponent] is passed in, [None] being
    the [URIError] it throws on a malformed escape. *)
Definition getFileNameFromUrl (decodeURIComponent : string -> option string)
    (url : string) : string :=
  match decodeURIComponent url with
  | Some fullPath =>
      let fileName := strOr (Array_pop (splitOn "/" fullPath)) "" in
      match splitOn "?" fileName with
      | first :: _ => first
      | [] => ""%string
      end
  | None => "file"%string
  end.

(** ** Sending a report by email
    (src/unnamed/part_006, src/lib/email.ts, src/app/page.tsx) *)

Definition Buffer := list Byte.byte.

Module Attachment.
Record t := {
  filename : string;
  content : Buffer
}.
End Attachment.

Module EmailReportDialog.
Record t := {
  email : string;
  sendPdf : bool;
  sendExcel : bool;
  isSending : bool;
  isOpen : bool;
  toasts : list Toast.t
}.
End EmailReportDialog.

(** The body [sendReportEmail] posts, as the route reads it back from
    JSON: each attachment's bytes are an array of numbers. *)
Module EmailRequest.
Record t := {
  to : option string;
  subject : option string;
  attachments : option (list (string * list Z))
}.
End EmailRequest.

(** [Array.from(buffer)] *)
Definition Array_from_buffer (b : Buffer) : list Z :=
  map (fun x => Z.of_N (Byte.to_N x)) b.

(** One element of [new Uint8Array(numbers)]: the number modulo 256. *)
Definition toUint8 (n : Z) : Byte.byte :=
  match Byte.of_N (Z.to_N (n mod 256)) with
  | Some b => b
  | None => Byte.x00
  end.

(** [Buffer.from(new Uint8Array(numbers))] *)
Definition Buffer_from (numbers : list Z) : Buffer := map toUint8 numbers.

(** The request [sendReportEmail] builds. *)
Definition sendReportEmail_body (to subject : string)
    (attachments : list Attachment.t) : EmailRequest.t :=
  {| EmailRequest.to := Some to;
     EmailRequest.subject := Some subject;
     EmailRequest.attachments :=
       Some (map (fun a => (Attachment.filename a,
                            Array_from_buffer (Attachment.content a)))
               attachments) |}.

(** What the route answers. *)
Inductive RouteResponse :=
  | responseOk (sent : list Attachment.t)
  | responseError (status : Z) (error : string).

(** [POST]: [resendFails] is the message of the error the mail service
    throws, if it does. *)
Definition POST (resendFails : option string) (request : EmailRequest.t)
    : RouteResponse :=
  match EmailRequest.to request, EmailRequest.subject request,
        EmailRequest.attachments request with
  | Some to, Some subject, Some attachments =>
      if String.eqb to "" || String.eqb subject ""
      then responseError 400 "Missing required fields"
      else
        match resendFails with
        | Some message => responseError 500 message
        | None =>
            responseOk
              (map (fun a => {| Attachment.filename := fst a;
                                Attachment.content := Buffer_from (snd a) |})
                 attachments)
        end
  | _, _, _ => responseError 400 "Missing required fields"
  end.

Definition emailToast (destructive : bool) (title description : string)
    : Toast.t :=
  {| Toast.variant := if destructive then Some "destructive"%string else None;
     Toast.title := title;
     Toast.description := description |}.

(** [handleSend]: the dialog afterwards and what the route received, if
    the request was made.  [dateText] is [new Date().toLocaleDateString()]. *)
Definition handleSend (resendFails : option string) (dateText : string)
    (pdfBuffer excelBuffer : option Buffer) (reportName : string)
    (st : EmailReportDialog.t)
    : EmailReportDialog.t * option RouteResponse :=
  let withToast (v : Toast.t) (sending open : bool) :=
    {| EmailReportDialog.email := EmailReportDialog.email st;
       EmailReportDialog.sendPdf := EmailReportDialog.sendPdf st;
       EmailReportDialog.sendExcel := EmailReportDialog.sendExcel st;
       EmailReportDialog.isSending := sending;
       EmailReportDialog.isOpen := open;
       EmailReportDialog.toasts := EmailReportDialog.toasts st ++ [v] |} in
  if String.eqb (EmailReportDialog.email st) ""
  then (withToast (emailToast true "Error" "Please enter an email address")
          (EmailReportDialog.isSending st) (EmailReportDialog.isOpen st),
        None)
  else if negb (EmailReportDialog.sendPdf st)
          && negb (EmailReportDialog.sendExcel st)
  then (withToast
          (emailToast true "Error" "Please select at least one file format")
          (EmailReportDialog.isSending st) (EmailReportDialog.isOpen st),
        None)
  else
    let attachments :=
      match EmailReportDialog.sendPdf st, pdfBuffer with
      | true, Some b =>
          [{| Attachment.filename := (reportName ++ ".pdf")%string;
              Attachment.content := b |}]
      | _, _ => []
      end
      ++ match EmailReportDialog.sendExcel st, excelBuffer with
         | true, Some b =>
             [{| Attachment.filename := (reportName ++ ".xlsx")%string;
                 Attachment.content := b |}]
         | _, _ => []
         end in
    let response :=
      POST resendFails
        (sendReportEmail_body (EmailReportDialog.email st)
           ("Task Report - " ++ dateText)%string attachments) in
    match response with
    | responseOk _ =>
        (withToast (emailToast false "Success" "Report sent successfully")
           false false, Some response)
    | responseError _ _ =>
        (withToast
           (emailToast true "Error" "Failed to send report. Please try again.")
           false (EmailReportDialog.isOpen st), Some response)
    end.

(** ** Checks on the calendar helpers *)

(** Day [n] lies within the month, the quarter and the year that the
    calendar helpers give for it. *)
Definition withinCalendarRanges (n : Z) : bool :=
  match civilFromDays n with
  | (y, m, _) =>
      (firstOfMonth y m 0 <=? n)
      && (n <? firstOfMonth y m 1)
      && (firstOfMonth y (quarterMonth m) 0 <=? n)
      && (n <? firstOfMonth y (quarterMonth m) 3)
      && (firstOfMonth y 1 0 <=? n)
      && (n <? firstOfMonth y 1 12)
  end.

(** The days [from], [from + 1], ..., [from + count - 1] all pass. *)
Fixpoint allDays (check : Z -> bool) (from : Z) (count : nat) : bool :=
  match count with
  | O => true
  | S c => if check from then allDays check (from + 1) c else false
  end.

(** Day [n] is read back as a day of month [m] of year [y]. *)
Definition inMonth (y m n : Z) : bool :=
  match civilFromDays n with
  | (y', m', _) => (y' =? y) && (m' =? m)
  end.

(** Month [m] of year [y] starts on day [from], every one of its days is
    read back as a day of it, and it lies within its quarter and its year:
    the day after the month, or [None] when the check fails. *)
Definition checkMonth (y m from : Z) : option Z :=
  let next := firstOfMonth y m 1 in
  if (firstOfMonth y m 0 =? from)
     && (from <? next)
     && allDays (inMonth y m) from (Z.to_nat (next - from))
     && (firstOfMonth y (quarterMonth m) 0 <=? from)
     && (next <=? firstOfMonth y (quarterMonth m) 3)
     && (firstOfMonth y 1 0 <=? from)
     && (next <=? firstOfMonth y 1 12)
  then Some next
  else None.

(** [count] months in a row, from month [m] of year [y] on. *)
Fixpoint checkMonths (count : nat) (y m from : Z) : option Z :=
  match count with
  | O => Some from
  | S c =>
      match checkMonth y m from with
      | Some next =>
          if m =? 12 then checkMonths c (y + 1) 1 next
          else checkMonths c y (m + 1) next
      | None => None
      end
  end.

(** ** Uploads (src/lib/imageCompression.ts) *)

Module StorageFile.
Record t := {
  name : string;
  type : string;
  content : Buffer
}.
End StorageFile.

(** [file.type.startsWith('image/')] *)
Definition isImageFile (file : StorageFile.t) : bool :=
  String.prefix "image/" (StorageFile.type file).

(** [compressImage]: [imageCompression] is the compression library, which
    gives the compressed file or throws; its error is thrown on. *)
Definition compressImage
    (imageCompression : StorageFile.t -> string + StorageFile.t)
    (file : StorageFile.t) : string + StorageFile.t :=
  if negb (isImageFile file) then inl "The file given is not an image"%string
  else imageCompression file.

(** [uploadImage]: [uploadBytes] stands for the two storage calls, which
    store a file under a path and give its download address, or throw. *)
Definition uploadImage
    (imageCompression : StorageFile.t -> string + StorageFile.t)
    (uploadBytes : string -> StorageFile.t -> string + string)
    (file : StorageFile.t) (path : string) : string + string :=
  let fullPath := uploadFullPath path (StorageFile.name file) in
  match (if isImageFile file then compressImage imageCompression file
         else inr file) with
  | inl error => inl error
  | inr fileToUpload => uploadBytes fullPath fileToUpload
  end.

(** ** Deleting a task (TaskList, src/unnamed/part_005; TaskCard,
    src/unnamed/part_006) *)

(** The confirmation state of the list or the card, and the calls of
    [onDelete] made so far. *)
Module DeleteFlow.
Record t := {
  showDeleteConfirm : bool;
  taskToDelete : option string;
  onDeleteCalls : list string
}.
Definition initial : t :=
  {| showDeleteConfirm := false; taskToDelete := None; onDeleteCalls := [] |}.
End DeleteFlow.

Definition handleDelete (taskId : string) (st : DeleteFlow.t) : DeleteFlow.t :=
  {| DeleteFlow.showDeleteConfirm := true;
     DeleteFlow.taskToDelete := Some taskId;
     DeleteFlow.onDeleteCalls := DeleteFlow.onDeleteCalls st |}.

Definition handleConfirmDelete (st : DeleteFlow.t) : DeleteFlow.t :=
  match DeleteFlow.taskToDelete st with
  | Some taskId =>
      if truthyStr (Some taskId)
      then {| DeleteFlow.showDeleteConfirm := false;
              DeleteFlow.taskToDelete := None;
              DeleteFlow.onDeleteCalls :=
                DeleteFlow.onDeleteCalls st ++ [taskId] |}
      else st
  | None => st
  end.

(** The [onClose] of the confirmation dialog. *)
Definition onCloseDeleteConfirmation (st : DeleteFlow.t) : DeleteFlow.t :=
  {| DeleteFlow.showDeleteConfirm := false;
     DeleteFlow.taskToDelete := None;
     DeleteFlow.onDeleteCalls := DeleteFlow.onDeleteCalls st |}.

(** [canModify] and [canDelete] are both [isAdmin]. *)
Definition isAdmin (role : string) : bool := String.eqb role "admin".
Definition canModify (role : string) : bool := isAdmin role.
Definition canDelete (role : string) : bool := isAdmin role.

Inductive DeleteEvent :=
  | clickDelete (taskId : string)
  | confirmDelete
  | closeDeleteConfirmation.

(** The Delete button is rendered within [canModify && ... canDelete &&]. *)
Definition deleteOffered (role : string) (e : DeleteEvent) : bool :=
  match e with
  | clickDelete _ => canModify role && canDelete role
  | _ => true
  end.

Definition deleteStep (e : DeleteEvent) (st : DeleteFlow.t) : DeleteFlow.t :=
  match e with
  | clickDelete taskId => handleDelete taskId st
  | confirmDelete => handleConfirmDelete st
  | closeDeleteConfirmation => onCloseDeleteConfirmation st
  end.

(** A run of events, each taken only if it is offered to the role. *)
Definition deleteRun (role : string) (events : list DeleteEvent)
    (st : DeleteFlow.t) : DeleteFlow.t :=
  fold_left (fun s e => if deleteOffered role e then deleteStep e s else s)
    events st.

(** The task ids of the Delete clicks of a run. *)
Definition clickedIds (events : list DeleteEvent) : list string :=
  flat_map (fun e => match e with clickDelete i => [i] | _ => [] end) events.

(** What holds of the confirmation state after any run: the dialog is
    open exactly when a task is pending, the pending task was clicked, and
    the deleted tasks were clicked, one click at least for each call. *)
Definition deleteFlowInvariant (events : list DeleteEvent)
    (st : DeleteFlow.t) : Prop :=
  DeleteFlow.showDeleteConfirm st = isSome (DeleteFlow.taskToDelete st)
  /\ (forall i, DeleteFlow.taskToDelete st = Some i ->
        In i (clickedIds events)
        /\ (length (DeleteFlow.onDeleteCalls st) < length (clickedIds events))%nat)
  /\ incl (DeleteFlow.onDeleteCalls st) (clickedIds events)
  /\ (length (DeleteFlow.onDeleteCalls st) <= length (clickedIds events))%nat.

(** ** Image viewer (src/components/shared/ImageViewer.tsx) *)

(** [a % b] on integers: [None] is [NaN]. *)
Definition JS_rem (a b : Z) : option Z :=
  if b =? 0 then None else Some (Z.rem a b).

(** [Math.min] and [Math.max] of two numbers. *)
Definition Math_min (a b : Q) : Q := if Qle_bool a b then a else b.
Definition Math_max (a b : Q) : Q := if Qle_bool a b then b else a.

(** The viewer's state; an index of [None] is [NaN]. *)
Module ImageViewer.
Record t := {
  currentIndex : option Z;
  zoom : Q;
  rotation : Z;
  isOpen : bool
}.
Definition setCurrentIndex (f : option Z -> option Z) (st : t) : t :=
  {| currentIndex := f (currentIndex st); zoom := zoom st;
     rotation := rotation st; isOpen := isOpen st |}.
Definition setZoom (f : Q -> Q) (st : t) : t :=
  {| currentIndex := currentIndex st; zoom := f (zoom st);
     rotation := rotation st; isOpen := isOpen st |}.
Definition setRotation (f : Z -> Z) (st : t) : t :=
  {| currentIndex := currentIndex st; zoom := zoom st;
     rotation := f (rotation st); isOpen := isOpen st |}.
Definition onOpenChange (open : bool) (st : t) : t :=
  {| currentIndex := currentIndex st; zoom := zoom st;
     rotation := rotation st; isOpen := open |}.
(** The state when the viewer is first shown at [initialIndex]. *)
Definition initial (initialIndex : Z) : t :=
  {| currentIndex := Some initialIndex; zoom := 1; rotation := 0;
     isOpen := true |}.
End ImageViewer.

Definition resetTransformations (st : ImageViewer.t) : ImageViewer.t :=
  ImageViewer.setRotation (fun _ => 0) (ImageViewer.setZoom (fun _ => 1%Q) st).

Definition handleNext (images : list string) (st : ImageViewer.t)
    : ImageViewer.t :=
  resetTransformations
    (ImageViewer.setCurrentIndex
       (fun prev =>
          match prev with
          | Some p => JS_rem (p + 1) (Z.of_nat (length images))
          | None => None
          end) st).

Definition handlePrevious (images : list string) (st : ImageViewer.t)
    : ImageViewer.t :=
  resetTransformations
    (ImageViewer.setCurrentIndex
       (fun prev =>
          match prev with
          | Some p =>
              JS_rem (p - 1 + Z.of_nat (length images))
                (Z.of_nat (length images))
          | None => None
          end) st).

Definition handleZoomIn (st : ImageViewer.t) : ImageViewer.t :=
  ImageViewer.setZoom (fun prev => Math_min (prev + (1 # 4)) 3)%Q st.

Definition handleZoomOut (st : ImageViewer.t) : ImageViewer.t :=
  ImageViewer.setZoom (fun prev => Math_max (prev - (1 # 4)) (1 # 2))%Q st.

Definition handleRotate (st : ImageViewer.t) : ImageViewer.t :=
  ImageViewer.setRotation (fun prev => Z.rem (prev + 90) 360) st.

Definition handleClose (st : ImageViewer.t) : ImageViewer.t :=
  resetTransformations (ImageViewer.onOpenChange false st).

(** [handleKeyDown] on the viewer's state; the download that the key d
    starts leaves this state alone. *)
Definition handleKeyDown (images : list string) (key : string)
    (st : ImageViewer.t) : ImageViewer.t :=
  if negb (ImageViewer.isOpen st) then st
  else if String.eqb key "ArrowRight" then handleNext images st
  else if String.eqb key "ArrowLeft" then handlePrevious images st
  else if String.eqb key "Escape" then handleClose st
  else if String.eqb key "+" then handleZoomIn st
  else if String.eqb key "-" then handleZoomOut st
  else if String.eqb key "r" then handleRotate st
  else st.

(** The state is one that shows an image of the list, at a zoom between
    a half and three in steps of a quarter, turned by a multiple of a
    quarter turn. *)
Definition viewerInRange (images : list string) (st : ImageViewer.t) : Prop :=
  (exists i, ImageViewer.currentIndex st = Some i
             /\ 0 <= i < Z.of_nat (length images))
  /\ (1 # 2 <= ImageViewer.zoom st)%Q /\ (ImageViewer.zoom st <= 3)%Q
  /\ (exists k, ImageViewer.zoom st == k # 4)%Q
  /\ In (ImageViewer.rotation st) [0; 90; 180; 270].

(** ** Signing in (src/contexts/AuthContext.tsx) *)

(** What a Firebase call throws: a [FirebaseError] with its code, or
    another error with its message. *)
Inductive Thrown :=
  | FirebaseError (code : string)
  | OtherError (message : string).

Module User.
Record t := {
  uid : string;
  email : string
}.
End User.

Module UserData.
Record t := {
  uid : string;
  email : string;
  name : string;
  role : string
}.
End UserData.

(** The fields read from a document of the users collection. *)
Module UserDoc.
Record t := {
  name : string;
  role : string
}.
End UserDoc.

(** The provider's state, with the number of calls of [signOut(auth)]
    made so far. *)
Module AuthState.
Record t := {
  user : option User.t;
  userData : option UserData.t;
  loading : bool;
  signOuts : nat
}.
Definition initial : t :=
  {| user := None; userData := None; loading := true; signOuts := 0 |}.
End AuthState.

Definition adminData (u : User.t) (name : string) : UserData.t :=
  {| UserData.uid := User.uid u; UserData.email := User.email u;
     UserData.name := name; UserData.role := "admin" |}.

(** The [try] block of [signIn]: the user and the document on success,
    or what is thrown; and the number of calls of [signOut] made.
    [signOut k] is what the call number [k] of [signOut] throws, if it
    throws. *)
Definition signIn_try (credential : Thrown + User.t)
    (userDoc : Thrown + option UserDoc.t) (signOut : nat -> option Thrown)
    : (Thrown + User.t * UserDoc.t) * nat :=
  match credential with
  | inl error => (inl error, 0%nat)
  | inr u =>
      match userDoc with
      | inl error => (inl error, 0%nat)
      | inr None =>
          match signOut 0%nat with
          | Some error => (inl error, 1%nat)
          | None =>
              (inl (OtherError
                      "Account not properly set up. Please contact support."),
               1%nat)
          end
      | inr (Some data) =>
          if negb (String.eqb (UserDoc.role data) "admin")
          then
            match signOut 0%nat with
            | Some error => (inl error, 1%nat)
            | None =>
                (inl (OtherError "You do not have admin privileges."), 1%nat)
            end
          else (inr (u, data), 0%nat)
      end
  end.

(** [signIn]: the state afterwards and the message of the error thrown to
    the caller, if any.  [getAuthErrorMessage] gives the message for the
    code of a [FirebaseError]. *)
Definition signIn (getAuthErrorMessage : string -> string)
    (credential : Thrown + User.t) (userDoc : Thrown + option UserDoc.t)
    (signOut : nat -> option Thrown) (st : AuthState.t)
    : AuthState.t * option string :=
  match signIn_try credential userDoc signOut with
  | (inr (u, data), calls) =>
      ({| AuthState.user := Some u;
          AuthState.userData := Some (adminData u (UserDoc.name data));
          AuthState.loading := false;
          AuthState.signOuts := (AuthState.signOuts st + calls)%nat |},
       None)
  | (inl error, calls) =>
      ({| AuthState.user := AuthState.user st;
          AuthState.userData := AuthState.userData st;
          AuthState.loading := false;
          AuthState.signOuts := (AuthState.signOuts st + calls + 1)%nat |},
       Some match error with
            | FirebaseError code => getAuthErrorMessage code
            | OtherError _ =>
                "Invalid email id or password. Please try again."%string
            end)
  end.

(** [ensureUserDocument]: the data it returns and the document it writes,
    if any; or what it throws. *)
Definition ensureUserDocument (name : string)
    (userDoc : Thrown + option UserDoc.t) (setDoc : option Thrown)
    : Thrown + UserDoc.t * option UserDoc.t :=
  match userDoc with
  | inl error => inl error
  | inr None =>
      let userData := {| UserDoc.name := name; UserDoc.role := "admin" |} in
      match setDoc with
      | Some error => inl error
      | None => inr (userData, Some userData)
      end
  | inr (Some data) => inr (data, None)
  end.

(** [signUp]: the state afterwards, the message thrown to the caller, and
    the document written. *)
Definition signUp (getAuthErrorMessage : string -> string) (name : string)
    (credential : Thrown + User.t) (userDoc : Thrown + option UserDoc.t)
    (setDoc : option Thrown) (st : AuthState.t)
    : AuthState.t * option string * option UserDoc.t :=
  let failed (error : Thrown) :=
    ({| AuthState.user := AuthState.user st;
        AuthState.userData := AuthState.userData st;
        AuthState.loading := false;
        AuthState.signOuts := AuthState.signOuts st |},
     Some match error with
          | FirebaseError code => getAuthErrorMessage code
          | OtherError message => strOr (Some message) "Failed to create account"
          end,
     None) in
  match credential with
  | inl error => failed error
  | inr u =>
      match ensureUserDocument name userDoc setDoc with
      | inl error => failed error
      | inr (data, written) =>
          ({| AuthState.user := Some u;
              AuthState.userData := Some (adminData u (UserDoc.name data));
              AuthState.loading := false;
              AuthState.signOuts := AuthState.signOuts st |},
           None, written)
      end
  end.

(** The observer given to [onAuthStateChanged]. *)
Definition authStateChanged (u : option User.t)
    (userDoc : Thrown + option UserDoc.t) (signOut : option Thrown)
    (st : AuthState.t) : AuthState.t :=
  match u with
  | None =>
      {| AuthState.user := None; AuthState.userData := None;
         AuthState.loading := false;
         AuthState.signOuts := AuthState.signOuts st |}
  | Some usr =>
      match userDoc with
      | inr (Some data) =>
          if String.eqb (UserDoc.role data) "admin"
          then {| AuthState.user := u;
                  AuthState.userData :=
                    Some (adminData usr (UserDoc.name data));
                  AuthState.loading := false;
                  AuthState.signOuts := AuthState.signOuts st |}
          else
            match signOut with
            | Some _ =>
                {| AuthState.user := u;
                   AuthState.userData := AuthState.userData st;
                   AuthState.loading := false;
                   AuthState.signOuts := S (AuthState.signOuts st) |}
            | None =>
                {| AuthState.user := None; AuthState.userData := None;
                   AuthState.loading := false;
                   AuthState.signOuts := S (AuthState.signOuts st) |}
            end
      | _ =>
          {| AuthState.user := u;
             AuthState.userData := AuthState.userData st;
             AuthState.loading := false;
             AuthState.signOuts := AuthState.signOuts st |}
      end
  end.

(** [logout]: the state afterwards and the message thrown, if any. *)
Definition logout (signOut : option Thrown) (st : AuthState.t)
    : AuthState.t * option string :=
  match signOut with
  | Some _ =>
      ({| AuthState.user := AuthState.user st;
          AuthState.userData := AuthState.userData st;
          AuthState.loading := false;
          AuthState.signOuts := S (AuthState.signOuts st) |},
       Some "Failed to log out. Please try again."%string)
  | None =>
      ({| AuthState.user := None; AuthState.userData := None;
          AuthState.loading := false;
          AuthState.signOuts := S (AuthState.signOuts st) |},
       None)
  end.

(** One use of the provider. *)
Inductive AuthOp :=
  | opSignIn (credential : Thrown + User.t)
      (userDoc : Thrown + option UserDoc.t) (signOut : nat -> option Thrown)
  | opSignUp (name : string) (credential : Thrown + User.t)
      (userDoc : Thrown + option UserDoc.t) (setDoc : option Thrown)
  | opAuthStateChanged (u : option User.t)
      (userDoc : Thrown + option UserDoc.t) (signOut : option Thrown)
  | opLogout (signOut : option Thrown).

Definition authStep (getAuthErrorMessage : string -> string) (op : AuthOp)
    (st : AuthState.t) : AuthState.t :=
  match op with
  | opSignIn credential userDoc signOut =>
      fst (signIn getAuthErrorMessage credential userDoc signOut st)
  | opSignUp name credential userDoc setDoc =>
      fst (fst (signUp getAuthErrorMessage name credential userDoc setDoc st))
  | opAuthStateChanged u userDoc signOut =>
      authStateChanged u userDoc signOut st
  | opLogout signOut => fst (logout signOut st)
  end.

Definition authRun (getAuthErrorMessage : string -> string)
    (ops : list AuthOp) (st : AuthState.t) : AuthState.t :=
  fold_left (fun s op => authStep getAuthErrorMessage op s) ops st.

(** The data of the signed-in user, when there are any, carry the admin
    role, and come with a user. *)
Definition adminOnly (st : AuthState.t) : Prop :=
  (forall data, AuthState.userData st = Some data ->
                UserData.role data = "admin"%string)
  /\ (AuthState.userData st <> None -> AuthState.user st <> None).

(** * Properties *)

(** ** Sorting: permutation, order, idempotence *)

Section SortFacts.
Context {A : Type} (cmp : A -> A -> Z).

Lemma insertBy_perm (x : A) (l : list A) :
  Permutation (x :: l) (insertBy cmp x l).
Proof.
  induction l as [|y l IH]; simpl.
  - apply Permutation_refl.
  - destruct (cmp x y <=? 0).
    + apply Permutation_refl.
    + eapply perm_trans; [apply perm_swap|].
      apply perm_skip, IH.
Qed.

Lemma Array_sort_perm (l : list A) : Permutation l (Array_sort cmp l).
Proof.
  induction l as [|x l IH]; simpl.
  - constructor.
  - eapply perm_trans; [apply perm_skip, IH|].
    apply insertBy_perm.
Qed.

Lemma Array_sort_length (l : list A) : length (Array_sort cmp l) = length l.
Proof. symmetry. apply Permutation_length, Array_sort_perm. Qed.

Lemma Array_sort_In (l : list A) (x : A) : In x (Array_sort cmp l) <-> In x l.
Proof.
  split; intro H.
  - eapply Permutation_in; [apply Permutation_sym, Array_sort_perm|exact H].
  - eapply Permutation_in; [apply Array_sort_perm|exact H].
Qed.

(** A list already in order is left as it is. *)
Lemma Array_sort_fixed (l : list A) :
  Sorted (notAfter cmp) l -> Array_sort cmp l = l.
Proof.
  induction 1 as [|x l Hs IH Hd]; simpl; [reflexivity|].
  rewrite IH. destruct Hd as [|y l' Hxy]; simpl; [reflexivity|].
  unfold notAfter in Hxy.
  destruct (Z.leb_spec (cmp x y) 0); [reflexivity|lia].
Qed.

(** The comparator never ranks two elements each after the other. *)
Hypothesis cmp_total : forall x y, 0 < cmp x y -> cmp y x <= 0.

Lemma insertBy_sorted (x : A) (l : list A) :
  Sorted (notAfter cmp) l -> Sorted (notAfter cmp) (insertBy cmp x l).
Proof.
  induction 1 as [|y l Hs IH Hd]; simpl.
  - repeat constructor.
  - destruct (Z.leb_spec (cmp x y) 0) as [Hle|Hgt].
    + constructor; [constructor; assumption|constructor; exact Hle].
    + constructor; [exact IH|].
      destruct Hd as [|z l' Hyz]; simpl.
      * constructor. apply cmp_total, Hgt.
      * destruct (cmp x z <=? 0); constructor.
        -- apply cmp_total, Hgt.
        -- exact Hyz.
Qed.

Lemma Array_sort_sorted (l : list A) : Sorted (notAfter cmp) (Array_sort cmp l).
Proof.
  induction l as [|x l IH]; simpl; [constructor|].
  apply insertBy_sorted, IH.
Qed.

Lemma Array_sort_idempotent (l : list A) :
  Array_sort cmp (Array_sort cmp l) = Array_sort cmp l.
Proof. apply Array_sort_fixed, Array_sort_sorted. Qed.

(** With a transitive comparator, any earlier element may stand before
    any later one. *)
Hypothesis cmp_trans :
  forall x y z, cmp x y <= 0 -> cmp y z <= 0 -> cmp x z <= 0.

Lemma Array_sort_strongly_sorted (l : list A) :
  StronglySorted (notAfter cmp) (Array_sort cmp l).
Proof.
  apply Sorted_StronglySorted; [|apply Array_sort_sorted].
  intros x y z. unfold notAfter. apply cmp_trans.
Qed.

Lemma Array_sort_positions (l : list A) (i j : nat) (x y : A) :
  (i < j)%nat ->
  nth_error (Array_sort cmp l) i = Some x ->
  nth_error (Array_sort cmp l) j = Some y ->
  cmp x y <= 0.
Proof.
  generalize (Array_sort_strongly_sorted l).
  generalize (Array_sort cmp l) as s. intros s Hs. revert i j.
  induction Hs as [|a s Hs IH Hall]; intros i j Hij Hi Hj.
  - destruct i; discriminate.
  - destruct j as [|j]; [lia|]. simpl in Hj.
    destruct i as [|i]; simpl in Hi.
    + injection Hi as <-.
      rewrite Forall_forall in Hall. apply Hall.
      eapply nth_error_In, Hj.
    + apply (IH i j); [lia|assumption|assumption].
Qed.
End SortFacts.

Lemma localeCompare_antisym (a b : string) :
  0 < localeCompare a b -> localeCompare b a <= 0.
Proof.
  unfold localeCompare. rewrite (String.compare_antisym b a).
  destruct (String.compare a b); simpl; lia.
Qed.

Lemma compareTasks_total (sortBy : SortOption) (x y : Task) :
  0 < compareTasks sortBy x y -> compareTasks sortBy y x <= 0.
Proof.
  destruct sortBy; simpl; try lia; try apply localeCompare_antisym.
  - rewrite (Z.eqb_sym (priorityRank y)).
    destruct (priorityRank x =? priorityRank y); simpl; lia.
  - rewrite (Z.eqb_sym (priorityRank y)).
    destruct (priorityRank x =? priorityRank y); simpl; lia.
Qed.

Lemma compareTasks_priority_trans (x y z : Task) :
  (compareTasks priority_high x y <= 0 ->
   compareTasks priority_high y z <= 0 ->
   compareTasks priority_high x z <= 0)
  /\ (compareTasks priority_low x y <= 0 ->
      compareTasks priority_low y z <= 0 ->
      compareTasks priority_low x z <= 0).
Proof.
  simpl.
  destruct (Z.eqb_spec (priorityRank x) (priorityRank y));
    destruct (Z.eqb_spec (priorityRank y) (priorityRank z));
    destruct (Z.eqb_spec (priorityRank x) (priorityRank z));
    simpl; split; lia.
Qed.

(** In a sorted output, an element that the comparator ranks strictly
    before another stands at a smaller index. *)
Lemma Array_sort_precedes {A} (cmp : A -> A -> Z)
    (cmp_total : forall x y, 0 < cmp x y -> cmp y x <= 0)
    (cmp_trans : forall x y z, cmp x y <= 0 -> cmp y z <= 0 -> cmp x z <= 0)
    (l : list A) (i j : nat) (x y : A) :
  nth_error (Array_sort cmp l) i = Some x ->
  nth_error (Array_sort cmp l) j = Some y ->
  0 < cmp y x ->
  (i < j)%nat.
Proof.
  intros Hi Hj Hgt.
  destruct (Nat.lt_trichotomy i j) as [Hlt|[Heq|Hlt]]; [exact Hlt| |].
  - subst j. rewrite Hi in Hj. injection Hj as ->.
    pose proof (cmp_total y y Hgt). lia.
  - pose proof (Array_sort_positions cmp cmp_total cmp_trans l j i y x Hlt Hj Hi).
    lia.
Qed.

Lemma compareTasks_price_trans (x y z : Task) :
  (compareTasks price_high x y <= 0 ->
   compareTasks price_high y z <= 0 ->
   compareTasks price_high x z <= 0)
  /\ (compareTasks price_low x y <= 0 ->
      compareTasks price_low y z <= 0 ->
      compareTasks price_low x z <= 0).
Proof. simpl. split; lia. Qed.

(** C7: for every sort mode and every collection, the sort output is a
    permutation of its input, of the same length, and sorting an already
    sorted collection again in the same mode leaves it as it is; the grid's
    output is such a permutation of what its filters let through. *)
Theorem sort_permutation_idempotent {engine : Engine}
    (sortBy : SortOption) (l : list Task) :
  Permutation l (Array_sort (compareTasks sortBy) l)
  /\ length (Array_sort (compareTasks sortBy) l) = length l
  /\ Array_sort (compareTasks sortBy) (Array_sort (compareTasks sortBy) l)
     = Array_sort (compareTasks sortBy) l
  /\ (forall role userList searchQuery filters,
        Permutation (applyFilters role userList searchQuery filters l)
          (filteredAndSortedTasks role userList searchQuery sortBy filters l)).
Proof.
  repeat split.
  - apply Array_sort_perm.
  - apply Array_sort_length.
  - apply Array_sort_idempotent, compareTasks_total.
  - intros. apply Array_sort_perm.
Qed.



(** C3 (as the code has it): the price sorts order by the effective price
    the comparator computes, highest first in price-high and lowest first
    in price-low; that price is the confirmed price when it is present and
    not zero, and otherwise the quoted price when present, else zero: a
    confirmed price of zero counts as absent. *)
Theorem price_sort_effective_price (l : list Task) (i j : nat) (x y : Task) :
  (nth_error (Array_sort (compareTasks price_high) l) i = Some x ->
   nth_error (Array_sort (compareTasks price_high) l) j = Some y ->
   effectivePrice y < effectivePrice x -> (i < j)%nat)
  /\ (nth_error (Array_sort (compareTasks price_low) l) i = Some x ->
      nth_error (Array_sort (compareTasks price_low) l) j = Some y ->
      effectivePrice x < effectivePrice y -> (i < j)%nat)
  /\ (confirmedPrice x <> Some 0 -> effectivePrice x = effectivePrice_spec x)
  /\ (confirmedPrice x = Some 0 ->
      effectivePrice x = match quotedPrice x with Some q => q | None => 0 end).
Proof.
  repeat split.
  - intros Hi Hj Hlt.
    eapply (Array_sort_precedes (compareTasks price_high));
      [apply compareTasks_total
      |intros a b c; apply (compareTasks_price_trans a b c)
      |exact Hi|exact Hj|]. simpl. lia.
  - intros Hi Hj Hlt.
    eapply (Array_sort_precedes (compareTasks price_low));
      [apply compareTasks_total
      |intros a b c; apply (compareTasks_price_trans a b c)
      |exact Hi|exact Hj|]. simpl. lia.
  - unfold effectivePrice, effectivePrice_spec, numOr. intro Hc.
    destruct (confirmedPrice x) as [c|].
    + destruct (Z.eqb_spec c 0); [subst; congruence|reflexivity].
    + destruct (quotedPrice x) as [q|]; [|reflexivity].
      destruct (Z.eqb_spec q 0); [subst; reflexivity|reflexivity].
  - unfold effectivePrice, numOr. intros ->. simpl.
    destruct (quotedPrice x) as [q|]; [|reflexivity].
    destruct (Z.eqb_spec q 0); [subst; reflexivity|reflexivity].
Qed.

(** The specification's three prices, [quoted 100], [quoted 50, confirmed
    80] and none, come out as 100, 80, 0 under price-high. *)
Lemma price_sort_effective_price_witness :
  let p1 := sampleTask "p1" 1 NotInitiated Medium (Some 100) None None None in
  let p2 := sampleTask "p2" 2 NotInitiated Medium (Some 50) (Some 80) None None in
  let p3 := sampleTask "p3" 3 NotInitiated Medium None None None None in
  Array_sort (compareTasks price_high) [p3; p2; p1] = [p1; p2; p3]
  /\ map effectivePrice [p1; p2; p3] = [100; 80; 0]
  /\ (0 < 1)%nat
  /\ effectivePrice p2 = effectivePrice_spec p2.
Proof.
  split; [reflexivity|]. split; [reflexivity|].
  split.
  - refine (proj1 (price_sort_effective_price
        [sampleTask "p3" 3 NotInitiated Medium None None None None;
         sampleTask "p2" 2 NotInitiated Medium (Some 50) (Some 80) None None;
         sampleTask "p1" 1 NotInitiated Medium (Some 100) None None None]
        0 1
        (sampleTask "p1" 1 NotInitiated Medium (Some 100) None None None)
        (sampleTask "p2" 2 NotInitiated Medium (Some 50) (Some 80) None None))
      eq_refl eq_refl _).
    vm_compute. reflexivity.
  - refine (proj1 (proj2 (proj2 (price_sort_effective_price [] 0 0
        (sampleTask "p2" 2 NotInitiated Medium (Some 50) (Some 80) None None)
        (sampleTask "p2" 2 NotInitiated Medium (Some 50) (Some 80) None None))))
      _).
    simpl. discriminate.
Defined.

(** C3 (as stated) fails: an item whose confirmed price is present and
    zero is ordered by its quoted price.  Item [a] (quoted 100, confirmed 0)
    is put before item [b] (confirmed 50) by price-high, although the
    specification's effective prices are 0 and 50. *)
Lemma price_sort_confirmed_zero_counterexample :
  let a := sampleTask "a" 1 NotInitiated Medium (Some 100) (Some 0) None None in
  let b := sampleTask "b" 2 NotInitiated Medium None (Some 50) None None in
  Array_sort (compareTasks price_high) [b; a] = [a; b]
  /\ confirmedPrice a = Some 0
  /\ effectivePrice_spec a = 0
  /\ effectivePrice_spec b = 50
  /\ effectivePrice a = 100
  /\ ~ (forall (l : list Task) (i j : nat) (x y : Task),
          nth_error (Array_sort (compareTasks price_high) l) i = Some x ->
          nth_error (Array_sort (compareTasks price_high) l) j = Some y ->
          effectivePrice_spec y < effectivePrice_spec x -> (i < j)%nat).
Proof.
  repeat split.
  intro H.
  specialize (H
    [sampleTask "b" 2 NotInitiated Medium None (Some 50) None None;
     sampleTask "a" 1 NotInitiated Medium (Some 100) (Some 0) None None]
    1%nat 0%nat
    (sampleTask "b" 2 NotInitiated Medium None (Some 50) None None)
    (sampleTask "a" 1 NotInitiated Medium (Some 100) (Some 0) None None)
    eq_refl eq_refl).
  assert (Hlt : (1 < 0)%nat) by (apply H; vm_compute; reflexivity).
  lia.
Qed.

(** ** Filtering *)

Lemma prefix_append (q s : string) :
  String.prefix q s = true <-> exists post, s = (q ++ post)%string.
Proof.
  revert s. induction q as [|c q IH]; intros s; simpl.
  - split; [intros _; exists s; reflexivity|intros _; destruct s; reflexivity].
  - destruct s as [|d s].
    + split; [discriminate|intros [post H]; discriminate].
    + simpl. destruct (Ascii.ascii_dec c d) as [->|Hne].
      * rewrite IH. split; intros [post H]; exists post.
        -- rewrite H. reflexivity.
        -- injection H as H. exact H.
      * split; [discriminate|].
        intros [post H]. injection H as H1 H2. congruence.
Qed.

Lemma strIncludes_append (s q : string) :
  strIncludes s q = true
  <-> exists pre post, s = (pre ++ q ++ post)%string.
Proof.
  induction s as [|c s IH].
  - cbn [strIncludes]. rewrite orb_false_r, prefix_append. split.
    + intros [post H]. exists EmptyString, post. exact H.
    + intros [pre [post H]]. destruct pre; [exists post; exact H|discriminate].
  - cbn [strIncludes]. rewrite orb_true_iff, prefix_append, IH. split.
    + intros [[post H]|[pre [post H]]].
      * exists EmptyString, post. exact H.
      * exists (String c pre), post. simpl. rewrite H. reflexivity.
    + intros [pre [post H]]. destruct pre as [|d pre].
      * left. exists post. exact H.
      * right. injection H as _ H. exists pre, post. exact H.
Qed.

Lemma optIncludes_spec {engine : Engine} (x : option string) (q : string) :
  optIncludes x (toLowerCase q) = true
  <-> exists s, x = Some s /\ containsCI s q.
Proof.
  unfold optIncludes, containsCI. destruct x as [s|].
  - rewrite strIncludes_append. split.
    + intros H. exists s. split; [reflexivity|exact H].
    + intros [s' [E H]]. injection E as <-. exact H.
  - split; [discriminate|intros [s [E _]]; discriminate].
Qed.

Lemma matchesSearch_spec {engine : Engine}
    (role : string) (userList : list UserInfo.t)
    (q : string) (t : Task) :
  q <> EmptyString ->
  (matchesSearch role userList (toLowerCase q) t = true
   <-> satisfiesSearch role userList q t).
Proof.
  intros Hq. unfold matchesSearch, satisfiesSearch.
  repeat rewrite orb_true_iff. repeat rewrite andb_true_iff.
  repeat rewrite orb_true_iff.
  repeat rewrite optIncludes_spec. repeat rewrite strIncludes_append.
  rewrite negb_true_iff, String.eqb_eq.
  fold (containsCI (title t) q) (containsCI (description t) q)
       (containsCI (site t) q) (containsCI (materialDescription t) q).
  set (user := find _ userList).
  rewrite String.eqb_neq.
  assert (Hu : forall (proj : UserInfo.t -> string),
             (exists s, option_map proj user = Some s /\ containsCI s q)
             <-> exists u, user = Some u /\ containsCI (proj u) q).
  { intros proj. destruct user as [u|]; simpl.
    - split.
      + intros [s [E H]]. injection E as <-. exists u. split; [reflexivity|exact H].
      + intros [u' [E H]]. injection E as <-. exists (proj u).
        split; [reflexivity|exact H].
    - split; [intros [s [E _]]; discriminate|intros [u [E _]]; discriminate]. }
  rewrite (Hu UserInfo.name), (Hu UserInfo.email).
  split.
  - intros [[[[[H|H]|H]|H]|H]|[Hr H]]; right; try tauto.
    right. right. right. right. right. split; [exact Hr|].
    destruct H as [[H|[u [E H]]]|[u [E H]]].
    + left. exact H.
    + right. exists u. tauto.
    + right. exists u. tauto.
  - intros [H|H]; [contradiction|].
    destruct H as [H|[H|[H|[H|[H|[Hr H]]]]]]; try tauto.
    right. split; [exact Hr|].
    destruct H as [H|[u [E [H|H]]]].
    + left. left. exact H.
    + left. right. exists u. tauto.
    + right. exists u. tauto.
Qed.

Lemma filterWhen_In {A} (guard : bool) (p : A -> bool) (l : list A) (t : A) :
  In t (filterWhen guard p l) <-> In t l /\ (guard = true -> p t = true).
Proof.
  unfold filterWhen. destruct guard.
  - rewrite filter_In. split; intros [H1 H2]; split; auto.
  - split; [intros H; split; [exact H|discriminate]|intros [H _]; exact H].
Qed.

Lemma filterTri_In {A} (x : option bool) (p : bool -> A -> bool)
    (l : list A) (t : A) :
  In t (filterTri x p l)
  <-> In t l /\ (forall want, x = Some want -> p want t = true).
Proof.
  unfold filterTri. destruct x as [w|].
  - rewrite filter_In. split; intros [H1 H2]; split; auto.
    intros want E. injection E as <-. exact H2.
  - split; [intros H; split; [exact H|discriminate]|intros [H _]; exact H].
Qed.

Lemma includes_In {A} (eqb : A -> A -> bool)
    (eqb_eq : forall a b, eqb a b = true <-> a = b) (l : list A) (x : A) :
  includes eqb l x = true <-> In x l.
Proof.
  unfold includes. rewrite existsb_exists. split.
  - intros [y [Hy E]]. apply eqb_eq in E. subst. exact Hy.
  - intros H. exists x. split; [exact H|apply eqb_eq; reflexivity].
Qed.

Lemma nonEmpty_guard {A} (l : list A) (P : Prop) :
  (nonEmpty l = true -> P) <-> (l = [] \/ P).
Proof.
  destruct l as [|a l]; simpl.
  - split; [intros _; left; reflexivity|discriminate].
  - split; [intros H; right; apply H; reflexivity|].
    intros [H|H] _; [discriminate|exact H].
Qed.

Lemma TaskStatus_eqb_eq (a b : TaskStatus) : TaskStatus_eqb a b = true <-> a = b.
Proof. destruct a, b; simpl; split; congruence. Qed.

Lemma WorkItemType_eqb_eq (a b : WorkItemType) :
  WorkItemType_eqb a b = true <-> a = b.
Proof. destruct a, b; simpl; split; congruence. Qed.

Lemma PriorityType_eqb_eq (a b : PriorityType) :
  PriorityType_eqb a b = true <-> a = b.
Proof. destruct a, b; simpl; split; congruence. Qed.

Lemma MaterialStatus_eqb_eq (a b : MaterialStatus) :
  MaterialStatus_eqb a b = true <-> a = b.
Proof. destruct a, b; simpl; split; congruence. Qed.

Lemma opt_eqb_eq {A} (eqb : A -> A -> bool)
    (eqb_eq : forall a b, eqb a b = true <-> a = b) (x y : option A) :
  opt_eqb eqb x y = true <-> x = y.
Proof.
  destruct x as [a|], y as [b|]; simpl; try (split; congruence).
  rewrite eqb_eq. split; congruence.
Qed.

Lemma priorityPred_spec (f : Filters.t) (t : Task) :
  priorityPred f t = true
  <-> exists p, priority t = Some p /\ In p (Filters.priorities f).
Proof.
  unfold priorityPred.
  rewrite (includes_In _ (opt_eqb_eq _ PriorityType_eqb_eq)), in_map_iff.
  split; intros [p [H1 H2]]; exists p; split; congruence.
Qed.

Lemma materialStatusPred_spec (f : Filters.t) (t : Task) :
  materialStatusPred f t = true
  <-> exists m, materialStatus t = Some m /\ In m (Filters.materialStatus f).
Proof.
  unfold materialStatusPred. destruct (materialStatus t) as [m|].
  - rewrite (includes_In _ MaterialStatus_eqb_eq). split.
    + intros H. exists m. split; [reflexivity|exact H].
    + intros [m' [E H]]. injection E as <-. exact H.
  - split; [discriminate|intros [m [E _]]; discriminate].
Qed.

Lemma hasDocumentsPred_spec (want : bool) (t : Task) :
  hasDocumentsPred want t = true <-> (want = true <-> images t <> []).
Proof.
  unfold hasDocumentsPred.
  destruct want, (images t) as [|a l]; simpl; intuition congruence.
Qed.

Lemma hasPricePred_spec (want : bool) (t : Task) :
  hasPricePred want t = true
  <-> (want = true <-> (quotedPrice t <> None \/ confirmedPrice t <> None)).
Proof.
  unfold hasPricePred.
  destruct want, (quotedPrice t) as [q|], (confirmedPrice t) as [c|]; simpl;
    intuition congruence.
Qed.

Lemma requiresMaterialPred_spec (want : bool) (t : Task) :
  requiresMaterialPred want t = true <-> requiresMaterial t = want.
Proof. unfold requiresMaterialPred. apply Bool.eqb_true_iff. Qed.

Lemma forall_want_iff (x : option bool) (P Q : bool -> Prop) :
  (forall want, P want <-> Q want) ->
  ((forall want, x = Some want -> P want)
   <-> (forall want, x = Some want -> Q want)).
Proof.
  intros H. split; intros H' want E; apply H, H', E.
Qed.

(** The filter step keeps exactly the items that meet every criterion. *)
Lemma applyFilters_In {engine : Engine}
    (role : string) (userList : list UserInfo.t)
    (searchQuery : string) (filters : Filters.t) (tasks : list Task) (t : Task) :
  In t (applyFilters role userList searchQuery filters tasks)
  <-> In t tasks
      /\ satisfiesSearch role userList searchQuery t
      /\ satisfiesFilters filters t.
Proof.
  unfold applyFilters, satisfiesFilters.
  repeat rewrite filterTri_In. repeat rewrite filterWhen_In.
  repeat rewrite nonEmpty_guard.
  unfold statusPred, typePred, userPred.
  rewrite (includes_In _ TaskStatus_eqb_eq), (includes_In _ WorkItemType_eqb_eq),
    (includes_In _ String.eqb_eq), priorityPred_spec, materialStatusPred_spec.
  rewrite (forall_want_iff _ _ _ (fun w => requiresMaterialPred_spec w t)).
  rewrite (forall_want_iff _ _ _ (fun w => hasDocumentsPred_spec w t)).
  rewrite (forall_want_iff _ _ _ (fun w => hasPricePred_spec w t)).
  assert (Hs : (negb (String.eqb searchQuery "") = true ->
                matchesSearch role userList (toLowerCase searchQuery) t = true)
               <-> satisfiesSearch role userList searchQuery t).
  { destruct (String.eqb_spec searchQuery "") as [->|Hne]; simpl.
    - split; [intros _; left; reflexivity|discriminate].
    - rewrite <- (matchesSearch_spec role userList searchQuery t Hne).
      split; [intros H; apply H; reflexivity|intros H _; exact H]. }
  rewrite Hs. tauto.
Qed.

(** C1: for every collection and every filter configuration, the items the
    filter step (and the grid after sorting) lets through are exactly the
    input items that meet every configured criterion: status, type,
    priority, user, material status, requires-material, has-documents,
    has-price and free text, where an empty set or an unset tri-state asks
    nothing.  With nothing configured the filter step returns its input as
    it is, and every item meets the empty configuration. *)
Theorem filter_satisfies_configuration {engine : Engine} (role : string)
    (userList : list UserInfo.t) (searchQuery : string) (filters : Filters.t)
    (tasks : list Task) :
  (forall t,
     In t (applyFilters role userList searchQuery filters tasks)
     <-> In t tasks
         /\ satisfiesSearch role userList searchQuery t
         /\ satisfiesFilters filters t)
  /\ (forall sortBy t,
        In t (filteredAndSortedTasks role userList searchQuery sortBy filters
                tasks)
        <-> In t tasks
            /\ satisfiesSearch role userList searchQuery t
            /\ satisfiesFilters filters t)
  /\ applyFilters role userList "" initialFilters tasks = tasks
  /\ (forall t,
        satisfiesSearch role userList "" t /\ satisfiesFilters initialFilters t).
Proof.
  split; [intros t; apply applyFilters_In|].
  split.
  - intros sortBy t. unfold filteredAndSortedTasks.
    rewrite Array_sort_In. apply applyFilters_In.
  - split; [reflexivity|].
    intros t. split; [left; reflexivity|].
    unfold satisfiesFilters. simpl.
    repeat split; try (left; reflexivity); discriminate.
Qed.

(** ** Aggregation *)

Lemma status_partition (l : list Task) :
  (length (filter (hasStatus Completed) l)
   + length (filter (hasStatus InProgress) l)
   + length (filter (hasStatus NotInitiated) l) = length l)%nat.
Proof.
  induction l as [|t l IH]; [reflexivity|].
  unfold hasStatus in *. simpl. destruct (status t); simpl; lia.
Qed.

Lemma status_count (s : TaskStatus) (l : list Task) :
  length (filter (hasStatus s) l)
  = count_occ TaskStatus_eq_dec (map status l) s.
Proof.
  induction l as [|t l IH]; [reflexivity|].
  cbn [filter map count_occ]. unfold hasStatus at 1.
  destruct (TaskStatus_eq_dec (status t) s) as [E|E].
  - rewrite (proj2 (TaskStatus_eqb_eq _ _) E). cbn [length]. rewrite IH.
    reflexivity.
  - destruct (TaskStatus_eqb (status t) s) eqn:Eb; [|exact IH].
    apply TaskStatus_eqb_eq in Eb. contradiction.
Qed.

(** C9: for every collection, the empty one included, the completed,
    in-progress and not-initiated counts add up to the number of items of
    the collection, which is the total shown, on the dashboard and in the
    summary of both reports (there over the items the report renders); each
    count is the number of items in that status; on the empty collection
    every count is 0. *)
Theorem status_counts_sum_to_total (now : Date) (tasks : list Task)
    (options : ReportOptions.t) :
  let inStatus (s : TaskStatus) (l : list Task) :=
    count_occ TaskStatus_eq_dec (map status l) s in
  (completed (newMetrics tasks) + inProgress (newMetrics tasks)
   + notStarted (newMetrics tasks) = total (newMetrics tasks))%nat
  /\ total (newMetrics tasks) = length tasks
  /\ (completed (newMetrics tasks) + inProgress (newMetrics tasks)
      + notStarted (newMetrics tasks) = length tasks)%nat
  /\ completed (newMetrics tasks) = inStatus Completed tasks
  /\ inProgress (newMetrics tasks) = inStatus InProgress tasks
  /\ notStarted (newMetrics tasks) = inStatus NotInitiated tasks
  /\ (Summary.completed (summarize tasks) + Summary.inProgress (summarize tasks)
      + Summary.notStarted (summarize tasks)
      = Summary.totalTasks (summarize tasks))%nat
  /\ Summary.totalTasks (summarize tasks) = length tasks
  /\ (Summary.completed (summarize tasks) + Summary.inProgress (summarize tasks)
      + Summary.notStarted (summarize tasks) = length tasks)%nat
  /\ Summary.completed (summarize tasks) = inStatus Completed tasks
  /\ Summary.inProgress (summarize tasks) = inStatus InProgress tasks
  /\ Summary.notStarted (summarize tasks) = inStatus NotInitiated tasks
  /\ (let s := PDF.summary (generatePDFReport now tasks options) in
      let shown := pdfFilteredTasks now tasks options in
      (Summary.completed s + Summary.inProgress s + Summary.notStarted s
       = Summary.totalTasks s)%nat
      /\ Summary.totalTasks s = length shown
      /\ Summary.totalTasks s = length (PDF.body (generatePDFReport now tasks options))
      /\ Summary.completed s = inStatus Completed shown
      /\ Summary.inProgress s = inStatus InProgress shown
      /\ Summary.notStarted s = inStatus NotInitiated shown)
  /\ (let s := summarize (excelFilteredTasks now tasks options) in
      let shown := excelFilteredTasks now tasks options in
      (Summary.completed s + Summary.inProgress s + Summary.notStarted s
       = Summary.totalTasks s)%nat
      /\ Summary.totalTasks s = length shown
      /\ Summary.completed s = inStatus Completed shown
      /\ Summary.inProgress s = inStatus InProgress shown
      /\ Summary.notStarted s = inStatus NotInitiated shown)
  /\ newMetrics []
     = {| total := 0; completed := 0; inProgress := 0; notStarted := 0;
          projects := 0; jobs := 0 |}
  /\ summarize []
     = {| Summary.totalTasks := 0; Summary.completed := 0;
          Summary.inProgress := 0; Summary.notStarted := 0;
          Summary.projects := 0; Summary.jobs := 0;
          Summary.urgent := 0; Summary.high := 0; Summary.medium := 0;
          Summary.low := 0; Summary.confirmedWork := 0;
          Summary.awaitingConfirmation := 0; Summary.withPO := 0 |}.
Proof.
  cbv zeta.
  cbn [newMetrics summarize generatePDFReport total completed inProgress
       notStarted Summary.totalTasks Summary.completed Summary.inProgress
       Summary.notStarted PDF.summary PDF.body].
  rewrite length_map.
  repeat split; try apply status_partition; try apply status_count.
Qed.






(** ** Task editor: the attachment cap *)

Lemma handleFileChange_cap (createObjectURL : File -> string)
    (files : option (list File)) (st : TaskDialog.t) :
  (attachmentCount st <= 50)%nat ->
  (attachmentCount (handleFileChange createObjectURL files st) <= 50)%nat.
Proof.
  intros Hcap. unfold handleFileChange.
  destruct files as [[|f files]|]; try exact Hcap.
  fold (attachmentCount st).
  rewrite <- Nat2Z.inj_add. fold (attachmentCount st).
  destruct (Z.gtb_spec (Z.of_nat (length (f :: files)))
              (50 - Z.of_nat (attachmentCount st))) as [Hgt|Hle].
  - exact Hcap.
  - unfold attachmentCount in *.
    cbn [TaskDialog.taskImages TaskDialog.existingImages].
    rewrite length_app, length_map. lia.
Qed.

(** C10: a file-add action that selects more files than 50 minus the
    current number of saved and pending attachments is refused with an
    error notification and adds nothing; any other selection is appended
    whole; so an editor holding at most 50 attachments never comes to hold
    more, over any run of file-add actions. *)
Theorem attachment_cap (createObjectURL : File -> string)
    (files : list File) (st : TaskDialog.t) :
  let remainingSlots := 50 - Z.of_nat (attachmentCount st) in
  let st' := handleFileChange createObjectURL (Some files) st in
  (Z.of_nat (length files) > remainingSlots ->
   files <> [] ->
   TaskDialog.taskImages st' = TaskDialog.taskImages st
   /\ TaskDialog.existingImages st' = TaskDialog.existingImages st
   /\ TaskDialog.toasts st'
      = TaskDialog.toasts st ++ [fileLimitToast remainingSlots])
  /\ (Z.of_nat (length files) <= remainingSlots ->
      map file (TaskDialog.taskImages st')
      = map file (TaskDialog.taskImages st) ++ files
      /\ TaskDialog.existingImages st' = TaskDialog.existingImages st
      /\ TaskDialog.toasts st' = TaskDialog.toasts st
      /\ attachmentCount st' = (attachmentCount st + length files)%nat)
  /\ ((attachmentCount st <= 50)%nat -> (attachmentCount st' <= 50)%nat)
  /\ (forall actions,
        (attachmentCount st <= 50)%nat ->
        (attachmentCount (addFilesRun createObjectURL actions st) <= 50)%nat).
Proof.
  cbv zeta. split; [|split; [|split]].
  - intros Hgt Hne. unfold handleFileChange.
    destruct files as [|f files]; [contradiction|].
    rewrite <- Nat2Z.inj_add. fold (attachmentCount st).
    destruct (Z.gtb_spec (Z.of_nat (length (f :: files)))
                (50 - Z.of_nat (attachmentCount st))) as [_|Hle]; [|lia].
    simpl. repeat split.
  - intros Hle. unfold handleFileChange.
    destruct files as [|f files].
    + rewrite app_nil_r. unfold attachmentCount. simpl.
      repeat split. lia.
    + rewrite <- Nat2Z.inj_add. fold (attachmentCount st).
      destruct (Z.gtb_spec (Z.of_nat (length (f :: files)))
                  (50 - Z.of_nat (attachmentCount st))) as [Hgt|_]; [lia|].
      unfold attachmentCount. cbn [TaskDialog.taskImages TaskDialog.existingImages
                                   TaskDialog.toasts].
      rewrite map_app, map_map, length_app, length_map. simpl.
      rewrite map_id. repeat split. lia.
  - apply handleFileChange_cap.
  - intros actions. revert st. unfold addFilesRun.
    induction actions as [|a actions IH]; intros st Hcap; simpl; [exact Hcap|].
    apply IH, handleFileChange_cap, Hcap.
Qed.

(** With 48 attachments held, three more files are refused and two more
    are taken. *)
Lemma attachment_cap_witness :
  let st := {| TaskDialog.taskImages := [];
               TaskDialog.existingImages := repeat "doc"%string 48;
               TaskDialog.toasts := [] |} in
  let url := fun f : File => ("blob:" ++ f)%string in
  (TaskDialog.taskImages (handleFileChange url (Some ["a"; "b"; "c"]%string) st)
   = []
   /\ TaskDialog.existingImages
        (handleFileChange url (Some ["a"; "b"; "c"]%string) st)
      = repeat "doc"%string 48
   /\ TaskDialog.toasts (handleFileChange url (Some ["a"; "b"; "c"]%string) st)
      = [] ++ [fileLimitToast (50 - Z.of_nat 48)])
  /\ attachmentCount (handleFileChange url (Some ["a"; "b"]%string) st) = 50%nat
  /\ (attachmentCount (handleFileChange url (Some ["a"; "b"]%string) st)
      <= 50)%nat.
Proof.
  split; [|split].
  - refine (proj1 (attachment_cap (fun f : File => ("blob:" ++ f)%string)
        ["a"; "b"; "c"]%string
        {| TaskDialog.taskImages := [];
           TaskDialog.existingImages := repeat "doc"%string 48;
           TaskDialog.toasts := [] |}) _ _).
    + vm_compute. reflexivity.
    + discriminate.
  - refine (proj2 (proj2 (proj2 (proj1 (proj2 (attachment_cap
        (fun f : File => ("blob:" ++ f)%string)
        ["a"; "b"]%string
        {| TaskDialog.taskImages := [];
           TaskDialog.existingImages := repeat "doc"%string 48;
           TaskDialog.toasts := [] |})) _)))).
    vm_compute. discriminate.
  - refine (proj1 (proj2 (proj2 (attachment_cap
        (fun f : File => ("blob:" ++ f)%string)
        ["a"; "b"]%string
        {| TaskDialog.taskImages := [];
           TaskDialog.existingImages := repeat "doc"%string 48;
           TaskDialog.toasts := [] |}))) _).
    vm_compute. repeat constructor.
Defined.

(** ** Reports in selection mode *)

Lemma selected_In (sel : list string) (tasks : list Task) (t : Task) :
  In t (Array_sort byNewest
          (filter (fun task => includes String.eqb sel (id task)) tasks))
  <-> In t tasks /\ In (id t) sel.
Proof.
  rewrite Array_sort_In, filter_In, (includes_In _ String.eqb_eq). reflexivity.
Qed.

(** C2 (as the code has it): when a selection list is supplied, both
    renderers render exactly the input items whose id is in the list,
    newest first, whatever the status flags, the type flags and the date
    range of the same options; the PDF is titled "Custom Data Report" and
    carries no period line. *)
Theorem selection_mode_rendering (now : Date) (tasks : list Task)
    (options : ReportOptions.t) (sel : list string) :
  ReportOptions.selectedTasks options = Some sel ->
  let selected :=
    Array_sort byNewest
      (filter (fun task => includes String.eqb sel (id task)) tasks) in
  pdfFilteredTasks now tasks options = selected
  /\ excelFilteredTasks now tasks options = selected
  /\ (forall t, In t (pdfFilteredTasks now tasks options)
                <-> In t tasks /\ In (id t) sel)
  /\ (forall t, In t (excelFilteredTasks now tasks options)
                <-> In t tasks /\ In (id t) sel)
  /\ PDF.body (generatePDFReport now tasks options)
     = map (pdfRow options) selected
  /\ Workbook.Tasks (generateExcelReport now tasks options)
     = map (excelRow options) selected
  /\ PDF.summary (generatePDFReport now tasks options) = summarize selected
  /\ PDF.title (generatePDFReport now tasks options)
     = "Custom Data Report"%string
  /\ PDF.periodLine (generatePDFReport now tasks options) = None.
Proof.
  intros Hsel. cbv zeta.
  assert (Hp : pdfFilteredTasks now tasks options
               = Array_sort byNewest
                   (filter (fun task => includes String.eqb sel (id task)) tasks)).
  { unfold pdfFilteredTasks. rewrite Hsel. reflexivity. }
  assert (He : excelFilteredTasks now tasks options
               = Array_sort byNewest
                   (filter (fun task => includes String.eqb sel (id task)) tasks)).
  { unfold excelFilteredTasks. rewrite Hsel. reflexivity. }
  split; [exact Hp|]. split; [exact He|].
  split; [intros t; rewrite Hp; apply selected_In|].
  split; [intros t; rewrite He; apply selected_In|].
  unfold generatePDFReport, generateExcelReport. simpl.
  rewrite Hp, He, Hsel. simpl. repeat split.
Qed.

(** A completed project created on 1 January is selected while the options
    exclude completed items and projects and ask for 11 January only: it is
    rendered all the same, and the unselected item is not. *)
Lemma selection_mode_rendering_witness :
  let t1 := sampleTask "t1" jan1 Completed Medium None None None None in
  let t2 := sampleTask "t2" jan11 InProgress Medium None None None None in
  let options :=
    {| ReportOptions.period := daily;
       ReportOptions.startDate := Some jan11;
       ReportOptions.endDate := Some jan11;
       ReportOptions.includeCompleted := Some false;
       ReportOptions.includeInProgress := Some true;
       ReportOptions.includeNotStarted := Some true;
       ReportOptions.includeProjects := Some false;
       ReportOptions.includeJobs := Some false;
       ReportOptions.includePriceDetails := Some false;
       ReportOptions.selectedTasks := Some ["t1"%string] |} in
  pdfFilteredTasks jan11 [t1; t2] options = [t1]
  /\ excelFilteredTasks jan11 [t1; t2] options = [t1]
  /\ PDF.title (generatePDFReport jan11 [t1; t2] options)
     = "Custom Data Report"%string.
Proof.
  cbv zeta.
  pose proof (selection_mode_rendering jan11
    [sampleTask "t1" jan1 Completed Medium None None None None;
     sampleTask "t2" jan11 InProgress Medium None None None None]
    {| ReportOptions.period := daily;
       ReportOptions.startDate := Some jan11;
       ReportOptions.endDate := Some jan11;
       ReportOptions.includeCompleted := Some false;
       ReportOptions.includeInProgress := Some true;
       ReportOptions.includeNotStarted := Some true;
       ReportOptions.includeProjects := Some false;
       ReportOptions.includeJobs := Some false;
       ReportOptions.includePriceDetails := Some false;
       ReportOptions.selectedTasks := Some ["t1"%string] |}
    ["t1"%string] eq_refl) as H.
  cbv zeta in H.
  destruct H as [Hp [He [_ [_ [_ [_ [_ [Ht _]]]]]]]].
  split; [exact Hp|]. split; [exact He|exact Ht].
Defined.

(** C2 (as stated) fails for the spreadsheet: in selection mode, with the
    options the dialog builds, the workbook carries a "Period" row framing
    the current day and the text "Custom Data Report" appears nowhere in
    it; only the PDF has that title. *)
Lemma excel_selection_counterexample :
  let t1 := sampleTask "t1" jan1 Completed Medium None None None None in
  let st :=
    ReportDialog.setSelectedTasks ["t1"%string]
      (handlePeriodChange selection ReportDialog.initial) in
  let options := dialogOptions st false in
  let workbook := generateExcelReport jan11 [t1] options in
  ReportOptions.selectedTasks options = Some ["t1"%string]
  /\ excelPeriodRow workbook
     = Some [CStr "Period"; CPeriod jan11 (jan11 + 86399999)]
  /\ existsb (String.eqb "Custom Data Report") (workbookText workbook) = false
  /\ PDF.title (generatePDFReport jan11 [t1] options)
     = "Custom Data Report"%string.
Proof.
  cbv zeta. split; [reflexivity|]. split; [vm_compute; reflexivity|].
  split; vm_compute; reflexivity.
Qed.

(** ** Report dialog: date ranges *)

Lemma periodRange_end_of_day (p : DialogPeriod) (date start end_ : Date) :
  periodRange p date = Some (start, end_) -> exists k, end_ = dayEnd k.
Proof.
  destruct p as [[| | | |]| |]; simpl; intros H; try discriminate;
    injection H as _ <-; eexists; reflexivity.
Qed.

Lemma dayNumber_bounds (d : Date) :
  dayStart (dayNumber d) <= d <= dayEnd (dayNumber d).
Proof.
  unfold dayStart, dayEnd, dayNumber.
  assert (Hd : 0 < MS_PER_DAY) by (unfold MS_PER_DAY; lia).
  pose proof (Z.div_mod d MS_PER_DAY ltac:(lia)).
  pose proof (Z.mod_pos_bound d MS_PER_DAY Hd). lia.
Qed.

(** An end of day that lies after [now] is clamped to the end of today,
    or is the end of today already. *)
Lemma clamp_to_today (now k : Z) :
  now < dayEnd k ->
  (if isAfter (dayEnd k) (today now) then today now else dayEnd k) = today now.
Proof.
  intros Hlt. unfold isAfter, today, endOfDay.
  destruct (Z.ltb_spec (dayEnd (dayNumber now)) (dayEnd k)) as [_|Hle];
    [reflexivity|].
  pose proof (dayNumber_bounds now) as Hb.
  unfold dayEnd, dayStart in *.
  assert (Hd : MS_PER_DAY = 86400000) by reflexivity.
  rewrite Hd in *. f_equal. lia.
Qed.

(** C5 (as the code has it): when a named-period range is computed from an
    accepted anchor date and its calendar end falls after now, the end
    bound that is stored is the end of the current day, [endOfDay now], and
    the start bound is the calendar start. *)
Theorem period_end_clamped (now date : Date) (p : ReportPeriod)
    (st : ReportDialog.t) :
  ReportDialog.period st = named p ->
  p <> daily ->
  date <= today now ->
  now < snd (getDefaultDateRange p date) ->
  ReportDialog.endDate (handleDateSelect now (Some date) st)
  = Some (endOfDay now)
  /\ ReportDialog.startDate (handleDateSelect now (Some date) st)
     = Some (fst (getDefaultDateRange p date))
  /\ ReportDialog.toasts (handleDateSelect now (Some date) st)
     = ReportDialog.toasts st.
Proof.
  intros Hp Hnd Hdate Hend. unfold handleDateSelect, isAfter.
  destruct (Z.ltb_spec (today now) date) as [Hgt|_]; [lia|].
  cbn [ReportDialog.period ReportDialog.setSelectedDate]. rewrite Hp.
  assert (Hr : periodRange (named p) date = Some (getDefaultDateRange p date)).
  { destruct p; try reflexivity. contradiction. }
  rewrite Hr. destruct (getDefaultDateRange p date) as [start end_] eqn:E.
  simpl in Hend. destruct (periodRange_end_of_day _ _ _ _ Hr) as [k ->].
  pose proof (clamp_to_today now k Hend) as Hc. unfold isAfter in Hc.
  simpl. rewrite Hc. repeat split.
Qed.

(** At noon of 11 January 2024 the month of January is asked for: the
    calendar end, 31 January, lies ahead, and the stored end is the end of
    11 January. *)
Lemma period_end_clamped_witness :
  let now := jan11 + 43200000 in
  let st := handlePeriodChange (named monthly) ReportDialog.initial in
  ReportDialog.endDate (handleDateSelect now (Some jan11) st)
  = Some (jan11 + 86399999)
  /\ ReportDialog.startDate (handleDateSelect now (Some jan11) st) = Some jan1.
Proof.
  cbv zeta.
  destruct (period_end_clamped (jan11 + 43200000) jan11 monthly
              (handlePeriodChange (named monthly) ReportDialog.initial))
    as [He [Hs _]].
  - reflexivity.
  - discriminate.
  - vm_compute. discriminate.
  - vm_compute. reflexivity.
  - split; [exact He|exact Hs].
Defined.

(** C5 (as stated) fails: the clamped end is the end of the current day,
    not the generation instant.  At noon of 11 January, the monthly range
    around 11 January ends at 23:59:59.999 of that day. *)
Lemma period_end_not_now_counterexample :
  let now := jan11 + 43200000 in
  let st :=
    handleDateSelect now (Some jan11)
      (handlePeriodChange (named monthly) ReportDialog.initial) in
  (now <? endOfMonth jan11) = true
  /\ ReportDialog.endDate st = Some (jan11 + 86399999)
  /\ ReportDialog.endDate st <> Some now.
Proof.
  cbv zeta. split; [vm_compute; reflexivity|].
  split; [vm_compute; reflexivity|].
  vm_compute. discriminate.
Qed.

(** C6 (as the code has it): a start or an end bound strictly after the
    end of the current day is refused with an "Invalid Date" notification
    and leaves the stored range as it was.  A start bound not after today is
    stored without any notification, and a stored end that lies before it is
    cleared, so that the stored range is never inverted by it.  An end
    bound not after today is stored without any notification; the end-date
    calendar is what keeps dates before the stored start from being
    offered. *)
Theorem custom_range_bounds (now date : Date) (st : ReportDialog.t) :
  (today now < date ->
   handleStartDateSelect now (Some date) st
   = ReportDialog.toast invalidDateToast st
   /\ handleEndDateSelect now (Some date) st
      = ReportDialog.toast invalidDateToast st
   /\ ReportDialog.startDate (ReportDialog.toast invalidDateToast st)
      = ReportDialog.startDate st
   /\ ReportDialog.endDate (ReportDialog.toast invalidDateToast st)
      = ReportDialog.endDate st)
  /\ (date <= today now ->
      let st' := handleStartDateSelect now (Some date) st in
      ReportDialog.startDate st' = Some date
      /\ ReportDialog.endDate st'
         = match ReportDialog.endDate st with
           | Some e => if e <? date then None else Some e
           | None => None
           end
      /\ ReportDialog.toasts st' = ReportDialog.toasts st
      /\ (forall s e, ReportDialog.startDate st' = Some s ->
                      ReportDialog.endDate st' = Some e -> s <= e))
  /\ (date <= today now ->
      let st' := handleEndDateSelect now (Some date) st in
      ReportDialog.endDate st' = Some date
      /\ ReportDialog.startDate st' = ReportDialog.startDate st
      /\ ReportDialog.toasts st' = ReportDialog.toasts st
      /\ (endDateDisabled now st date = false ->
          forall s, ReportDialog.startDate st' = Some s -> s <= date)).
Proof.
  unfold handleStartDateSelect, handleEndDateSelect, endDateDisabled, isAfter.
  split; [|split].
  - intros Hgt. destruct (Z.ltb_spec (today now) date) as [_|Hle]; [|lia].
    repeat split.
  - intros Hle. cbv zeta.
    destruct (Z.ltb_spec (today now) date) as [Hgt|_]; [lia|].
    destruct (ReportDialog.endDate st) as [e|] eqn:He.
    + destruct (Z.ltb_spec e date) as [Hlt|Hge]; simpl.
      * repeat split. intros s e' _ Hn. discriminate.
      * rewrite He. repeat split. intros s e' Hs He'.
        injection Hs as <-. injection He' as <-. exact Hge.
    + simpl. rewrite He. repeat split. intros s e' _ Hn. discriminate.
  - intros Hle. cbv zeta.
    destruct (Z.ltb_spec (today now) date) as [Hgt|_]; [lia|].
    simpl. repeat split. intros Hdis s Hs. rewrite Hs in Hdis.
    rewrite orb_false_r in Hdis. apply Z.ltb_ge in Hdis. exact Hdis.
Qed.

(** At noon of 5 January 2024 (four days after 1 January): 11 January is
    refused as a start; with the range 1 to 5 January stored, choosing
    5 January as start keeps the end, and 1 January is accepted as end. *)
Lemma custom_range_bounds_witness :
  let now := jan1 + 4 * MS_PER_DAY + 43200000 in
  let jan5 := jan1 + 4 * MS_PER_DAY in
  let st :=
    handleEndDateSelect now (Some jan5)
      (handleStartDateSelect now (Some jan1)
         (handlePeriodChange custom ReportDialog.initial)) in
  handleStartDateSelect now (Some jan11) st
  = ReportDialog.toast invalidDateToast st
  /\ ReportDialog.startDate (handleStartDateSelect now (Some jan5) st)
     = Some jan5
  /\ ReportDialog.endDate (handleEndDateSelect now (Some jan1) st)
     = Some jan1.
Proof.
  cbv zeta.
  split; [|split].
  - refine (proj1 (proj1 (custom_range_bounds
        (jan1 + 4 * MS_PER_DAY + 43200000) jan11
        (handleEndDateSelect (jan1 + 4 * MS_PER_DAY + 43200000)
           (Some (jan1 + 4 * MS_PER_DAY))
           (handleStartDateSelect (jan1 + 4 * MS_PER_DAY + 43200000) (Some jan1)
              (handlePeriodChange custom ReportDialog.initial)))) _)).
    vm_compute. reflexivity.
  - refine (proj1 (proj1 (proj2 (custom_range_bounds
        (jan1 + 4 * MS_PER_DAY + 43200000) (jan1 + 4 * MS_PER_DAY)
        (handleEndDateSelect (jan1 + 4 * MS_PER_DAY + 43200000)
           (Some (jan1 + 4 * MS_PER_DAY))
           (handleStartDateSelect (jan1 + 4 * MS_PER_DAY + 43200000) (Some jan1)
              (handlePeriodChange custom ReportDialog.initial))))) _)).
    vm_compute. discriminate.
  - refine (proj1 (proj2 (proj2 (custom_range_bounds
        (jan1 + 4 * MS_PER_DAY + 43200000) jan1
        (handleEndDateSelect (jan1 + 4 * MS_PER_DAY + 43200000)
           (Some (jan1 + 4 * MS_PER_DAY))
           (handleStartDateSelect (jan1 + 4 * MS_PER_DAY + 43200000) (Some jan1)
              (handlePeriodChange custom ReportDialog.initial))))) _)).
    vm_compute. discriminate.
Defined.

(** C6 (as stated) fails on each count.  At noon of 11 January 2024, with
    the range 1 to 5 January stored: choosing 11 January as start, after the
    stored end, raises no error, stores the start and clears the end;
    choosing 1 January as end when the start is 5 January raises no error
    and stores a range that ends before it starts; and a start one hour
    after now is stored. *)
Lemma custom_range_not_rejected_counterexample :
  let now := jan11 + 43200000 in
  let jan5 := jan1 + 4 * MS_PER_DAY in
  let st :=
    handleEndDateSelect now (Some jan5)
      (handleStartDateSelect now (Some jan1)
         (handlePeriodChange custom ReportDialog.initial)) in
  let inverted :=
    handleEndDateSelect now (Some jan1)
      (handleStartDateSelect now (Some jan5)
         (handlePeriodChange custom ReportDialog.initial)) in
  (ReportDialog.startDate st = Some jan1
   /\ ReportDialog.endDate st = Some jan5)
  /\ (ReportDialog.startDate (handleStartDateSelect now (Some jan11) st)
      = Some jan11
      /\ ReportDialog.endDate (handleStartDateSelect now (Some jan11) st) = None
      /\ ReportDialog.toasts (handleStartDateSelect now (Some jan11) st) = [])
  /\ (ReportDialog.startDate inverted = Some jan5
      /\ ReportDialog.endDate inverted = Some jan1
      /\ ReportDialog.toasts inverted = []
      /\ (jan1 <? jan5) = true)
  /\ (ReportDialog.startDate
        (handleStartDateSelect now (Some (now + 3600000)) st)
      = Some (now + 3600000)
      /\ ReportDialog.toasts
           (handleStartDateSelect now (Some (now + 3600000)) st) = []).
Proof.
  cbv zeta. repeat split; vm_compute; reflexivity.
Qed.

(** ** Worked examples *)

(** 15 February 2024, noon: a Thursday in a leap year. *)
Example calendar_2024_02_15 :
  let d := 1707998400000 in
  civilFromDays (dayNumber d) = (2024, 2, 15)
  /\ (startOfWeek d, endOfWeek d) = (1707609600000, 1708214399999)
  /\ (startOfMonth d, endOfMonth d) = (1706745600000, 1709251199999)
  /\ (startOfQuarter d, endOfQuarter d) = (1704067200000, 1711929599999)
  /\ (startOfYear d, endOfYear d) = (1704067200000, 1735689599999).
Proof. cbv zeta. repeat split; vm_compute; reflexivity. Qed.

(** Searching "ROOF" as a plain user with the status filter on completed:
    the completed item titled "Roof repair" passes, the in-progress one with
    the same title and the completed "Fence" do not. *)
Example filter_by_search_and_status :
  let roof := sampleTask "Roof repair" 10 Completed High None None None None in
  let roof2 := sampleTask "Roof repair" 20 InProgress High None None None None in
  let fence := sampleTask "Fence" 30 Completed Low None None None None in
  let filters :=
    {| Filters.status := [Completed]; Filters.types := [];
       Filters.users := []; Filters.materialStatus := [];
       Filters.priorities := []; Filters.requiresMaterial := None;
       Filters.hasDocuments := None; Filters.hasPrice := None |} in
  filteredAndSortedTasks (engine := asciiEngine) "user" [] "ROOF"
    priority_high filters [fence; roof2; roof]
  = [roof].
Proof. vm_compute. reflexivity. Qed.

(** Three files picked with room for them are all queued, in order. *)
Example handleFileChange_appends_all :
  map file
    (TaskDialog.taskImages
       (handleFileChange (fun f => ("blob:" ++ f)%string)
          (Some ["a"; "b"; "c"]%string)
          {| TaskDialog.taskImages := [];
             TaskDialog.existingImages := ["x"%string];
             TaskDialog.toasts := [] |}))
  = ["a"; "b"; "c"]%string.
Proof. reflexivity. Qed.

(** The refusal names the room left. *)
Example fileLimitToast_text :
  Toast.description (fileLimitToast 2) = "You can only add 2 more files"%string
  /\ Toast.description (fileLimitToast 1) = "You can only add 1 more file"%string.
Proof. split; vm_compute; reflexivity. Qed.

(** The specification's price scenario: quoted sum 150, confirmed sum 80. *)
Example price_totals :
  let p1 := sampleTask "p1" 1 NotInitiated Medium (Some 100) None None None in
  let p2 := sampleTask "p2" 2 NotInitiated Medium (Some 50) (Some 80) None None in
  let p3 := sampleTask "p3" 3 NotInitiated Medium None None None None in
  totalQuoted [p1; p2; p3] = 150 /\ totalConfirmed [p1; p2; p3] = 80.
Proof. split; reflexivity. Qed.

(** Outside selection mode the PDF carries the period in its title and, for
    the daily report, the current day as its period line. *)
Example pdf_daily_title :
  let options := dialogOptions ReportDialog.initial false in
  PDF.title (generatePDFReport jan11 [] options)
  = "Work Tasks Report - Daily"%string
  /\ PDF.periodLine (generatePDFReport jan11 [] options)
     = Some (jan11, jan11 + 86399999).
Proof. split; vm_compute; reflexivity. Qed.

(** ** Pages of the grid *)








(** ** The filter panel *)

Lemma nonEmpty_false {A} (l : list A) : nonEmpty l = false <-> l = [].
Proof. destruct l; split; intros H; try reflexivity; discriminate. Qed.

Lemma isSome_false {A} (x : option A) : isSome x = false <-> x = None.
Proof. destruct x; split; intros H; try reflexivity; discriminate. Qed.

Lemma activeFilterCount_sum (filters : Filters.t) :
  activeFilterCount filters
  = fold_right
      (fun d n => (if dimensionInUse filters d then 1 else 0) + n) 0
      allDimensions.
Proof.
  unfold activeFilterCount.
  cbn [fold_right allDimensions dimensionInUse].
  destruct (nonEmpty (Filters.status filters)),
    (nonEmpty (Filters.types filters)), (nonEmpty (Filters.users filters)),
    (nonEmpty (Filters.materialStatus filters)),
    (nonEmpty (Filters.priorities filters)),
    (isSome (Filters.requiresMaterial filters)),
    (isSome (Filters.hasDocuments filters)),
    (isSome (Filters.hasPrice filters)); reflexivity.
Qed.

Lemma count_in_use (p : Dimension -> bool) (l : list Dimension) :
  fold_right (fun d n => (if p d then 1 else 0) + n) 0 l
  = Z.of_nat (length (filter p l)).
Proof.
  induction l as [|d l IH]; [reflexivity|]. cbn [fold_right filter].
  rewrite IH. destruct (p d); cbn [length]; lia.
Qed.

Lemma clearDimension_unused (filters : Filters.t) (d : Dimension) :
  dimensionInUse filters d = false <-> clearDimension d filters = filters.
Proof.
  destruct filters as [s t u m p r dc h].
  destruct d; unfold clearDimension, dimensionInUse;
    cbn [Filters.status Filters.types Filters.users Filters.materialStatus
         Filters.priorities Filters.requiresMaterial Filters.hasDocuments
         Filters.hasPrice];
    rewrite ?nonEmpty_false, ?isSome_false;
    (split; [intros ->; reflexivity|intros H; injection H as H; auto]).
Qed.

(** X2: the badge on the filter button shows the number of dimensions in
    use, that is, the number of the eight parts of the filter step that
    filter at all.  The filter step is the search followed by these eight
    parts, and a part whose dimension is not in use returns its input.  A
    dimension is in use exactly when its value differs from the initial
    one, and putting a dimension in use back to its initial value lowers
    the badge by exactly one.  So the badge lies between 0 and 8, shows 8
    exactly when every dimension is in use and 0 exactly when the filters
    are the initial ones; and then, with no search text, the filter step
    returns its input. *)
Theorem active_filter_count {engine : Engine} (filters : Filters.t) :
  activeFilterCount filters
  = Z.of_nat (length (filter (dimensionInUse filters) allDimensions))
  /\ (forall role userList searchQuery tasks,
        applyFilters role userList searchQuery filters tasks
        = fold_left (fun result d => dimensionStep filters d result)
            allDimensions
            (applyFilters role userList searchQuery initialFilters tasks))
  /\ (forall d result,
        dimensionInUse filters d = false ->
        dimensionStep filters d result = result)
  /\ (forall d,
        dimensionInUse filters d = false <-> clearDimension d filters = filters)
  /\ (forall d,
        dimensionInUse (clearDimension d filters) d = false
        /\ activeFilterCount filters
           = activeFilterCount (clearDimension d filters)
             + (if dimensionInUse filters d then 1 else 0))
  /\ 0 <= activeFilterCount filters <= 8
  /\ (activeFilterCount filters = 8 <->
      forall d, dimensionInUse filters d = true)
  /\ (activeFilterCount filters = 0 <-> filters = initialFilters)
  /\ (activeFilterCount filters = 0 ->
      forall role userList tasks,
        applyFilters role userList "" filters tasks = tasks).
Proof.
  assert (Hcount : activeFilterCount filters
                   = Z.of_nat (length (filter (dimensionInUse filters)
                                         allDimensions))).
  { rewrite activeFilterCount_sum. apply count_in_use. }
  assert (Hiff : activeFilterCount filters = 0 <-> filters = initialFilters).
  { destruct filters as [s t u m p r d h]. unfold activeFilterCount, initialFilters.
    cbn [Filters.status Filters.types Filters.users Filters.materialStatus
         Filters.priorities Filters.requiresMaterial Filters.hasDocuments
         Filters.hasPrice].
    split.
    - destruct s, t, u, m, p, r, d, h; cbn [nonEmpty isSome]; intros H;
        try reflexivity; exfalso; lia.
    - intros H. injection H as -> -> -> -> -> -> -> ->. reflexivity. }
  split; [exact Hcount|].
  split; [reflexivity|].
  split.
  { intros d result. destruct d; cbn [dimensionInUse dimensionStep];
      intros H; try (rewrite H; reflexivity);
      apply isSome_false in H; rewrite H; reflexivity. }
  split; [intros d; apply clearDimension_unused|].
  split.
  { intros d. split.
    - destruct d; reflexivity.
    - rewrite !activeFilterCount_sum.
      destruct d; cbn [fold_right allDimensions dimensionInUse clearDimension
                       Filters.status Filters.types Filters.users
                       Filters.materialStatus Filters.priorities
                       Filters.requiresMaterial Filters.hasDocuments
                       Filters.hasPrice nonEmpty isSome]; lia. }
  split.
  { rewrite Hcount.
    pose proof (filter_length_le (dimensionInUse filters) allDimensions) as H.
    cbn [allDimensions length] in H. cbn [allDimensions]. lia. }
  split.
  { rewrite activeFilterCount_sum.
    cbn [fold_right allDimensions]. split.
    - intros H d.
      destruct (dimensionInUse filters byStatus) eqn:E1,
        (dimensionInUse filters byType) eqn:E2,
        (dimensionInUse filters byPriority) eqn:E3,
        (dimensionInUse filters byUser) eqn:E4,
        (dimensionInUse filters byMaterialStatus) eqn:E5,
        (dimensionInUse filters byRequiresMaterial) eqn:E6,
        (dimensionInUse filters byHasDocuments) eqn:E7,
        (dimensionInUse filters byHasPrice) eqn:E8; try (exfalso; lia).
      destruct d; assumption.
    - intros H. rewrite !H. reflexivity. }
  split; [exact Hiff|].
  intros H role userList tasks. apply Hiff in H. subst. reflexivity.
Qed.

(** Two statuses and the has-price switch are ticked: two dimensions are
    in use, the badge shows 2, and after the has-price switch is put back
    it shows 1. *)
Lemma active_filter_count_witness :
  let filters :=
    onHasPriceChecked (checkedIs true)
      (onStatusChecked InProgress (checkedIs true)
         (onStatusChecked Completed (checkedIs true) initialFilters)) in
  activeFilterCount filters = 2
  /\ activeFilterCount (clearDimension byHasPrice filters) = 1.
Proof.
  cbv zeta.
  pose proof (active_filter_count (engine := asciiEngine)
                (onHasPriceChecked (checkedIs true)
                   (onStatusChecked InProgress (checkedIs true)
                      (onStatusChecked Completed (checkedIs true)
                         initialFilters))))
    as [Hcount [_ [_ [_ [Hclear _]]]]].
  split.
  - rewrite Hcount. reflexivity.
  - destruct (Hclear byHasPrice) as [_ H]. rewrite Hcount in H.
    set (n := activeFilterCount (clearDimension byHasPrice _)) in *.
    change (2 = n + 1) in H. lia.
Defined.

Lemma includes_app {A} (eqb : A -> A -> bool) (l1 l2 : list A) (x : A) :
  includes eqb (l1 ++ l2) x = includes eqb l1 x || includes eqb l2 x.
Proof. unfold includes. apply existsb_app. Qed.

Lemma includes_filter_neq {A} (eqb : A -> A -> bool)
    (eqb_eq : forall a b, eqb a b = true <-> a = b) (l : list A) (v w : A) :
  includes eqb (filter (fun s => negb (eqb s v)) l) w
  = includes eqb l w && negb (eqb w v).
Proof.
  induction l as [|a l IH]; [reflexivity|].
  unfold includes in *. simpl.
  destruct (eqb a v) eqn:Eav; simpl.
  - rewrite IH. apply eqb_eq in Eav. subst a.
    destruct (eqb w v) eqn:Ewv; simpl.
    + rewrite !andb_false_r. reflexivity.
    + rewrite andb_true_r. reflexivity.
  - rewrite IH. destruct (eqb w a) eqn:Ewa; simpl; [|reflexivity].
    apply eqb_eq in Ewa. subst a. rewrite Eav. reflexivity.
Qed.




(** X4: the three tri-state switches never go back to "any" by
    unticking: unticking stores [false], which is a filter of its own.
    From the initial filters, ticking and then unticking "Has Documents"
    leaves only the items without documents, "Requires Material" only the
    items that need none, "Has Price Details" only the items without any
    price, and the badge shows 1; only an indeterminate state (or "Reset
    filters") stores [null]. *)
Theorem tri_state_untick {engine : Engine}
    (role : string) (userList : list UserInfo.t)
    (tasks : list Task) (t : Task) :
  (forall prev b,
     Filters.hasDocuments (onHasDocumentsChecked (checkedIs b) prev) = Some b
     /\ Filters.requiresMaterial (onRequiresMaterialChecked (checkedIs b) prev)
        = Some b
     /\ Filters.hasPrice (onHasPriceChecked (checkedIs b) prev) = Some b
     /\ Filters.hasDocuments (onHasDocumentsChecked indeterminate prev) = None)
  /\ (In t (applyFilters role userList ""
              (onHasDocumentsChecked (checkedIs false)
                 (onHasDocumentsChecked (checkedIs true) initialFilters)) tasks)
      <-> In t tasks /\ images t = [])
  /\ (In t (applyFilters role userList ""
              (onRequiresMaterialChecked (checkedIs false)
                 (onRequiresMaterialChecked (checkedIs true) initialFilters))
              tasks)
      <-> In t tasks /\ requiresMaterial t = false)
  /\ (In t (applyFilters role userList ""
              (onHasPriceChecked (checkedIs false)
                 (onHasPriceChecked (checkedIs true) initialFilters)) tasks)
      <-> In t tasks /\ quotedPrice t = None /\ confirmedPrice t = None)
  /\ activeFilterCount
       (onHasDocumentsChecked (checkedIs false)
          (onHasDocumentsChecked (checkedIs true) initialFilters)) = 1.
Proof.
  split; [intros prev b; repeat split|].
  split; [|split; [|split; [|reflexivity]]].
  - unfold applyFilters. simpl. rewrite filter_In. unfold hasDocumentsPred.
    destruct (images t); simpl; intuition congruence.
  - unfold applyFilters. simpl. rewrite filter_In. unfold requiresMaterialPred.
    destruct (requiresMaterial t); simpl; intuition congruence.
  - unfold applyFilters. simpl. rewrite filter_In. unfold hasPricePred.
    destruct (quotedPrice t), (confirmedPrice t); simpl; intuition congruence.
Qed.

(** ** Filtering and sorting together *)

Lemma filter_filter {A} (p q : A -> bool) (l : list A) :
  filter p (filter q l) = filter (fun x => q x && p x) l.
Proof.
  induction l as [|a l IH]; [reflexivity|]. simpl.
  destruct (q a); simpl; [destruct (p a)|]; rewrite IH; reflexivity.
Qed.

Lemma filter_true {A} (l : list A) : filter (fun _ => true) l = l.
Proof. induction l as [|a l IH]; simpl; [|rewrite IH]; reflexivity. Qed.

Lemma filterWhen_filter {A} (guard : bool) (p : A -> bool) (l : list A) :
  filterWhen guard p l = filter (fun x => negb guard || p x) l.
Proof. destruct guard; simpl; [reflexivity|]. symmetry. apply filter_true. Qed.

Lemma filterTri_filter {A} (x : option bool) (p : bool -> A -> bool)
    (l : list A) :
  filterTri x p l
  = filter (fun a => match x with Some want => p want a | None => true end) l.
Proof. destruct x; simpl; [reflexivity|]. symmetry. apply filter_true. Qed.

Lemma applyFilters_filter {engine : Engine}
    (role : string) (userList : list UserInfo.t)
    (searchQuery : string) (filters : Filters.t) (tasks : list Task) :
  applyFilters role userList searchQuery filters tasks
  = filter (passesFilters role userList searchQuery filters) tasks.
Proof.
  unfold applyFilters.
  rewrite !filterTri_filter, !filterWhen_filter, !filter_filter.
  apply filter_ext. intros t. unfold passesFilters.
  rewrite negb_involutive, !andb_assoc. reflexivity.
Qed.

Section SortAndFilter.
Context {A : Type} (cmp : A -> A -> Z).
Hypothesis cmp_total : forall x y, 0 < cmp x y -> cmp y x <= 0.
Hypothesis cmp_trans :
  forall x y z, cmp x y <= 0 -> cmp y z <= 0 -> cmp x z <= 0.

Lemma insertBy_front (x : A) (l : list A) :
  Forall (fun y => cmp x y <= 0) l -> insertBy cmp x l = x :: l.
Proof.
  intros H. destruct H as [|y l Hy _]; [reflexivity|]. simpl.
  destruct (Z.leb_spec (cmp x y) 0); [reflexivity|lia].
Qed.

Lemma filter_insertBy (p : A -> bool) (x : A) (s : list A) :
  StronglySorted (notAfter cmp) s ->
  filter p (insertBy cmp x s)
  = if p x then insertBy cmp x (filter p s) else filter p s.
Proof.
  induction 1 as [|y s Hs IH Hall]; simpl.
  - destruct (p x); reflexivity.
  - destruct (Z.leb_spec (cmp x y) 0) as [Hle|Hgt].
    + assert (Hfa : Forall (fun z => cmp x z <= 0) (y :: s)).
      { constructor; [exact Hle|].
        eapply Forall_impl; [|exact Hall].
        intros z Hz. unfold notAfter in Hz. eapply cmp_trans; eassumption. }
      set (ys := y :: s) in *.
      replace (filter p (x :: ys))
        with (if p x then x :: filter p ys else filter p ys) by reflexivity.
      destruct (p x) eqn:Hpx; [|reflexivity].
      symmetry. apply insertBy_front.
      rewrite Forall_forall in *. intros z Hz. apply Hfa.
      apply filter_In in Hz. apply Hz.
    + cbn [filter]. rewrite IH.
      destruct (p x) eqn:Hpx, (p y) eqn:Hpy; try reflexivity.
      simpl. destruct (Z.leb_spec (cmp x y) 0); [lia|reflexivity].
Qed.

Lemma filter_Array_sort (p : A -> bool) (l : list A) :
  filter p (Array_sort cmp l) = Array_sort cmp (filter p l).
Proof.
  induction l as [|x l IH]; [reflexivity|]. simpl.
  rewrite filter_insertBy
    by (apply Array_sort_strongly_sorted; assumption).
  rewrite IH. destruct (p x); reflexivity.
Qed.
End SortAndFilter.

Lemma localeCompare_trans (a b c : string) :
  localeCompare a b <= 0 -> localeCompare b c <= 0 -> localeCompare a c <= 0.
Proof.
  unfold localeCompare.
  destruct (String.compare a b) eqn:Eab; try lia;
    destruct (String.compare b c) eqn:Ebc; try lia; intros _ _.
  - apply String.compare_eq_iff in Eab. subst. rewrite Ebc. lia.
  - apply String.compare_eq_iff in Eab. subst. rewrite Ebc. lia.
  - apply String.compare_eq_iff in Ebc. subst. rewrite Eab. lia.
  - apply OrderedTypeEx.String_as_OT.cmp_lt in Eab, Ebc.
    pose proof (OrderedTypeEx.String_as_OT.lt_trans _ _ _ Eab Ebc) as H.
    apply OrderedTypeEx.String_as_OT.cmp_lt in H.
    unfold OrderedTypeEx.String_as_OT.cmp in H. rewrite H. lia.
Qed.

Lemma compareTasks_trans (sortBy : SortOption) (x y z : Task) :
  compareTasks sortBy x y <= 0 -> compareTasks sortBy y z <= 0 ->
  compareTasks sortBy x z <= 0.
Proof.
  destruct sortBy;
    try apply (proj1 (compareTasks_priority_trans x y z));
    try apply (proj2 (compareTasks_priority_trans x y z));
    simpl; try lia.
  - apply localeCompare_trans.
  - intros H1 H2. eapply localeCompare_trans; eassumption.
Qed.

Lemma compareTasks_equal_sym (sortBy : SortOption) (x y : Task) :
  compareTasks sortBy x y = 0 -> compareTasks sortBy y x = 0.
Proof.
  destruct sortBy; simpl; try lia.
  - unfold localeCompare. rewrite (String.compare_antisym (title y) (title x)).
    destruct (String.compare (title x) (title y)); simpl; lia.
  - unfold localeCompare. rewrite (String.compare_antisym (title x) (title y)).
    destruct (String.compare (title y) (title x)); simpl; lia.
  - rewrite (Z.eqb_sym (priorityRank y)).
    destruct (Z.eqb_spec (priorityRank x) (priorityRank y)); simpl; lia.
  - rewrite (Z.eqb_sym (priorityRank y)).
    destruct (Z.eqb_spec (priorityRank x) (priorityRank y)); simpl; lia.
Qed.

(** X5: the filter step keeps or drops each item on its own: it is one
    pass that keeps the items passing a fixed test, in their input order.
    So filtering twice changes nothing, filtering a list made of two parts
    filters each part, the output is never longer than the input, and
    filtering after sorting gives the same list as sorting after filtering,
    in every sort mode. *)
Theorem filter_composition {engine : Engine}
    (role : string) (userList : list UserInfo.t)
    (searchQuery : string) (filters : Filters.t) (tasks more : list Task) :
  applyFilters role userList searchQuery filters tasks
  = filter (passesFilters role userList searchQuery filters) tasks
  /\ applyFilters role userList searchQuery filters
       (applyFilters role userList searchQuery filters tasks)
     = applyFilters role userList searchQuery filters tasks
  /\ applyFilters role userList searchQuery filters (tasks ++ more)
     = applyFilters role userList searchQuery filters tasks
       ++ applyFilters role userList searchQuery filters more
  /\ (length (applyFilters role userList searchQuery filters tasks)
      <= length tasks)%nat
  /\ (forall sortBy,
        applyFilters role userList searchQuery filters
          (Array_sort (compareTasks sortBy) tasks)
        = filteredAndSortedTasks role userList searchQuery sortBy filters tasks).
Proof.
  unfold filteredAndSortedTasks. rewrite !applyFilters_filter.
  split; [reflexivity|]. split; [|split; [|split]].
  - rewrite filter_filter. apply filter_ext. intros t.
    apply andb_diag.
  - apply filter_app.
  - apply filter_length_le.
  - intros sortBy. rewrite applyFilters_filter.
    apply filter_Array_sort.
    + apply compareTasks_total.
    + apply compareTasks_trans.
Qed.

(** X6: the sort is stable in every mode: the items that the comparator
    ranks equal to a given item stand in the output in the order they had in
    the input. *)
Theorem sort_is_stable (sortBy : SortOption) (x : Task) (tasks : list Task) :
  filter (fun t => compareTasks sortBy x t =? 0)
    (Array_sort (compareTasks sortBy) tasks)
  = filter (fun t => compareTasks sortBy x t =? 0) tasks.
Proof.
  rewrite filter_Array_sort
    by (try apply compareTasks_total; apply compareTasks_trans).
  apply Array_sort_fixed.
  assert (Hall : Forall (fun t => compareTasks sortBy x t = 0)
                   (filter (fun t => compareTasks sortBy x t =? 0) tasks)).
  { apply Forall_forall. intros t Ht. apply filter_In in Ht.
    apply Z.eqb_eq, Ht. }
  induction Hall as [|a l Ha Hl IH]; [constructor|].
  constructor; [exact IH|].
  destruct Hl as [|b l Hb _]; constructor.
  unfold notAfter. apply (compareTasks_trans sortBy a x b).
  - apply compareTasks_equal_sym in Ha. lia.
  - lia.
Qed.

(** ** Reports outside selection mode *)

Lemma byNewest_total (x y : Task) : 0 < byNewest x y -> byNewest y x <= 0.
Proof. unfold byNewest. lia. Qed.

Lemma byNewest_trans (x y z : Task) :
  byNewest x y <= 0 -> byNewest y z <= 0 -> byNewest x z <= 0.
Proof. unfold byNewest. lia. Qed.

Lemma renderers_agree (now : Date) (tasks : list Task)
    (options : ReportOptions.t) :
  excelFilteredTasks now tasks options = pdfFilteredTasks now tasks options.
Proof. reflexivity. Qed.



(** X8: in every mode the rendered items stand newest first; the PDF table
    is rectangular, every row having as many cells as the header, 12 with
    price details and 10 without; the spreadsheet rows all carry the same
    columns, 19 with price details and 17 without; both tables have one row
    per rendered item, which is the total the summary shows; and the PDF
    price summary is there exactly when price details are asked for. *)
Theorem report_table_shape (now : Date) (tasks : list Task)
    (options : ReportOptions.t) :
  let items := pdfFilteredTasks now tasks options in
  let doc := generatePDFReport now tasks options in
  let workbook := generateExcelReport now tasks options in
  (forall i j x y, (i < j)%nat ->
     nth_error items i = Some x -> nth_error items j = Some y ->
     createdAt y <= createdAt x)
  /\ length (PDF.head doc) = (if wantsPrices options then 12 else 10)%nat
  /\ Forall (fun row => length row = length (PDF.head doc)) (PDF.body doc)
  /\ Forall (fun row =>
               length row = (if wantsPrices options then 19 else 17)%nat
               /\ forall row', In row' (Workbook.Tasks workbook) ->
                               map fst row' = map fst row)
       (Workbook.Tasks workbook)
  /\ length (PDF.body doc) = Summary.totalTasks (PDF.summary doc)
  /\ length (Workbook.Tasks workbook) = length (PDF.body doc)
  /\ (PDF.priceSummary doc = None <-> wantsPrices options = false).
Proof.
  cbv zeta. split; [|split; [|split; [|split; [|split; [|split]]]]].
  - intros i j x y Hij Hi Hj. unfold pdfFilteredTasks in Hi, Hj.
    pose proof (Array_sort_positions byNewest byNewest_total byNewest_trans
                  _ i j x y Hij Hi Hj) as H.
    unfold byNewest in H. lia.
  - unfold generatePDFReport, pdfHeaders. cbn [PDF.head].
    destruct (wantsPrices options); reflexivity.
  - unfold generatePDFReport, pdfHeaders, pdfRow. cbn [PDF.head PDF.body].
    apply Forall_forall. intros row Hrow. apply in_map_iff in Hrow.
    destruct Hrow as [t [<- _]]. destruct (wantsPrices options); reflexivity.
  - unfold generateExcelReport. cbn [Workbook.Tasks].
    apply Forall_forall. intros row Hrow. apply in_map_iff in Hrow.
    destruct Hrow as [t [<- _]]. split.
    + unfold excelRow. destruct (wantsPrices options); reflexivity.
    + intros row' Hrow'. apply in_map_iff in Hrow'.
      destruct Hrow' as [t' [<- _]].
      unfold excelRow. destruct (wantsPrices options); reflexivity.
  - unfold generatePDFReport. cbn [PDF.body PDF.summary summarize
                                   Summary.totalTasks].
    apply length_map.
  - unfold generatePDFReport, generateExcelReport.
    cbn [PDF.body Workbook.Tasks]. rewrite !length_map. reflexivity.
  - unfold generatePDFReport. cbn [PDF.priceSummary].
    destruct (wantsPrices options); split; intros H;
      try reflexivity; discriminate.
Qed.

(** ** Counts and totals *)

Lemma type_partition (l : list Task) :
  (length (filter (hasType Project) l) + length (filter (hasType Job) l)
   = length l)%nat.
Proof.
  induction l as [|t l IH]; [reflexivity|].
  unfold hasType in *. simpl. destruct (type t); simpl; lia.
Qed.

Lemma confirmation_partition (l : list Task) :
  (length (filter (hasConfirmation Confirmed) l)
   + length (filter (hasConfirmation Awaiting) l) = length l)%nat.
Proof.
  induction l as [|t l IH]; [reflexivity|].
  unfold hasConfirmation in *. simpl.
  destruct (workConfirmationStatus t); simpl; lia.
Qed.

Lemma priority_partition (l : list Task) :
  (length (filter (hasPriority Urgent) l) + length (filter (hasPriority High) l)
   + length (filter (hasPriority Medium) l) + length (filter (hasPriority Low) l)
   = length (filter (fun t => isSome (priority t)) l))%nat.
Proof.
  induction l as [|t l IH]; [reflexivity|].
  unfold hasPriority in *. simpl.
  destruct (priority t) as [[| | |]|]; simpl; lia.
Qed.

Lemma filter_length_and {A} (p q : A -> bool) (l : list A) :
  (length (filter (fun x => p x && q x) l) <= length (filter p l))%nat
  /\ (length (filter (fun x => p x && q x) l) <= length (filter q l))%nat.
Proof.
  induction l as [|a l [IH1 IH2]]; [split; reflexivity|]. simpl.
  destruct (p a), (q a); simpl; lia.
Qed.

Lemma filter_length_or_disjoint {A} (p q : A -> bool) (l : list A) :
  (forall x, p x = true -> q x = true -> False) ->
  length (filter (fun x => p x || q x) l)
  = (length (filter p l) + length (filter q l))%nat.
Proof.
  intros Hd. induction l as [|a l IH]; [reflexivity|]. simpl.
  destruct (p a) eqn:Hp, (q a) eqn:Hq; simpl; try lia.
  exfalso. eapply Hd; eassumption.
Qed.

(** X9: besides the status counts, the type counts (projects, jobs) and
    the confirmation counts (confirmed, awaiting) each add up to the total,
    in the report summary and on the dashboard; the four priority counts add
    up to the number of items that carry a priority, which is the total
    when every item does; the with-PO count is at most the total; the
    dashboard's high-priority count is the urgent count plus the high count
    of its priority chart, whose rows are Urgent, High, Medium, Low; and
    the projects-in-progress count is at most both the project count and the
    in-progress count. *)
Theorem summary_partitions (tasks : list Task) :
  let s := summarize tasks in
  let m := newMetrics tasks in
  let a := newAdditionalMetrics tasks in
  (Summary.projects s + Summary.jobs s = Summary.totalTasks s)%nat
  /\ (Summary.confirmedWork s + Summary.awaitingConfirmation s
      = Summary.totalTasks s)%nat
  /\ (Summary.urgent s + Summary.high s + Summary.medium s + Summary.low s
      = length (filter (fun t => isSome (priority t)) tasks))%nat
  /\ (Forall (fun t => priority t <> None) tasks ->
      (Summary.urgent s + Summary.high s + Summary.medium s + Summary.low s
       = Summary.totalTasks s)%nat)
  /\ (Summary.withPO s <= Summary.totalTasks s)%nat
  /\ (projects m + jobs m = total m)%nat
  /\ getPriorityDistribution tasks
     = [("Urgent", Summary.urgent s); ("High", Summary.high s);
        ("Medium", Summary.medium s); ("Low", Summary.low s)]%string
  /\ highPriorityTasks a = (Summary.urgent s + Summary.high s)%nat
  /\ (projectsInProgress a <= projects m)%nat
  /\ (projectsInProgress a <= inProgress m)%nat
  /\ confirmedTasks a = Summary.confirmedWork s.
Proof.
  cbv zeta. unfold summarize, newMetrics, newAdditionalMetrics.
  cbn [Summary.projects Summary.jobs Summary.totalTasks Summary.confirmedWork
       Summary.awaitingConfirmation Summary.urgent Summary.high Summary.medium
       Summary.low Summary.withPO projects jobs total inProgress
       highPriorityTasks projectsInProgress confirmedTasks].
  split; [apply type_partition|]. split; [apply confirmation_partition|].
  split; [apply priority_partition|].
  split.
  { intros Hall. rewrite priority_partition. f_equal.
    induction Hall as [|t l Ht Hl IH]; [reflexivity|]. simpl.
    destruct (priority t); [simpl; rewrite IH; reflexivity|contradiction]. }
  split; [apply filter_length_le|]. split; [apply type_partition|].
  split; [reflexivity|].
  split.
  { rewrite filter_length_or_disjoint; [lia|].
    intros t. unfold hasPriority.
    destruct (priority t) as [[| | |]|]; simpl; discriminate. }
  split; [apply filter_length_and|]. split; [apply filter_length_and|].
  reflexivity.
Qed.

(** ** Dashboard charts *)





(** ** Report dialog: from the choice of a period to the report *)

Lemma selection_prefilter (now : Date) (tasks : list Task)
    (options : ReportOptions.t) (sel : list string) :
  ReportOptions.selectedTasks options = Some sel ->
  generatePDFReport now
    (filter (fun task => includes String.eqb sel (id task)) tasks) options
  = generatePDFReport now tasks options
  /\ generateExcelReport now
       (filter (fun task => includes String.eqb sel (id task)) tasks) options
     = generateExcelReport now tasks options.
Proof.
  intros Hsel.
  assert (H : pdfFilteredTasks now
                (filter (fun task => includes String.eqb sel (id task)) tasks)
                options
              = pdfFilteredTasks now tasks options).
  { unfold pdfFilteredTasks. rewrite Hsel, filter_filter. f_equal.
    apply filter_ext. intros t. apply andb_diag. }
  unfold generatePDFReport, generateExcelReport, excelFilteredTasks.
  fold (pdfFilteredTasks now
          (filter (fun task => includes String.eqb sel (id task)) tasks) options).
  fold (pdfFilteredTasks now tasks options).
  rewrite H. split; reflexivity.
Qed.


(** X13: in selection mode, generating with nothing selected raises
    "Please select at least one task" and hands over nothing.  With a
    selection, the report handed over is the one the renderers give on the
    whole task list: the items whose id is selected, newest first, under the
    title "Custom Data Report".  "Select All" with an empty search box
    selects every task, so every task is rendered; "Clear" empties the
    selection; ticking a task selects it and unticking it deselects it. *)
Theorem selection_flow {engine : Engine} (now : Date) (tasks : list Task)
    (includePrices : bool) (st : ReportDialog.t) :
  ReportDialog.period st = selection ->
  (forall type,
     ReportDialog.selectedTasks st = [] ->
     handleGenerateReport now tasks type includePrices st
     = (ReportDialog.toast noSelectionToast st, None))
  /\ (ReportDialog.selectedTasks st <> [] ->
      handleGenerateReport now tasks pdf includePrices st
      = (st, Some (SavedPdf (reportName now includePrices st ++ ".pdf")
                     (generatePDFReport now tasks
                        (dialogOptions st includePrices))))
      /\ handleGenerateReport now tasks excel includePrices st
         = (st, Some (DownloadedExcel
                        (reportName now includePrices st ++ ".xlsx")
                        (generateExcelReport now tasks
                           (dialogOptions st includePrices))))
      /\ (forall t, In t (pdfFilteredTasks now tasks
                            (dialogOptions st includePrices))
                    <-> In t tasks /\ In (id t) (ReportDialog.selectedTasks st))
      /\ PDF.title (generatePDFReport now tasks (dialogOptions st includePrices))
         = "Custom Data Report"%string)
  /\ (forall t, In t tasks ->
                In t (pdfFilteredTasks now tasks
                        (dialogOptions (onSelectAll "" tasks st) includePrices)))
  /\ ReportDialog.selectedTasks (onClearSelection st) = []
  /\ (forall taskId,
        includes String.eqb
          (ReportDialog.selectedTasks (onTaskChecked taskId (checkedIs true) st))
          taskId = true
        /\ includes String.eqb
             (ReportDialog.selectedTasks
                (onTaskChecked taskId (checkedIs false) st))
             taskId = false).
Proof.
  intros Hp.
  assert (Hopt : ReportOptions.selectedTasks (dialogOptions st includePrices)
                 = Some (ReportDialog.selectedTasks st)).
  { unfold dialogOptions. cbn [ReportOptions.selectedTasks]. rewrite Hp.
    reflexivity. }
  split; [|split; [|split; [|split]]].
  - intros type Hnil. unfold handleGenerateReport. rewrite Hp, Hnil. reflexivity.
  - intros Hne. unfold handleGenerateReport. rewrite Hp.
    destruct (ReportDialog.selectedTasks st) as [|a sel] eqn:Hsel;
      [contradiction|].
    cbn [nonEmpty negb andb].
    rewrite <- Hsel in *.
    destruct (selection_prefilter now tasks _ _ Hopt) as [H1 H2].
    rewrite H1, H2.
    split; [reflexivity|]. split; [reflexivity|].
    split.
    + intros t. unfold pdfFilteredTasks. rewrite Hopt. apply selected_In.
    + unfold generatePDFReport. cbn [PDF.title]. rewrite Hopt. reflexivity.
  - intros t Ht.
    assert (Hp' : ReportDialog.period (onSelectAll "" tasks st) = selection)
      by exact Hp.
    unfold pdfFilteredTasks, dialogOptions.
    cbn [ReportOptions.selectedTasks]. rewrite Hp'.
    rewrite Array_sort_In, filter_In, (includes_In _ String.eqb_eq).
    split; [exact Ht|]. unfold onSelectAll, selectableTasks.
    cbn [ReportDialog.selectedTasks ReportDialog.setSelectedTasks String.eqb].
    rewrite filter_true. apply in_map. exact Ht.
  - reflexivity.
  - intros taskId. unfold onTaskChecked.
    cbn [ReportDialog.selectedTasks ReportDialog.setSelectedTasks].
    unfold toggleChecked. cbn [truthyChecked]. split.
    + rewrite includes_app. unfold includes at 2. simpl.
      rewrite String.eqb_refl. apply orb_true_r.
    + rewrite (includes_filter_neq _ String.eqb_eq), String.eqb_refl.
      apply andb_false_r.
Qed.

(** One of two tasks is ticked in selection mode: it alone is rendered;
    after "Clear", generating is refused. *)
Lemma selection_flow_witness :
  let t1 := sampleTask "t1" jan1 Completed Medium None None None None in
  let t2 := sampleTask "t2" jan11 InProgress Medium None None None None in
  let st :=
    onTaskChecked "t1" (checkedIs true)
      (handlePeriodChange selection ReportDialog.initial) in
  pdfFilteredTasks jan11 [t1; t2] (dialogOptions st false) = [t1]
  /\ handleGenerateReport jan11 [t1; t2] excel false (onClearSelection st)
     = (ReportDialog.toast noSelectionToast (onClearSelection st), None)
  /\ In t2 (pdfFilteredTasks jan11 [t1; t2]
              (dialogOptions
                 (onSelectAll (engine := asciiEngine) "" [t1; t2] st) false)).
Proof.
  cbv zeta. split; [reflexivity|]. split.
  - match goal with
    | |- handleGenerateReport ?n ?l ?ty ?ip ?s = _ =>
        refine (proj1 (selection_flow (engine := asciiEngine) n l ip s
                         eq_refl) ty eq_refl)
    end.
  - match goal with
    | |- In ?t (pdfFilteredTasks ?n ?l (dialogOptions (onSelectAll _ _ ?s) ?ip)) =>
        refine (proj1 (proj2 (proj2 (selection_flow (engine := asciiEngine)
                                       n l ip s eq_refl))) t _)
    end.
    right. left. reflexivity.
Defined.

(** ** Report dialog: the custom range over a run of picks *)

Lemma calendarSelect_keeps_order (now : Date) (a : CalendarPick)
    (st : ReportDialog.t) :
  calendarOffers now st a = true ->
  rangeInOrder now st ->
  rangeInOrder now (calendarSelect now a st)
  /\ ReportDialog.toasts (calendarSelect now a st) = ReportDialog.toasts st
  /\ ReportDialog.period (calendarSelect now a st) = ReportDialog.period st.
Proof.
  unfold rangeInOrder, calendarOffers, calendarSelect, endDateDisabled,
    handleStartDateSelect, handleEndDateSelect, isAfter.
  intros Hoff [Hs [He Hse]].
  destruct a as [[d|]|[d|]].
  - apply negb_true_iff in Hoff. rewrite Hoff.
    apply Z.ltb_ge in Hoff.
    destruct (ReportDialog.endDate st) as [e|] eqn:Hend.
    + destruct (Z.ltb_spec e d) as [Hlt|Hge]; simpl.
      * repeat split; try discriminate.
        intros s E. injection E as <-. exact Hoff.
      * rewrite Hend. repeat split.
        -- intros s E. injection E as <-. exact Hoff.
        -- exact He.
        -- intros s e' E1 E2. injection E1 as <-. injection E2 as <-. exact Hge.
    + simpl. rewrite Hend. repeat split; try discriminate.
      intros s E. injection E as <-. exact Hoff.
  - simpl. repeat split; try discriminate. exact He.
  - apply negb_true_iff, orb_false_iff in Hoff. destruct Hoff as [Hlow Hhigh].
    rewrite Hhigh. apply Z.ltb_ge in Hhigh. simpl. repeat split.
    + exact Hs.
    + intros e E. injection E as <-. exact Hhigh.
    + intros s e E1 E2. injection E2 as <-. rewrite E1 in Hlow.
      apply Z.ltb_ge in Hlow. exact Hlow.
  - simpl. repeat split; try discriminate. exact Hs.
Qed.

(** X14: as long as only days that the two calendars offer are picked,
    the custom range stays in order: after any run of picks of start and end
    days, neither stored date lies after the end of today and, when both are
    stored, the end is not before the start; no error is raised by such a
    run.  The range is in that state from the moment a period is chosen. *)
Theorem custom_range_run (now : Date) (picks : list CalendarPick)
    (st : ReportDialog.t) :
  (rangeInOrder now st ->
   rangeInOrder now (calendarRun now picks st)
   /\ ReportDialog.toasts (calendarRun now picks st) = ReportDialog.toasts st)
  /\ (forall v, rangeInOrder now (handlePeriodChange v st))
  /\ (forall v,
        rangeInOrder now (calendarRun now picks (handlePeriodChange v st))).
Proof.
  assert (Hrun : forall s, rangeInOrder now s ->
            rangeInOrder now (calendarRun now picks s)
            /\ ReportDialog.toasts (calendarRun now picks s)
               = ReportDialog.toasts s).
  { unfold calendarRun. induction picks as [|a picks IH]; intros s Hs;
      [split; [exact Hs|reflexivity]|].
    cbn [fold_left]. destruct (calendarOffers now s a) eqn:Hoff.
    - destruct (calendarSelect_keeps_order now a s Hoff Hs) as [H1 [H2 _]].
      destruct (IH _ H1) as [H3 H4]. split; [exact H3|]. congruence.
    - apply IH, Hs. }
  assert (Hinit : forall v, rangeInOrder now (handlePeriodChange v st)).
  { intros v. unfold rangeInOrder. simpl. repeat split; discriminate. }
  split; [apply Hrun|]. split; [exact Hinit|].
  intros v. apply Hrun, Hinit.
Qed.

(** ** Task editor: dates, attachments, saving *)

Lemma date_handlers_keep_order (now : Date) (a : DateAction) (f : TaskForm.t) :
  datesInOrder now f ->
  datesInOrder now
    match a with
    | setInitiated date => handleDateInitiatedChange now date f
    | setCompleted date => handleDateCompletedChange now date f
    end.
Proof.
  unfold datesInOrder, handleDateInitiatedChange, handleDateCompletedChange,
    isAfter, isBefore.
  intros [Hi [Hc Hic]].
  destruct a as [[d|]|[d|]].
  - destruct (Z.ltb_spec (today now) d) as [Hgt|Hle];
      [simpl; repeat split; assumption|].
    destruct (TaskForm.dateCompleted f) as [c|] eqn:Hcompl.
    + destruct (Z.ltb_spec c d) as [Hlt|Hge]; simpl.
      * repeat split; try discriminate.
        intros i E. injection E as <-. exact Hle.
      * rewrite Hcompl. repeat split.
        -- intros i E. injection E as <-. exact Hle.
        -- exact Hc.
        -- intros i c' E1 E2. injection E1 as <-. injection E2 as <-. exact Hge.
    + simpl. rewrite Hcompl. repeat split; try discriminate.
      intros i E. injection E as <-. exact Hle.
  - simpl. repeat split; try discriminate. exact Hc.
  - destruct (Z.ltb_spec (today now) d) as [Hgt|Hle];
      [simpl; repeat split; assumption|].
    destruct (TaskForm.dateInitiated f) as [i|] eqn:Hinit.
    + destruct (Z.ltb_spec d i) as [Hlt|Hge]; simpl.
      * rewrite Hinit. repeat split; assumption.
      * rewrite Hinit. repeat split.
        -- exact Hi.
        -- intros c E. injection E as <-. exact Hle.
        -- intros i' c E1 E2. injection E1 as <-. injection E2 as <-. exact Hge.
    + simpl. rewrite Hinit. repeat split; try discriminate.
      intros c E. injection E as <-. exact Hle.
  - simpl. repeat split; try discriminate. exact Hi.
Qed.

(** X15: in the editor the two date handlers keep the dates in order by
    themselves, whatever dates they are given: after any run of changes to
    the initiation and completion dates, starting from the emptied form,
    neither date lies after the end of today and the completion date is not
    before the initiation date.  A completion date before the initiation
    date is refused with an error and changes nothing, while an initiation
    date after the completion date is taken and the completion date is
    cleared with a notice.  The status follows the dates: completed when a
    completion date is set, else in progress when an initiation date is set,
    else not initiated. *)
Theorem editor_dates (now : Date) (actions : list DateAction)
    (f : TaskForm.t) :
  (datesInOrder now f -> datesInOrder now (dateRun now actions f))
  /\ datesInOrder now (dateRun now actions (resetForm f))
  /\ (forall d i,
        d <= today now -> TaskForm.dateInitiated f = Some i -> d < i ->
        handleDateCompletedChange now (Some d) f
        = TaskForm.toast (completionEarlierToast "Invalid Date") f)
  /\ (forall d c,
        d <= today now -> TaskForm.dateCompleted f = Some c -> c < d ->
        TaskForm.dateInitiated (handleDateInitiatedChange now (Some d) f)
        = Some d
        /\ TaskForm.dateCompleted (handleDateInitiatedChange now (Some d) f)
           = None
        /\ TaskForm.toasts (handleDateInitiatedChange now (Some d) f)
           = TaskForm.toasts f ++ [completionClearedToast])
  /\ (formStatus f = Completed <-> TaskForm.dateCompleted f <> None)
  /\ (formStatus f = InProgress
      <-> TaskForm.dateCompleted f = None /\ TaskForm.dateInitiated f <> None)
  /\ (formStatus f = NotInitiated
      <-> TaskForm.dateCompleted f = None /\ TaskForm.dateInitiated f = None).
Proof.
  assert (Hrun : forall g, datesInOrder now g ->
                           datesInOrder now (dateRun now actions g)).
  { unfold dateRun. induction actions as [|a actions IH]; intros g Hg;
      [exact Hg|].
    cbn [fold_left]. apply IH.
    apply (date_handlers_keep_order now a g Hg). }
  split; [apply Hrun|]. split.
  { apply Hrun. unfold datesInOrder. simpl. repeat split; discriminate. }
  split.
  { intros d i Hd Hi Hlt. unfold handleDateCompletedChange, isAfter, isBefore.
    destruct (Z.ltb_spec (today now) d); [lia|]. rewrite Hi.
    destruct (Z.ltb_spec d i); [reflexivity|lia]. }
  split.
  { intros d c Hd Hc Hlt. unfold handleDateInitiatedChange, isAfter, isBefore.
    destruct (Z.ltb_spec (today now) d); [lia|]. rewrite Hc.
    destruct (Z.ltb_spec c d); [|lia]. repeat split. }
  unfold formStatus.
  destruct (TaskForm.dateCompleted f), (TaskForm.dateInitiated f); simpl;
    repeat split; intros; try discriminate; try congruence;
    try (destruct H; congruence).
Qed.

Lemma removeFile_length (index : nat) (isExisting : bool)
    (st st' : TaskDialog.t) :
  removeFile index isExisting st = Some st' ->
  (attachmentCount st' <= attachmentCount st)%nat.
Proof.
  unfold removeFile, attachmentCount. destruct isExisting.
  - intros E. injection E as <-. cbn [TaskDialog.taskImages
      TaskDialog.existingImages]. rewrite length_map.
    pose proof (filter_length_le
      (fun p : nat * string => negb (Nat.eqb (fst p) index))
      (combine (seq 0 (length (TaskDialog.existingImages st)))
         (TaskDialog.existingImages st))) as H.
    rewrite length_combine, length_seq, Nat.min_id in H. lia.
  - destruct (nth_error (TaskDialog.taskImages st) index) eqn:Hn; [|discriminate].
    intros E.
    replace st' with
      {| TaskDialog.taskImages :=
           firstn index (TaskDialog.taskImages st)
           ++ skipn (S index) (TaskDialog.taskImages st);
         TaskDialog.existingImages := TaskDialog.existingImages st;
         TaskDialog.toasts := TaskDialog.toasts st |} by congruence.
    cbn [TaskDialog.taskImages TaskDialog.existingImages].
    assert (index < length (TaskDialog.taskImages st))%nat
      by (apply nth_error_Some; congruence).
    rewrite length_app, length_firstn, length_skipn. lia.
Qed.

Lemma filter_index_neq {A} (l : list A) (index start : nat) :
  map snd
    (filter (fun p => negb (Nat.eqb (fst p) (start + index)))
       (combine (seq start (length l)) l))
  = firstn index l ++ skipn (S index) l.
Proof.
  revert index start. induction l as [|a l IH]; intros index start.
  - destruct index; reflexivity.
  - cbn [length seq combine filter fst]. destruct index as [|index].
    + rewrite Nat.add_0_r, Nat.eqb_refl. cbn [negb firstn skipn app].
      assert (H : forall (l' : list A) s, (start < s)%nat ->
                map snd (filter (fun p => negb (Nat.eqb (fst p) start))
                           (combine (seq s (length l')) l')) = l').
      { induction l' as [|b l' IH']; intros s Hs; [reflexivity|].
        cbn [length seq combine filter fst].
        destruct (Nat.eqb_spec s start); [lia|]. cbn [negb map snd].
        rewrite IH' by lia. reflexivity. }
      apply H. lia.
    + destruct (Nat.eqb_spec start (start + S index)); [lia|].
      cbn [negb map snd firstn skipn app]. f_equal.
      replace (start + S index)%nat with (S start + index)%nat by lia.
      apply IH.
Qed.

(** X16: removing an attachment takes out the one entry at the given
    position and keeps the others in order, for saved and for pending
    files alike; a position past the end leaves the saved list as it is,
    and for the pending list it is the one case where the handler throws.
    Adding one file and removing the last pending entry gives the pending
    list back.  Over any run of additions and removals an editor holding
    at most 50 attachments never comes to hold more. *)
Theorem attachment_removal (createObjectURL : File -> string)
    (index : nat) (st : TaskDialog.t) :
  (exists st',
     removeFile index true st = Some st'
     /\ TaskDialog.existingImages st'
        = firstn index (TaskDialog.existingImages st)
          ++ skipn (S index) (TaskDialog.existingImages st)
     /\ TaskDialog.taskImages st' = TaskDialog.taskImages st)
  /\ ((length (TaskDialog.existingImages st) <= index)%nat ->
      removeFile index true st = Some st)
  /\ ((index < length (TaskDialog.taskImages st))%nat ->
      exists st',
        removeFile index false st = Some st'
        /\ TaskDialog.taskImages st'
           = firstn index (TaskDialog.taskImages st)
             ++ skipn (S index) (TaskDialog.taskImages st)
        /\ TaskDialog.existingImages st' = TaskDialog.existingImages st
        /\ S (attachmentCount st') = attachmentCount st)
  /\ ((length (TaskDialog.taskImages st) <= index)%nat ->
      removeFile index false st = None)
  /\ (forall f,
        (attachmentCount st < 50)%nat ->
        removeFile (length (TaskDialog.taskImages st)) false
          (handleFileChange createObjectURL (Some [f]) st)
        = Some st)
  /\ (forall actions,
        (attachmentCount st <= 50)%nat ->
        (attachmentCount (fileRun createObjectURL actions st) <= 50)%nat).
Proof.
  split; [|split; [|split; [|split; [|split]]]].
  - eexists. split; [reflexivity|]. cbn [TaskDialog.existingImages
      TaskDialog.taskImages]. split; [|reflexivity].
    apply (filter_index_neq _ index 0).
  - intros Hlen. unfold removeFile.
    rewrite (filter_index_neq _ index 0).
    rewrite firstn_all2, skipn_all2, app_nil_r by lia.
    destruct st; reflexivity.
  - intros Hlt. unfold removeFile.
    destruct (nth_error (TaskDialog.taskImages st) index) eqn:Hn.
    + eexists. split; [reflexivity|]. cbn [TaskDialog.existingImages
        TaskDialog.taskImages]. split; [reflexivity|]. split; [reflexivity|].
      unfold attachmentCount. cbn [TaskDialog.existingImages
        TaskDialog.taskImages].
      rewrite length_app, length_firstn, length_skipn. lia.
    + apply nth_error_None in Hn. lia.
  - intros Hlen. unfold removeFile.
    destruct (nth_error (TaskDialog.taskImages st) index) eqn:Hn;
      [|reflexivity].
    assert (index < length (TaskDialog.taskImages st))%nat
      by (apply nth_error_Some; congruence). lia.
  - intros f Hcap. unfold handleFileChange, attachmentCount in *.
    destruct (Z.gtb_spec (Z.of_nat (length [f]))
                (50 - (Z.of_nat (length (TaskDialog.taskImages st))
                       + Z.of_nat (length (TaskDialog.existingImages st)))))
      as [Hgt|_]; [cbn [length] in Hgt; lia|].
    unfold removeFile. cbn [TaskDialog.taskImages TaskDialog.existingImages
      TaskDialog.toasts map].
    rewrite nth_error_app2, Nat.sub_diag by lia. cbn [nth_error].
    rewrite firstn_app, Nat.sub_diag, firstn_all, firstn_0, app_nil_r.
    rewrite skipn_all2 by (rewrite length_app; simpl; lia).
    rewrite app_nil_r. destruct st; reflexivity.
  - intros actions. revert st. unfold fileRun.
    induction actions as [|a actions IH]; intros st Hcap; [exact Hcap|].
    cbn [fold_left]. apply IH. destruct a as [files|i e].
    + apply handleFileChange_cap, Hcap.
    + destruct (removeFile i e st) as [st'|] eqn:E; [|exact Hcap].
      pose proof (removeFile_length _ _ _ _ E). lia.
Qed.

(** With two pending files and one saved one: the first pending file is
    removed, and position 5 makes the handler throw. *)
Lemma attachment_removal_witness :
  let st := {| TaskDialog.taskImages :=
                 [{| file := "a"; preview := "blob:a" |};
                  {| file := "b"; preview := "blob:b" |}]%string;
               TaskDialog.existingImages := ["x"%string];
               TaskDialog.toasts := [] |} in
  option_map (fun s => map file (TaskDialog.taskImages s)) (removeFile 0 false st)
  = Some ["b"%string]
  /\ removeFile 5 false st = None
  /\ removeFile 5 true st = Some st
  /\ (exists st', removeFile 1 false st = Some st'
                  /\ S (attachmentCount st') = attachmentCount st).
Proof.
  cbv zeta. split; [reflexivity|].
  match goal with
  | |- removeFile _ _ ?s = None /\ _ =>
      pose proof (attachment_removal (fun f => f) 5 s) as [_ [H2 [_ [H4 _]]]];
      pose proof (attachment_removal (fun f => f) 1 s) as [_ [_ [H3 _]]]
  end.
  split; [apply H4; simpl; lia|]. split; [apply H2; simpl; lia|].
  destruct H3 as [st' [E [_ [_ Hc]]]]; [simpl; lia|].
  exists st'. split; assumption.
Defined.

(** ** Saving and loading *)

Lemma numOrNull_not_zero (x : option Z) : numOrNull x <> Some 0.
Proof.
  unfold numOrNull. destruct x as [n|]; [|discriminate].
  destruct (Z.eqb_spec n 0); [discriminate|congruence].
Qed.

Lemma effectivePrice_loaded (t : Task) :
  quotedPrice t <> Some 0 -> confirmedPrice t <> Some 0 ->
  effectivePrice t = effectivePrice_spec t.
Proof.
  unfold effectivePrice, effectivePrice_spec, numOr. intros Hq Hc.
  destruct (confirmedPrice t) as [c|].
  - destruct (Z.eqb_spec c 0); [subst; congruence|reflexivity].
  - destruct (quotedPrice t) as [q|]; [|reflexivity].
    destruct (Z.eqb_spec q 0); [subst; congruence|reflexivity].
Qed.

(** X17: whatever a stored document holds, the task the listener builds
    from it never carries a price of zero (a zero price is loaded as no
    price), always carries a priority, and never an empty PO number.  So on
    the tasks the application loads, the effective price the comparator
    computes is the confirmed price if present, else the quoted price if
    present, else 0, and the price-high sort puts an item with a strictly
    higher such price before every item with a lower one. *)
Theorem loaded_tasks_normalised (docs : list (string * TaskDoc.t))
    (i j : nat) (x y : Task) :
  let tasks := map (fun d => loadTask (fst d) (snd d)) docs in
  Forall (fun t => quotedPrice t <> Some 0
                   /\ confirmedPrice t <> Some 0
                   /\ priority t <> None
                   /\ poNumber t <> Some ""%string
                   /\ effectivePrice t = effectivePrice_spec t) tasks
  /\ (nth_error (Array_sort (compareTasks price_high) tasks) i = Some x ->
      nth_error (Array_sort (compareTasks price_high) tasks) j = Some y ->
      effectivePrice_spec y < effectivePrice_spec x -> (i < j)%nat)
  /\ (nth_error (Array_sort (compareTasks price_low) tasks) i = Some x ->
      nth_error (Array_sort (compareTasks price_low) tasks) j = Some y ->
      effectivePrice_spec x < effectivePrice_spec y -> (i < j)%nat).
Proof.
  cbv zeta.
  assert (Hall : Forall (fun t => quotedPrice t <> Some 0
                   /\ confirmedPrice t <> Some 0
                   /\ priority t <> None
                   /\ poNumber t <> Some ""%string
                   /\ effectivePrice t = effectivePrice_spec t)
                   (map (fun d => loadTask (fst d) (snd d)) docs)).
  { apply Forall_forall. intros t Ht. apply in_map_iff in Ht.
    destruct Ht as [[k d] [<- _]]. cbn [fst snd].
    assert (Hq : quotedPrice (loadTask k d) <> Some 0)
      by apply numOrNull_not_zero.
    assert (Hc : confirmedPrice (loadTask k d) <> Some 0)
      by apply numOrNull_not_zero.
    split; [exact Hq|]. split; [exact Hc|]. split; [discriminate|].
    split; [|apply effectivePrice_loaded; assumption].
    unfold loadTask, strOrNull. cbn [poNumber].
    destruct (TaskDoc.poNumber d) as [p|]; [|discriminate].
    destruct (String.eqb_spec p ""); [discriminate|congruence]. }
  split; [exact Hall|].
  assert (Hspec : forall sortBy n t,
            nth_error
              (Array_sort (compareTasks sortBy)
                 (map (fun d => loadTask (fst d) (snd d)) docs)) n = Some t ->
            effectivePrice t = effectivePrice_spec t).
  { intros sortBy n t Hn. apply nth_error_In, Array_sort_In in Hn.
    rewrite Forall_forall in Hall. apply Hall, Hn. }
  split; intros Hi Hj Hlt.
  - rewrite <- (Hspec _ _ _ Hi), <- (Hspec _ _ _ Hj) in Hlt.
    eapply (Array_sort_precedes (compareTasks price_high));
      [apply compareTasks_total|apply compareTasks_trans|exact Hi|exact Hj|].
    simpl. lia.
  - rewrite <- (Hspec _ _ _ Hi), <- (Hspec _ _ _ Hj) in Hlt.
    eapply (Array_sort_precedes (compareTasks price_low));
      [apply compareTasks_total|apply compareTasks_trans|exact Hi|exact Hj|].
    simpl. lia.
Qed.

(** X18: a save writes the record in normal form, for a new task and for
    an edited one alike: a price of zero is stored as no price; when the
    task does not require material its material status and description are
    cleared; the images are the saved ones followed by the new uploads; the
    owner and the creation time of an edited task are kept.  A PO number of
    which [trim] leaves something is stored trimmed.  A PO number of which
    [trim] leaves nothing is not written at all: a new task gets none, and
    an edited task keeps the PO number it had.  This holds whatever [trim]
    strips. *)
Theorem save_normalises {engine : Engine}
    (uid : string) (userEmail : option string)
    (now : Date) (newImageUrls : list string) (taskData : TaskData.t)
    (editingTask : option TaskDoc.t) :
  let saved :=
    handleSaveTask uid userEmail now newImageUrls taskData editingTask in
  TaskDoc.quotedPrice saved <> Some 0
  /\ TaskDoc.confirmedPrice saved <> Some 0
  /\ (TaskDoc.requiresMaterial saved = Some false ->
      TaskDoc.materialStatus saved = None
      /\ TaskDoc.materialDescription saved = Some ""%string)
  /\ (forall existing pending,
        TaskData.existingImages taskData = Some existing ->
        TaskData.images taskData = Some pending -> pending <> [] ->
        TaskDoc.images saved = existing ++ newImageUrls)
  /\ (forall old, editingTask = Some old ->
        TaskDoc.userId saved = TaskDoc.userId old
        /\ TaskDoc.createdAt saved = TaskDoc.createdAt old)
  /\ (editingTask = None ->
      TaskDoc.userId saved = uid /\ TaskDoc.createdAt saved = now)
  /\ (forall p, TaskData.poNumber taskData = Some p -> trim p <> ""%string ->
        TaskDoc.poNumber saved = Some (trim p))
  /\ (forall old,
        editingTask = Some old ->
        (TaskData.poNumber taskData = None
         \/ exists p, TaskData.poNumber taskData = Some p
                      /\ trim p = ""%string) ->
        TaskDoc.poNumber saved = TaskDoc.poNumber old)
  /\ (editingTask = None ->
      (TaskData.poNumber taskData = None
       \/ exists p, TaskData.poNumber taskData = Some p /\ trim p = ""%string) ->
      TaskDoc.poNumber saved = None).
Proof.
  cbv zeta. unfold handleSaveTask.
  assert (Hpo : forall old,
    (TaskData.poNumber taskData = None
     \/ exists p, TaskData.poNumber taskData = Some p /\ trim p = ""%string) ->
    TaskDoc.poNumber (writeTaskToSave userEmail now newImageUrls taskData old)
    = TaskDoc.poNumber old).
  { intros old [H|[p [H Hp]]]; unfold writeTaskToSave; cbn [TaskDoc.poNumber];
      rewrite H; [reflexivity|]. rewrite Hp. reflexivity. }
  split; [destruct editingTask; apply numOrNull_not_zero|].
  split; [destruct editingTask; apply numOrNull_not_zero|].
  split.
  { destruct editingTask; unfold writeTaskToSave;
      cbn [TaskDoc.requiresMaterial TaskDoc.materialStatus
           TaskDoc.materialDescription];
      intros H; injection H as ->; split; reflexivity. }
  split.
  { intros existing pending He Hp Hne.
    destruct editingTask; unfold writeTaskToSave; cbn [TaskDoc.images];
      rewrite He, Hp; destruct pending; try contradiction; reflexivity. }
  split; [intros old ->; split; reflexivity|].
  split; [intros ->; split; reflexivity|].
  split.
  { intros p Hp Hne.
    destruct editingTask; unfold writeTaskToSave; cbn [TaskDoc.poNumber];
      rewrite Hp; destruct (String.eqb_spec (trim p) "");
      try contradiction; reflexivity. }
  split; [intros old -> H; apply Hpo, H|].
  intros -> H. rewrite Hpo by exact H. reflexivity.
Qed.

Lemma asciiTrimEnd_idempotent (s : string) :
  asciiTrimEnd (asciiTrimEnd s) = asciiTrimEnd s.
Proof.
  induction s as [|c s IH]; [reflexivity|]. cbn [asciiTrimEnd].
  destruct (asciiTrimEnd s) as [|d k] eqn:E.
  - destruct (isAsciiSpace c) eqn:Hc; [reflexivity|].
    cbn [asciiTrimEnd]. rewrite Hc. reflexivity.
  - cbn [asciiTrimEnd]. cbn [asciiTrimEnd] in IH. rewrite IH. reflexivity.
Qed.

Lemma asciiTrimStart_head (s : string) :
  asciiTrimStart s = EmptyString
  \/ exists c r, asciiTrimStart s = String c r /\ isAsciiSpace c = false.
Proof.
  induction s as [|c s IH]; [left; reflexivity|]. cbn [asciiTrimStart].
  destruct (isAsciiSpace c) eqn:Hc; [exact IH|].
  right. exists c, s. split; [reflexivity|exact Hc].
Qed.

Lemma asciiTrimEnd_head (c : ascii) (r : string) :
  isAsciiSpace c = false ->
  exists k, asciiTrimEnd (String c r) = String c k.
Proof.
  intros Hc. cbn [asciiTrimEnd]. destruct (asciiTrimEnd r).
  - rewrite Hc. eexists. reflexivity.
  - eexists. reflexivity.
Qed.

(** The engine of the examples trims as an engine must: trimming what is
    trimmed changes nothing. *)
Lemma asciiTrim_idempotent (s : string) :
  @trim asciiEngine (@trim asciiEngine s) = @trim asciiEngine s.
Proof.
  cbn [trim asciiEngine]. unfold asciiTrim.
  destruct (asciiTrimStart_head s) as [E|[c [r [E Hc]]]]; rewrite E.
  - reflexivity.
  - destruct (asciiTrimEnd_head c r Hc) as [k Ek]. rewrite Ek.
    cbn [asciiTrimStart]. rewrite Hc, <- Ek. apply asciiTrimEnd_idempotent.
Qed.

Lemma strOr_Some_self (s : string) : strOr (Some s) "" = s.
Proof. unfold strOr. destruct (String.eqb_spec s ""); congruence. Qed.

(** X19: the editor hands a record to the save exactly when [trim] leaves
    something of the title and of the site, the completion date is not
    before the initiation date and, if material is required, a material
    status is chosen; the first check that fails decides the error shown.
    A task created from a record that passed, once saved and loaded again,
    carries the title of the form and the status its dates imply (completed
    exactly when it has a completion date), has its dates in order, has a
    material status exactly when it requires material, carries no price of
    zero, belongs to the saving user, and carries the PO number trimmed, or
    none if [trim] leaves nothing of it.  The one fact used about [trim] is
    that trimming a trimmed string changes nothing. *)
Theorem editor_save_checks {engine : Engine}
    (Htrim : forall s, trim (trim s) = trim s) (f : TaskForm.t) :
  ((exists data, handleSave f = inr data)
   <-> trim (TaskForm.title f) <> ""%string
       /\ trim (TaskForm.site f) <> ""%string
       /\ (forall c i, TaskForm.dateCompleted f = Some c ->
                       TaskForm.dateInitiated f = Some i -> i <= c)
       /\ (TaskForm.requiresMaterial f = true ->
           TaskForm.materialStatus f <> None))
  /\ (trim (TaskForm.title f) = ""%string ->
      exists text, handleSave f = inl (saveErrorToast text))
  /\ (trim (TaskForm.title f) <> ""%string ->
      trim (TaskForm.site f) = ""%string ->
      handleSave f = inl (saveErrorToast "Please provide a site address"))
  /\ (forall data uid userEmail now newImageUrls docId,
        handleSave f = inr data ->
        let t :=
          loadTask docId
            (handleSaveTask uid userEmail now newImageUrls data None) in
        title t = TaskForm.title f
        /\ site t = TaskForm.site f
        /\ status t = formStatus f
        /\ (status t = Completed <-> dateCompleted t <> None)
        /\ (forall i c, dateInitiated t = Some i -> dateCompleted t = Some c ->
                        i <= c)
        /\ (requiresMaterial t = true <-> materialStatus t <> None)
        /\ (requiresMaterial t = false -> materialDescription t = ""%string)
        /\ quotedPrice t <> Some 0
        /\ confirmedPrice t <> Some 0
        /\ userId t = uid
        /\ createdAt t = now
        /\ poNumber t
           = (if String.eqb (trim (TaskForm.poNumber f)) "" then None
              else Some (trim (TaskForm.poNumber f)))).
Proof.
  unfold handleSave.
  destruct (String.eqb_spec (trim (TaskForm.title f)) "") as [Ht|Ht].
  { split; [split; [intros [d H]; discriminate|intros [H _]; contradiction]|].
    split; [intros _; eexists; reflexivity|].
    split; [contradiction|]. intros; discriminate. }
  destruct (String.eqb_spec (trim (TaskForm.site f)) "") as [Hs|Hs].
  { split; [split; [intros [d H]; discriminate|intros [_ [H _]]; contradiction]|].
    split; [contradiction|]. split; [reflexivity|]. intros; discriminate. }
  destruct (TaskForm.dateCompleted f) as [c|] eqn:Hc;
    destruct (TaskForm.dateInitiated f) as [i|] eqn:Hi;
    unfold isBefore;
    try destruct (Z.ltb_spec c i) as [Hlt|Hge];
    try (split; [split; [intros [d H]; discriminate
                        |intros [_ [_ [H _]]]; specialize (H c i eq_refl eq_refl);
                         lia]|];
         split; [contradiction|]; split; [contradiction|];
         intros; discriminate);
    (destruct (TaskForm.requiresMaterial f) eqn:Hr;
     destruct (TaskForm.materialStatus f) as [m|] eqn:Hm; cbn [andb negb isSome];
     try (split; [split; [intros [d H]; discriminate
                         |intros [_ [_ [_ H]]]; exfalso; apply H; reflexivity]|];
          split; [contradiction|]; split; [contradiction|];
          intros; discriminate);
     (split;
      [split; [intros _; repeat split; try assumption; try discriminate;
               intros c' i' E1 E2; try discriminate;
               injection E1 as <-; injection E2 as <-; assumption
              |intros _; eexists; reflexivity]|];
      split; [contradiction|]; split; [contradiction|];
      intros data uid userEmail now newImageUrls docId E;
      injection E as <-; cbv zeta;
      unfold handleSaveTask, writeTaskToSave, loadTask, formStatus;
      cbn [title site status dateCompleted dateInitiated requiresMaterial
           materialStatus materialDescription quotedPrice confirmedPrice
           userId createdAt poNumber
           TaskDoc.title TaskDoc.site TaskDoc.status TaskDoc.dateCompleted
           TaskDoc.dateInitiated TaskDoc.requiresMaterial
           TaskDoc.materialStatus TaskDoc.materialDescription
           TaskDoc.quotedPrice TaskDoc.confirmedPrice TaskDoc.userId
           TaskDoc.createdAt TaskDoc.poNumber
           TaskData.title TaskData.site TaskData.status TaskData.dateCompleted
           TaskData.dateInitiated TaskData.requiresMaterial
           TaskData.materialStatus TaskData.materialDescription
           TaskData.quotedPrice TaskData.confirmedPrice TaskData.poNumber
           newDoc truthyBool orElse];
      rewrite ?Hc, ?Hi, ?Hr, ?Hm, !strOr_Some_self;
      try (destruct (String.eqb_spec (trim (TaskForm.poNumber f)) "") as [Hp|Hp];
           [|rewrite Htrim;
             destruct (String.eqb_spec (trim (TaskForm.poNumber f)) "");
             [contradiction|]]);
      cbn [isSome truthyBool];
      (split; [reflexivity|]); (split; [reflexivity|]);
      (split; [reflexivity|]);
      (split; [split; intros; try discriminate; try reflexivity; congruence|]);
      (split; [intros i' c' E1 E2; try discriminate;
               injection E1 as <-; injection E2 as <-; assumption|]);
      (split; [split; intros; try discriminate; try reflexivity; congruence|]);
      (split; [intros; try discriminate; try reflexivity;
               try apply strOr_Some_self|]);
      (split; [apply numOrNull_not_zero|]);
      (split; [apply numOrNull_not_zero|]);
      (split; [reflexivity|]); (split; [reflexivity|]);
      unfold strOrNull; try reflexivity;
      destruct (String.eqb_spec (trim (TaskForm.poNumber f)) "");
      [contradiction|reflexivity])).
Qed.

(** The form "Roof repair" at "12 Elm St" with the PO number typed with
    blanks around it passes the checks; the task created from it carries
    the PO number without the blanks. *)
Lemma editor_save_checks_witness :
  let f :=
    {| TaskForm.title := "Roof repair"; TaskForm.site := "12 Elm St";
       TaskForm.description := ""; TaskForm.notes := "";
       TaskForm.type := Job; TaskForm.source := Call;
       TaskForm.priority := Medium; TaskForm.dateInitiated := Some jan1;
       TaskForm.dateCompleted := Some jan11;
       TaskForm.requiresMaterial := false;
       TaskForm.materialStatus := None;
       TaskForm.materialDescription := "";
       TaskForm.quotedPrice := Some 0; TaskForm.confirmedPrice := None;
       TaskForm.workConfirmationStatus := Awaiting;
       TaskForm.poNumber := "  PO-7 ";
       TaskForm.files :=
         {| TaskDialog.taskImages := [];
            TaskDialog.existingImages := [];
            TaskDialog.toasts := [] |} |}%string in
  exists data,
    handleSave (engine := asciiEngine) f = inr data
    /\ let t :=
         loadTask "d1"%string
           (handleSaveTask (engine := asciiEngine) "u1"%string None jan11 []
              data None) in
       status t = Completed
       /\ quotedPrice t = None
       /\ poNumber t = Some "PO-7"%string.
Proof.
  cbv zeta.
  pose proof (editor_save_checks (engine := asciiEngine) asciiTrim_idempotent
    {| TaskForm.title := "Roof repair"; TaskForm.site := "12 Elm St";
       TaskForm.description := ""; TaskForm.notes := "";
       TaskForm.type := Job; TaskForm.source := Call;
       TaskForm.priority := Medium; TaskForm.dateInitiated := Some jan1;
       TaskForm.dateCompleted := Some jan11;
       TaskForm.requiresMaterial := false;
       TaskForm.materialStatus := None;
       TaskForm.materialDescription := "";
       TaskForm.quotedPrice := Some 0; TaskForm.confirmedPrice := None;
       TaskForm.workConfirmationStatus := Awaiting;
       TaskForm.poNumber := "  PO-7 ";
       TaskForm.files :=
         {| TaskDialog.taskImages := [];
            TaskDialog.existingImages := [];
            TaskDialog.toasts := [] |} |}%string)
    as [[_ Hpass] [_ [_ Hsaved]]].
  destruct Hpass as [data Hdata].
  { split; [discriminate|]. split; [discriminate|].
    split; [|discriminate].
    intros c i Hc Hi. injection Hc as <-. injection Hi as <-.
    vm_compute. discriminate. }
  exists data. split; [exact Hdata|].
  destruct (Hsaved data "u1"%string None jan11 [] "d1"%string Hdata)
    as [_ [_ [Hstatus [_ [_ [_ [_ [Hq [_ [_ [_ Hpo]]]]]]]]]]].
  split; [exact Hstatus|]. split; [|exact Hpo].
  revert Hq. injection Hdata as <-. intros _. reflexivity.
Defined.

(** ** Storage paths and file names *)

Lemma splitOn_nonempty (sep : ascii) (s : string) : splitOn sep s <> [].
Proof.
  induction s as [|c s IH]; [discriminate|]. cbn [splitOn].
  destruct (Ascii.eqb c sep); [discriminate|].
  destruct (splitOn sep s); discriminate.
Qed.

Lemma splitOn_nosep (sep : ascii) (s : string) :
  hasChar sep s = false -> splitOn sep s = [s].
Proof.
  induction s as [|c s IH]; [reflexivity|]. cbn [hasChar splitOn].
  intros H. apply orb_false_iff in H. destruct H as [Hc Hs].
  rewrite Hc, IH by exact Hs. reflexivity.
Qed.

Lemma splitOn_last (sep : ascii) (dir last : string) :
  hasChar sep last = false ->
  splitOn sep (dir ++ String sep last) = splitOn sep dir ++ [last].
Proof.
  intros Hl. induction dir as [|c dir IH]; cbn [String.append splitOn].
  - rewrite Ascii.eqb_refl, splitOn_nosep by exact Hl. reflexivity.
  - destruct (Ascii.eqb c sep); rewrite IH; [reflexivity|].
    destruct (splitOn sep dir) as [|h t] eqn:E;
      [exfalso; eapply splitOn_nonempty; exact E|reflexivity].
Qed.

Lemma concat_cons (sep h : string) (t : list string) :
  t <> [] ->
  String.concat sep (h :: t) = (h ++ sep ++ String.concat sep t)%string.
Proof. destruct t; [contradiction|reflexivity]. Qed.

(** Splitting at a character and joining with it gives the string back. *)
Lemma join_splitOn (sep : ascii) (s : string) :
  join (String sep EmptyString) (splitOn sep s) = s.
Proof.
  unfold join. induction s as [|c s IH]; [reflexivity|]. cbn [splitOn].
  destruct (Ascii.eqb_spec c sep) as [->|Hne].
  - rewrite concat_cons by apply splitOn_nonempty. rewrite IH. reflexivity.
  - destruct (splitOn sep s) as [|h t] eqn:E;
      [exfalso; eapply splitOn_nonempty; exact E|].
    destruct t as [|h' t].
    + cbn [String.concat] in *. rewrite IH. reflexivity.
    + rewrite <- IH. reflexivity.
Qed.

Lemma Array_slice_drop_last {A} (l : list A) (x : A) :
  Array_slice 0 (-1) (l ++ [x]) = l.
Proof.
  unfold Array_slice, relativeIndex. rewrite length_app. cbn [length].
  destruct (Z.ltb_spec 0 0); [lia|]. destruct (Z.ltb_spec (-1) 0); [|lia].
  rewrite Z.min_l by lia. rewrite Z.max_l by lia.
  replace (Z.to_nat (Z.of_nat (length l + 1) + -1 - 0)) with (length l) by lia.
  cbn [Z.to_nat skipn]. rewrite firstn_app, Nat.sub_diag, firstn_all.
  cbn [firstn]. apply app_nil_r.
Qed.

Lemma string_app_assoc (a b c : string) :
  ((a ++ b) ++ c = a ++ (b ++ c))%string.
Proof. induction a as [|d a IH]; [reflexivity|]. cbn [String.append]. rewrite IH. reflexivity. Qed.

Lemma hasChar_app (c : ascii) (a b : string) :
  hasChar c (a ++ b) = hasChar c a || hasChar c b.
Proof.
  induction a as [|d a IH]; [reflexivity|]. cbn [String.append hasChar].
  rewrite IH. apply orb_assoc.
Qed.

Lemma string_of_uint_no_slash (d : Decimal.uint) :
  hasChar "/" (NilEmpty.string_of_uint d) = false.
Proof. induction d; cbn [NilEmpty.string_of_uint hasChar]; try exact IHd; reflexivity. Qed.

Lemma Z_to_string_no_slash (z : Z) : hasChar "/" (Z_to_string z) = false.
Proof.
  unfold Z_to_string, NilEmpty.string_of_int.
  destruct (Z.to_int z); cbn [hasChar]; apply string_of_uint_no_slash.
Qed.

Lemma uploadFullPath_dir (dir last name : string) :
  hasChar "/" last = false ->
  uploadFullPath (dir ++ "/" ++ last) name = (dir ++ "/" ++ name)%string.
Proof.
  intros Hl. unfold uploadFullPath. cbn [String.append].
  rewrite (splitOn_last "/" dir last Hl), Array_slice_drop_last.
  rewrite (join_splitOn "/" dir). reflexivity.
Qed.

(** X20: splitting a path at the slashes and joining the pieces gives the
    path back.  [uploadImage] stores a file under the directory of the path
    it is handed followed by the file's own name: the last piece of that
    path is dropped.  So for the path that the save builds from the user,
    the time stamp, the position and the file name, the time stamp and the
    position do not reach the stored path, which is tasks/<user>/<name>: two
    files of the same name are stored under the same path. *)
Theorem upload_path (uid name : string) (stamp stamp' : Z)
    (index index' : nat) :
  (forall s, join "/" (splitOn "/" s) = s)
  /\ (forall dir last,
        hasChar "/" last = false ->
        uploadFullPath (dir ++ "/" ++ last) name = (dir ++ "/" ++ name)%string)
  /\ (hasChar "/" name = false ->
      uploadFullPath (imagePath uid stamp index name) name
      = ("tasks/" ++ uid ++ "/" ++ name)%string
      /\ uploadFullPath (imagePath uid stamp index name) name
         = uploadFullPath (imagePath uid stamp' index' name) name).
Proof.
  split; [exact (join_splitOn "/")|].
  split; [intros dir last; apply uploadFullPath_dir|].
  intros Hn.
  assert (H : forall st ix,
            uploadFullPath (imagePath uid st ix name) name
            = ("tasks/" ++ uid ++ "/" ++ name)%string).
  { intros st ix. unfold imagePath.
    replace ("tasks/" ++ uid ++ "/" ++ Z_to_string st ++ "-"
             ++ Z_to_string (Z.of_nat ix) ++ "-" ++ name)%string
      with (("tasks/" ++ uid) ++ "/"
            ++ (Z_to_string st ++ "-" ++ Z_to_string (Z.of_nat ix)
                ++ "-" ++ name))%string
      by (rewrite !string_app_assoc; reflexivity).
    rewrite uploadFullPath_dir.
    - rewrite !string_app_assoc. reflexivity.
    - rewrite !hasChar_app, !Z_to_string_no_slash, Hn. reflexivity. }
  split; [apply H|]. rewrite !H. reflexivity.
Qed.

(** Two files called plan.pdf, saved at different times and positions,
    get one and the same stored path. *)
Lemma upload_path_witness :
  uploadFullPath (imagePath "u7" 1704067200000 0 "plan.pdf") "plan.pdf"
  = "tasks/u7/plan.pdf"%string
  /\ uploadFullPath (imagePath "u7" 1704067200000 0 "plan.pdf") "plan.pdf"
     = uploadFullPath (imagePath "u7" 1704067200555 3 "plan.pdf") "plan.pdf"
  /\ imagePath "u7" 1704067200000 0 "plan.pdf"
     = "tasks/u7/1704067200000-0-plan.pdf"%string.
Proof.
  pose proof (upload_path "u7" "plan.pdf" 1704067200000 1704067200555 0 3)
    as [_ [_ H]].
  destruct H as [H1 H2]; [reflexivity|].
  split; [exact H1|]. split; [exact H2|]. vm_compute. reflexivity.
Defined.

Lemma splitOn_pieces (sep : ascii) (s : string) :
  Forall (fun piece => hasChar sep piece = false) (splitOn sep s).
Proof.
  induction s as [|c s IH]; [repeat constructor|]. cbn [splitOn].
  destruct (Ascii.eqb c sep) eqn:Hc; [constructor; [reflexivity|exact IH]|].
  destruct (splitOn sep s) as [|h t]; [repeat constructor; cbn; rewrite Hc; reflexivity|].
  inversion IH as [|? ? Hh Ht]; subst.
  constructor; [|exact Ht]. cbn [hasChar]. rewrite Hc, Hh. reflexivity.
Qed.

(** The first piece of a split holds only characters of the string. *)
Lemma splitOn_head_chars (sep c : ascii) (s : string) :
  hasChar c s = false ->
  match splitOn sep s with
  | first :: _ => hasChar c first = false
  | [] => True
  end.
Proof.
  induction s as [|d s IH]; [intros _; reflexivity|]. cbn [hasChar splitOn].
  intros H. apply orb_false_iff in H. destruct H as [Hd Hs].
  destruct (Ascii.eqb d sep); [reflexivity|].
  specialize (IH Hs). destruct (splitOn sep s) as [|h t]; cbn [hasChar];
    rewrite Hd; [reflexivity|exact IH].
Qed.

Lemma Array_pop_app {A} (l : list A) (x : A) : Array_pop (l ++ [x]) = Some x.
Proof. unfold Array_pop. rewrite rev_app_distr. reflexivity. Qed.

Lemma Array_pop_In {A} (l : list A) (x : A) : Array_pop l = Some x -> In x l.
Proof.
  unfold Array_pop. destruct (rev l) as [|y r] eqn:E; [discriminate|].
  intros H. injection H as <-. apply in_rev. rewrite E. left. reflexivity.
Qed.

(** X21: the file name shown for a stored document never holds a slash or
    a question mark: it is the last piece of the decoded address, cut at the
    first question mark; for an address that ends in a piece free of both it
    is that piece; and when the address cannot be decoded it is "file". *)
Theorem file_name_from_url (decodeURIComponent : string -> option string)
    (url : string) :
  (decodeURIComponent url = None ->
   getFileNameFromUrl decodeURIComponent url = "file"%string)
  /\ (decodeURIComponent url <> None ->
      hasChar "/" (getFileNameFromUrl decodeURIComponent url) = false
      /\ hasChar "?" (getFileNameFromUrl decodeURIComponent url) = false)
  /\ (forall dir name query,
        decodeURIComponent url = Some (dir ++ "/" ++ name ++ "?" ++ query)%string ->
        hasChar "/" name = false -> hasChar "?" name = false ->
        hasChar "/" query = false ->
        getFileNameFromUrl decodeURIComponent url = name)
  /\ (forall dir name,
        decodeURIComponent url = Some (dir ++ "/" ++ name)%string ->
        hasChar "/" name = false -> hasChar "?" name = false ->
        getFileNameFromUrl decodeURIComponent url = name).
Proof.
  unfold getFileNameFromUrl.
  split; [intros ->; reflexivity|]. split; [|split].
  - destruct (decodeURIComponent url) as [p|]; [intros _|contradiction].
    destruct (Array_pop (splitOn "/" p)) as [x|] eqn:E.
    + assert (Hx : hasChar "/" x = false).
      { pose proof (splitOn_pieces "/" p) as H. rewrite Forall_forall in H.
        apply H, Array_pop_In, E. }
      assert (Hx' : hasChar "/" (strOr (Some x) "") = false).
      { unfold strOr. destruct (String.eqb x ""); [reflexivity|exact Hx]. }
      pose proof (splitOn_head_chars "?" "/" _ Hx') as H1.
      pose proof (splitOn_pieces "?" (strOr (Some x) "")) as H2.
      destruct (splitOn "?" (strOr (Some x) "")) as [|first rest];
        [split; reflexivity|].
      split; [exact H1|]. inversion H2. assumption.
    + cbn. split; reflexivity.
  - intros dir name query -> Hn Hq Hquery. cbn [String.append].
    rewrite (splitOn_last "/" dir (name ++ String "?" query)),
      Array_pop_app.
    + assert (Hne : strOr (Some (name ++ String "?" query)%string) ""
                    = (name ++ String "?" query)%string).
      { unfold strOr. destruct (String.eqb_spec (name ++ String "?" query) "");
          [|reflexivity].
        destruct name; discriminate. }
      rewrite Hne.
      assert (Hsplit : forall n, hasChar "?" n = false ->
                exists rest, splitOn "?" (n ++ String "?" query) = n :: rest).
      { induction n as [|c n IHn]; cbn [String.append hasChar splitOn].
        - intros _. eexists. reflexivity.
        - intros H. apply orb_false_iff in H. destruct H as [Hc Hn'].
          rewrite Hc. destruct (IHn Hn') as [rest ->]. eexists. reflexivity. }
      destruct (Hsplit name Hq) as [rest ->]. reflexivity.
    + rewrite hasChar_app. cbn [hasChar]. rewrite Hn, Hquery. reflexivity.
  - intros dir name -> Hn Hq. cbn [String.append].
    rewrite (splitOn_last "/" dir name Hn), Array_pop_app.
    unfold strOr. destruct (String.eqb_spec name "") as [->|_];
      [reflexivity|].
    rewrite (splitOn_nosep "?" name Hq). reflexivity.
Qed.

(** ** Sending a report by e-mail *)

(** A byte survives the trip through a JSON number and [Uint8Array]. *)
Lemma toUint8_of_byte (x : Byte.byte) : toUint8 (Z.of_N (Byte.to_N x)) = x.
Proof. destruct x; vm_compute; reflexivity. Qed.

Lemma Buffer_round_trip (b : Buffer) : Buffer_from (Array_from_buffer b) = b.
Proof.
  unfold Buffer_from, Array_from_buffer. rewrite map_map.
  induction b as [|x b IH]; [reflexivity|]. cbn [map].
  rewrite toUint8_of_byte, IH. reflexivity.
Qed.

(** The route answers a request of [sendReportEmail] for a recipient that
    is not empty with the attachments it was given, byte for byte, unless
    the mail service fails. *)
Lemma POST_sendReportEmail (resendFails : option string)
    (to dateText : string) (attachments : list Attachment.t) :
  to <> ""%string ->
  POST resendFails
    (sendReportEmail_body to ("Task Report - " ++ dateText) attachments)
  = match resendFails with
    | Some message => responseError 500 message
    | None => responseOk attachments
    end.
Proof.
  intros Hto. unfold POST, sendReportEmail_body.
  cbn [EmailRequest.to EmailRequest.subject EmailRequest.attachments].
  apply String.eqb_neq in Hto. rewrite Hto. cbn [String.append String.eqb orb].
  destruct resendFails; [reflexivity|]. f_equal. rewrite map_map.
  induction attachments as [|[f c] l IH]; [reflexivity|].
  cbn [map fst snd Attachment.filename Attachment.content] in *.
  rewrite Buffer_round_trip, IH. reflexivity.
Qed.

(** X22: sending a report by e-mail.  Every run of [handleSend] shows
    exactly one toast and leaves the address and the chosen formats alone.
    No request is made exactly when the address is empty or no format is
    chosen.  A request that is made is never refused by the route for a
    missing field: the route answers 500 with the mail service's message
    when that fails, and the dialog stays as open as it was; otherwise it
    passes on the attachments byte for byte, the dialog closes and the
    success toast is shown.  The attachments are the chosen formats whose
    buffer exists, the PDF first, named after the report: so with a format
    chosen whose buffer is missing, a mail without attachments is sent and
    reported as a success. *)
Theorem email_send (resendFails : option string) (dateText : string)
    (pdfBuffer excelBuffer : option Buffer) (reportName : string)
    (st : EmailReportDialog.t) :
  let out :=
    handleSend resendFails dateText pdfBuffer excelBuffer reportName st in
  let st' := fst out in
  (exists v, EmailReportDialog.toasts st' = EmailReportDialog.toasts st ++ [v])
  /\ EmailReportDialog.email st' = EmailReportDialog.email st
  /\ EmailReportDialog.sendPdf st' = EmailReportDialog.sendPdf st
  /\ EmailReportDialog.sendExcel st' = EmailReportDialog.sendExcel st
  /\ (snd out = None <->
      EmailReportDialog.email st = ""%string
      \/ (EmailReportDialog.sendPdf st = false
          /\ EmailReportDialog.sendExcel st = false))
  /\ (snd out = None ->
      EmailReportDialog.isOpen st' = EmailReportDialog.isOpen st
      /\ EmailReportDialog.isSending st' = EmailReportDialog.isSending st)
  /\ (forall r, snd out = Some r ->
      EmailReportDialog.isSending st' = false
      /\ match resendFails with
         | Some message =>
             r = responseError 500 message
             /\ EmailReportDialog.isOpen st' = EmailReportDialog.isOpen st
             /\ last (EmailReportDialog.toasts st') (emailToast false "" "")
                = emailToast true "Error"
                    "Failed to send report. Please try again."
         | None =>
             r = responseOk
                   ((if EmailReportDialog.sendPdf st
                     then match pdfBuffer with
                          | Some b =>
                              [{| Attachment.filename :=
                                    (reportName ++ ".pdf")%string;
                                  Attachment.content := b |}]
                          | None => []
                          end
                     else [])
                    ++ (if EmailReportDialog.sendExcel st
                        then match excelBuffer with
                             | Some b =>
                                 [{| Attachment.filename :=
                                       (reportName ++ ".xlsx")%string;
                                     Attachment.content := b |}]
                             | None => []
                             end
                        else []))
             /\ EmailReportDialog.isOpen st' = false
             /\ last (EmailReportDialog.toasts st') (emailToast false "" "")
                = emailToast false "Success" "Report sent successfully"
         end)
  /\ (EmailReportDialog.email st <> ""%string ->
      EmailReportDialog.sendPdf st = true -> pdfBuffer = None ->
      EmailReportDialog.sendExcel st = false -> resendFails = None ->
      snd out = Some (responseOk [])).
Proof.
  cbv zeta. unfold handleSend.
  destruct (String.eqb_spec (EmailReportDialog.email st) "") as [He|He].
  - cbn [fst snd EmailReportDialog.toasts EmailReportDialog.email
         EmailReportDialog.sendPdf EmailReportDialog.sendExcel
         EmailReportDialog.isOpen EmailReportDialog.isSending].
    repeat split; eauto; try discriminate; try contradiction.
  - destruct (EmailReportDialog.sendPdf st) eqn:Hp,
             (EmailReportDialog.sendExcel st) eqn:Hx;
      cbn [negb andb];
      try (rewrite (POST_sendReportEmail resendFails _ dateText _ He);
           destruct resendFails, pdfBuffer, excelBuffer);
      cbn [fst snd EmailReportDialog.toasts EmailReportDialog.email
           EmailReportDialog.sendPdf EmailReportDialog.sendExcel
           EmailReportDialog.isOpen EmailReportDialog.isSending app];
      rewrite ?Hp, ?Hx;
      repeat match goal with
             | |- _ /\ _ => split
             | |- _ <-> _ => split
             | |- exists _, _ => eexists; reflexivity
             | |- forall _, _ => intro
             | |- _ -> _ => intro
             | H : _ \/ _ |- _ => destruct H
             | H : _ /\ _ |- _ => destruct H
             | H : Some _ = Some _ |- _ => injection H as <-
             | |- last (_ ++ [_]) _ = _ => apply last_last
             end;
      try reflexivity; try discriminate; try contradiction; try congruence;
      auto.
Qed.

(** ** The calendar helpers contain their date *)

(** The 4800 months from March of year 0 on are the 146097 days from day
    -719468 on, and they pass the check. *)
Lemma one_era_checked :
  checkMonths (Z.to_nat 4800) 0 3 (-719468) = Some (-719468 + 146097).
Proof. vm_cast_no_check (eq_refl (Some (-573371))). Qed.

Lemma allDays_spec (check : Z -> bool) (count : nat) (from i : Z) :
  allDays check from count = true ->
  from <= i < from + Z.of_nat count -> check i = true.
Proof.
  revert from. induction count as [|c IH]; intros from H Hi; [lia|].
  cbn [allDays] in H. destruct (check from) eqn:H0; [|discriminate].
  destruct (Z.eq_dec i from) as [->|Hne]; [exact H0|].
  apply (IH (from + 1)); [exact H|lia].
Qed.

Lemma withinCalendarRanges_unfold (n : Z) :
  withinCalendarRanges n
  = match civilFromDays n with
    | (y, m, _) =>
        (firstOfMonth y m 0 <=? n)
        && (n <? firstOfMonth y m 1)
        && (firstOfMonth y (quarterMonth m) 0 <=? n)
        && (n <? firstOfMonth y (quarterMonth m) 3)
        && (firstOfMonth y 1 0 <=? n)
        && (n <? firstOfMonth y 1 12)
    end.
Proof.
  exact (eq_refl
           match civilFromDays n with
           | (y, m, _) =>
               (firstOfMonth y m 0 <=? n)
               && (n <? firstOfMonth y m 1)
               && (firstOfMonth y (quarterMonth m) 0 <=? n)
               && (n <? firstOfMonth y (quarterMonth m) 3)
               && (firstOfMonth y 1 0 <=? n)
               && (n <? firstOfMonth y 1 12)
           end).
Qed.

Lemma checkMonth_spec (y m from next n : Z) :
  checkMonth y m from = Some next ->
  from < next
  /\ (from <= n < next -> withinCalendarRanges n = true).
Proof.
  unfold checkMonth. cbv zeta.
  destruct (_ && _) eqn:E; [|discriminate]. intros H. injection H as <-.
  rewrite !andb_true_iff in E.
  destruct E as [[[[[[E1 E2] E3] E4] E5] E6] E7].
  apply Z.eqb_eq in E1. apply Z.ltb_lt in E2.
  apply Z.leb_le in E4, E5, E6, E7.
  split; [exact E2|]. intros Hn.
  assert (Hin : inMonth y m n = true).
  { apply (allDays_spec _ _ _ _ E3). rewrite Z2Nat.id by lia. lia. }
  unfold inMonth in Hin. rewrite withinCalendarRanges_unfold.
  destruct (civilFromDays n) as [[y' m'] d'].
  apply andb_true_iff in Hin. destruct Hin as [Hy Hm].
  apply Z.eqb_eq in Hy, Hm. subst y' m'.
  rewrite !andb_true_iff, !Z.leb_le, !Z.ltb_lt. lia.
Qed.

Lemma checkMonths_spec (count : nat) (y m from last n : Z) :
  checkMonths count y m from = Some last ->
  from <= n < last -> withinCalendarRanges n = true.
Proof.
  revert y m from. induction count as [|c IH]; intros y m from H Hn.
  - cbn [checkMonths] in H. injection H as <-. lia.
  - cbn [checkMonths] in H.
    destruct (checkMonth y m from) as [next|] eqn:E; [|discriminate].
    destruct (checkMonth_spec y m from next n E) as [Hlt Hin].
    destruct (Z.lt_ge_cases n next) as [Hlo|Hhi]; [apply Hin; lia|].
    destruct (m =? 12); eapply IH; try exact H; lia.
Qed.

(** The calendar repeats every 400 years, which are 146097 days. *)
Lemma civilFromDays_shift (n k : Z) :
  civilFromDays (n + 146097 * k)
  = (fst (fst (civilFromDays n)) + 400 * k, snd (fst (civilFromDays n)),
     snd (civilFromDays n)).
Proof.
  unfold civilFromDays. cbv zeta.
  replace (n + 146097 * k + 719468) with (n + 719468 + k * 146097) by lia.
  rewrite Z.div_add by lia.
  set (z := n + 719468). set (era := z / 146097).
  replace (z + k * 146097 - (era + k) * 146097) with (z - era * 146097) by lia.
  set (doe := z - era * 146097).
  set (yoe := (doe - doe / 1460 + doe / 36524 - doe / 146096) / 365).
  set (doy := doe - (365 * yoe + yoe / 4 - yoe / 100)).
  set (mp := (5 * doy + 2) / 153).
  cbn [fst snd]. destruct (_ <=? 2); f_equal; f_equal; lia.
Qed.

Lemma daysFromCivil_shift (y m d k : Z) :
  daysFromCivil (y + 400 * k) m d = daysFromCivil y m d + 146097 * k.
Proof.
  unfold daysFromCivil. cbv zeta.
  set (y' := if m <=? 2 then y - 1 else y).
  replace (if m <=? 2 then y + 400 * k - 1 else y + 400 * k)
    with (y' + k * 400) by (unfold y'; destruct (m <=? 2); lia).
  rewrite Z.div_add by lia.
  replace (y' + k * 400 - (y' / 400 + k) * 400) with (y' - y' / 400 * 400)
    by lia.
  lia.
Qed.

Lemma firstOfMonth_shift (y m j k : Z) :
  firstOfMonth (y + 400 * k) m j = firstOfMonth y m j + 146097 * k.
Proof.
  unfold firstOfMonth. cbv zeta.
  replace (y + 400 * k + (m - 1 + j) / 12)
    with (y + (m - 1 + j) / 12 + 400 * k) by lia.
  apply daysFromCivil_shift.
Qed.

Lemma leb_shift (a b c : Z) : (a + c <=? b + c) = (a <=? b).
Proof. destruct (Z.leb_spec a b), (Z.leb_spec (a + c) (b + c)); lia || reflexivity. Qed.

Lemma ltb_shift (a b c : Z) : (a + c <? b + c) = (a <? b).
Proof. destruct (Z.ltb_spec a b), (Z.ltb_spec (a + c) (b + c)); lia || reflexivity. Qed.

Lemma withinCalendarRanges_shift (n k : Z) :
  withinCalendarRanges (n + 146097 * k) = withinCalendarRanges n.
Proof.
  unfold withinCalendarRanges. rewrite civilFromDays_shift.
  destruct (civilFromDays n) as [[y m] d]. cbn [fst snd].
  rewrite !firstOfMonth_shift, !leb_shift, !ltb_shift. reflexivity.
Qed.

Lemma withinCalendarRanges_all (n : Z) : withinCalendarRanges n = true.
Proof.
  pose proof (Z.div_mod (n + 719468) 146097 ltac:(lia)) as Hdm.
  pose proof (Z.mod_pos_bound (n + 719468) 146097 ltac:(lia)) as Hb.
  replace n with ((n + 719468) mod 146097 - 719468
                  + 146097 * ((n + 719468) / 146097)) by lia.
  rewrite withinCalendarRanges_shift.
  apply (checkMonths_spec _ _ _ _ _ _ one_era_checked). lia.
Qed.

Lemma dayStart_mono (a b : Z) : a <= b -> dayStart a <= dayStart b.
Proof. unfold dayStart, MS_PER_DAY. lia. Qed.

Lemma dayEnd_mono (a b : Z) : a <= b -> dayEnd a <= dayEnd b.
Proof. unfold dayEnd, MS_PER_DAY. lia. Qed.

(** Every day lies within its month, its quarter and its year. *)
Lemma calendar_ranges (n y m d : Z) :
  civilFromDays n = (y, m, d) ->
  firstOfMonth y m 0 <= n < firstOfMonth y m 1
  /\ firstOfMonth y (quarterMonth m) 0 <= n
     < firstOfMonth y (quarterMonth m) 3
  /\ firstOfMonth y 1 0 <= n < firstOfMonth y 1 12.
Proof.
  intros E. pose proof (withinCalendarRanges_all n) as H.
  rewrite withinCalendarRanges_unfold, E in H.
  rewrite !andb_true_iff, !Z.leb_le, !Z.ltb_lt in H. tauto.
Qed.

Lemma calendar_bounds (date : Date) (y m d : Z) :
  civilFromDays (dayNumber date) = (y, m, d) ->
  startOfMonth date = dayStart (firstOfMonth y m 0)
  /\ endOfMonth date = dayEnd (firstOfMonth y m 1 - 1)
  /\ startOfQuarter date = dayStart (firstOfMonth y (quarterMonth m) 0)
  /\ endOfQuarter date = dayEnd (firstOfMonth y (quarterMonth m) 3 - 1)
  /\ startOfYear date = dayStart (firstOfMonth y 1 0)
  /\ endOfYear date = dayEnd (firstOfMonth y 1 12 - 1).
Proof.
  intros E.
  unfold startOfMonth, endOfMonth, startOfQuarter, endOfQuarter,
    startOfYear, endOfYear, getFullYear, getMonth1.
  rewrite E. repeat split; reflexivity.
Qed.

(** The bounds of a range are the first millisecond of a day and the last
    millisecond of a day. *)
Lemma getDefaultDateRange_days (p : ReportPeriod) (date : Date) :
  exists a b, getDefaultDateRange p date = (dayStart a, dayEnd b).
Proof.
  destruct (civilFromDays (dayNumber date)) as [[y m] d] eqn:E.
  destruct (calendar_bounds _ _ _ _ E) as [E1 [E2 [E3 [E4 [E5 E6]]]]].
  destruct p; cbn [getDefaultDateRange];
    rewrite ?E1, ?E2, ?E3, ?E4, ?E5, ?E6; eexists; eexists; reflexivity.
Qed.

Lemma getDefaultDateRange_contains (p : ReportPeriod) (date : Date) :
  fst (getDefaultDateRange p date) <= date <= snd (getDefaultDateRange p date).
Proof.
  pose proof (dayNumber_bounds date) as [Hlo Hhi].
  destruct (civilFromDays (dayNumber date)) as [[y m] d] eqn:E.
  destruct (calendar_ranges _ _ _ _ E) as [H1 [H2 H3]].
  destruct (calendar_bounds _ _ _ _ E) as [E1 [E2 [E3 [E4 [E5 E6]]]]].
  destruct p; cbn [getDefaultDateRange fst snd];
    rewrite ?E1, ?E2, ?E3, ?E4, ?E5, ?E6.
  - exact (conj Hlo Hhi).
  - unfold startOfWeek, endOfWeek, getDay.
    pose proof (Z.mod_pos_bound (dayNumber date + 4) 7 ltac:(lia)) as Hm.
    split.
    + eapply Z.le_trans; [apply dayStart_mono|exact Hlo]. lia.
    + eapply Z.le_trans; [exact Hhi|apply dayEnd_mono]. lia.
  - split.
    + eapply Z.le_trans; [apply dayStart_mono|exact Hlo]. lia.
    + eapply Z.le_trans; [exact Hhi|apply dayEnd_mono]. lia.
  - split.
    + eapply Z.le_trans; [apply dayStart_mono|exact Hlo]. lia.
    + eapply Z.le_trans; [exact Hhi|apply dayEnd_mono]. lia.
  - split.
    + eapply Z.le_trans; [apply dayStart_mono|exact Hlo]. lia.
    + eapply Z.le_trans; [exact Hhi|apply dayEnd_mono]. lia.
Qed.

Lemma dayNumber_dayStart (n : Z) : dayNumber (dayStart n) = n.
Proof. unfold dayNumber, dayStart. apply Z.div_mul. unfold MS_PER_DAY. lia. Qed.

Lemma dayNumber_between (n : Z) (d : Date) :
  dayStart n <= d <= dayEnd n -> dayNumber d = n.
Proof.
  unfold dayNumber, dayStart, dayEnd, MS_PER_DAY. intros H.
  symmetry. apply (Z.div_unique d 86400000 n (d - n * 86400000)); lia.
Qed.

Lemma dayNumber_dayEnd (n : Z) : dayNumber (dayEnd n) = n.
Proof.
  apply dayNumber_between. unfold dayStart, dayEnd, MS_PER_DAY. lia.
Qed.

Lemma week_start_stable (k n : Z) :
  (k + 4) mod 7 = 0 -> k <= n <= k + 6 -> n - (n + 4) mod 7 = k.
Proof.
  intros Hk Hn.
  pose proof (Z.div_mod (k + 4) 7 ltac:(lia)) as Hdm. rewrite Hk in Hdm.
  replace (n + 4) with (n - k + (k + 4) / 7 * 7) by lia.
  rewrite Z.mod_add by lia. rewrite Z.mod_small by lia. lia.
Qed.

Lemma week_start_sunday (n : Z) : (n - (n + 4) mod 7 + 4) mod 7 = 0.
Proof.
  pose proof (Z.div_mod (n + 4) 7 ltac:(lia)) as Hdm.
  replace (n - (n + 4) mod 7 + 4) with (0 + (n + 4) / 7 * 7) by lia.
  rewrite Z.mod_add by lia. reflexivity.
Qed.

Lemma week_end_saturday (n : Z) : (n - (n + 4) mod 7 + 6 + 4) mod 7 = 6.
Proof.
  pose proof (Z.div_mod (n + 4) 7 ltac:(lia)) as Hdm.
  replace (n - (n + 4) mod 7 + 6 + 4) with (6 + (n + 4) / 7 * 7) by lia.
  rewrite Z.mod_add by lia. reflexivity.
Qed.

(** X23: whatever the period and the date, the range that
    [getDefaultDateRange] gives contains the date; it starts at the first
    millisecond of a day and ends at the last millisecond of a day.  A daily
    range starts and ends on the day of the date; a weekly range starts on a
    Sunday and ends on the Saturday six calendar days later; and every date
    within a daily or weekly range gives that same range again. *)
Theorem default_range_contains_date (p : ReportPeriod) (date : Date) :
  let r := getDefaultDateRange p date in
  fst r <= date <= snd r
  /\ startOfDay (fst r) = fst r
  /\ endOfDay (snd r) = snd r
  /\ (p = daily ->
      dayNumber (fst r) = dayNumber date /\ dayNumber (snd r) = dayNumber date)
  /\ (p = weekly ->
      getDay (fst r) = 0 /\ getDay (snd r) = 6
      /\ dayNumber (snd r) = dayNumber (fst r) + 6)
  /\ (p = daily \/ p = weekly ->
      forall d', fst r <= d' <= snd r -> getDefaultDateRange p d' = r).
Proof.
  cbv zeta. split; [apply getDefaultDateRange_contains|].
  split; [|split].
  - destruct (getDefaultDateRange_days p date) as [a [b ->]]. cbn [fst].
    unfold startOfDay. rewrite dayNumber_dayStart. reflexivity.
  - destruct (getDefaultDateRange_days p date) as [a [b ->]]. cbn [snd].
    unfold endOfDay. rewrite dayNumber_dayEnd. reflexivity.
  - split; [|split].
    + intros ->. cbn [getDefaultDateRange fst snd].
      unfold endOfDay, startOfDay.
      rewrite dayNumber_dayStart, dayNumber_dayEnd. split; reflexivity.
    + intros ->. cbn [getDefaultDateRange fst snd].
      unfold endOfWeek, startOfWeek, getDay.
      rewrite dayNumber_dayStart, dayNumber_dayEnd.
      split; [apply week_start_sunday|].
      split; [apply week_end_saturday|reflexivity].
    + intros [-> | ->] d'; cbn [getDefaultDateRange fst snd].
      * unfold startOfDay, endOfDay. intros H.
        rewrite (dayNumber_between _ _ H). reflexivity.
      * unfold startOfWeek, endOfWeek, getDay. intros H.
        assert (E : dayNumber d' - (dayNumber d' + 4) mod 7
                    = dayNumber date - (dayNumber date + 4) mod 7).
        { apply week_start_stable; [apply week_start_sunday|].
          pose proof (dayNumber_bounds d') as Hb. revert H Hb.
          generalize (dayNumber date - (dayNumber date + 4) mod 7).
          generalize (dayNumber d'). intros n k.
          unfold dayStart, dayEnd, MS_PER_DAY. lia. }
        rewrite E. reflexivity.
Qed.

Lemma handleDateSelect_named (now date s e : Date) (st : ReportDialog.t) :
  periodRange (ReportDialog.period st) date = Some (s, e) ->
  date <= today now ->
  handleDateSelect now (Some date) st
  = ReportDialog.setEndDate (Some (Z.min e (today now)))
      (ReportDialog.setStartDate (Some s)
         (ReportDialog.setSelectedDate (Some date) st)).
Proof.
  intros Hr Hd. unfold handleDateSelect, isAfter.
  generalize dependent (today now). intros t Hd.
  destruct (Z.ltb_spec t date) as [Hgt|_]; [lia|].
  cbn [ReportDialog.period ReportDialog.setSelectedDate]. rewrite Hr.
  destruct (Z.ltb_spec t e).
  - rewrite Z.min_r by lia. reflexivity.
  - rewrite Z.min_l by lia. reflexivity.
Qed.

(** X24: choosing a date in the report dialog for a named period.  A date
    after today is refused with a toast and nothing else changes.  An
    accepted date is remembered without a toast; for the daily period the
    bounds are left as they were; for every other named period both bounds
    are stored, the start is the calendar start, the end is the earlier of
    the calendar end and the end of today, and so the stored range is in
    order, contains the chosen date and never reaches beyond today. *)
Theorem date_select_range (now date : Date) (p : ReportPeriod)
    (st : ReportDialog.t) :
  ReportDialog.period st = named p ->
  let st' := handleDateSelect now (Some date) st in
  (today now < date -> st' = ReportDialog.toast invalidDateToast st)
  /\ (date <= today now ->
      ReportDialog.selectedDate st' = Some date
      /\ ReportDialog.toasts st' = ReportDialog.toasts st
      /\ ReportDialog.period st' = named p
      /\ match p with
         | daily =>
             ReportDialog.startDate st' = ReportDialog.startDate st
             /\ ReportDialog.endDate st' = ReportDialog.endDate st
         | _ =>
             exists s e,
               ReportDialog.startDate st' = Some s
               /\ ReportDialog.endDate st' = Some e
               /\ s = fst (getDefaultDateRange p date)
               /\ e = Z.min (snd (getDefaultDateRange p date)) (today now)
               /\ s <= date <= e /\ e <= today now
         end).
Proof.
  intros Hp. cbv zeta. split.
  - intros H. unfold handleDateSelect, isAfter.
    destruct (Z.ltb_spec (today now) date); [reflexivity|lia].
  - intros H.
    assert (Hdaily : p = daily ->
              handleDateSelect now (Some date) st
              = ReportDialog.setSelectedDate (Some date) st).
    { intros ->. unfold handleDateSelect, isAfter.
      destruct (Z.ltb_spec (today now) date) as [Hgt|_]; [lia|].
      cbn [ReportDialog.period ReportDialog.setSelectedDate].
      rewrite Hp. reflexivity. }
    assert (Hnamed : p <> daily ->
              periodRange (ReportDialog.period st) date
              = Some (getDefaultDateRange p date)).
    { rewrite Hp. destruct p; [contradiction|reflexivity..]. }
    pose proof (getDefaultDateRange_contains p date) as Hc.
    destruct (getDefaultDateRange p date) as [s e]. cbn [fst snd] in *.
    destruct p;
      [rewrite (Hdaily eq_refl); cbn; rewrite Hp; repeat split| | | |];
      (rewrite (handleDateSelect_named _ _ s e) by
         (try (apply Hnamed; discriminate); exact H));
      cbn [ReportDialog.selectedDate ReportDialog.toasts ReportDialog.period
           ReportDialog.startDate ReportDialog.endDate
           ReportDialog.setEndDate ReportDialog.setStartDate
           ReportDialog.setSelectedDate];
      (split; [reflexivity|]); (split; [reflexivity|]);
      (split; [exact Hp|]);
      exists s, (Z.min e (today now)); repeat split; lia.
Qed.

(** On 11 January 2024 at noon the week of 10 January is asked for: the
    stored range runs from Sunday 7 January to the end of 11 January. *)
Lemma date_select_range_witness :
  let now := jan11 + 43200000 in
  let st := handlePeriodChange (named weekly) ReportDialog.initial in
  let st' := handleDateSelect now (Some (jan11 - 86400000)) st in
  ReportDialog.startDate st' = Some (jan11 - 4 * 86400000)
  /\ ReportDialog.endDate st' = Some (jan11 + 86399999)
  /\ exists s e,
       ReportDialog.startDate st' = Some s
       /\ ReportDialog.endDate st' = Some e
       /\ s <= jan11 - 86400000 <= e /\ e <= today now.
Proof.
  cbv zeta.
  pose proof (date_select_range (jan11 + 43200000) (jan11 - 86400000) weekly
                (handlePeriodChange (named weekly) ReportDialog.initial)
                eq_refl) as [_ H].
  destruct H as [_ [_ [_ [s [e [Hs [He [Es [Ee [Hin Hle]]]]]]]]]];
    [vm_compute; discriminate|].
  split; [vm_compute; reflexivity|]. split; [vm_compute; reflexivity|].
  exists s, e. repeat split; try assumption; apply Hin.
Defined.

(** ** Uploads *)

(** X25: [compressImage] refuses exactly the files that are not images.
    [uploadImage] never meets that refusal: a file that is not an image is
    stored as it is, without the compression library being asked; an image
    is stored as the library gives it back.  What [uploadImage] throws is
    what the library or the storage threw, and the address it returns is the
    one the storage gave for the directory of the given path followed by the
    file's own name. *)
Theorem upload_image
    (imageCompression : StorageFile.t -> string + StorageFile.t)
    (uploadBytes : string -> StorageFile.t -> string + string)
    (file : StorageFile.t) (path : string) :
  let fullPath := uploadFullPath path (StorageFile.name file) in
  (compressImage imageCompression file
   = if isImageFile file then imageCompression file
     else inl "The file given is not an image"%string)
  /\ (isImageFile file = false ->
      uploadImage imageCompression uploadBytes file path
      = uploadBytes fullPath file
      /\ forall otherLibrary,
           uploadImage otherLibrary uploadBytes file path
           = uploadImage imageCompression uploadBytes file path)
  /\ (isImageFile file = true ->
      uploadImage imageCompression uploadBytes file path
      = match imageCompression file with
        | inl error => inl error
        | inr compressed => uploadBytes fullPath compressed
        end)
  /\ (forall error,
        uploadImage imageCompression uploadBytes file path = inl error ->
        (isImageFile file = true /\ imageCompression file = inl error)
        \/ exists stored, uploadBytes fullPath stored = inl error)
  /\ (forall url,
        uploadImage imageCompression uploadBytes file path = inr url ->
        exists stored,
          uploadBytes fullPath stored = inr url
          /\ (if isImageFile file then imageCompression file = inr stored
              else stored = file)).
Proof.
  cbv zeta. unfold uploadImage, compressImage.
  destruct (isImageFile file) eqn:Hi; cbn [negb].
  - split; [reflexivity|]. split; [discriminate|]. split; [reflexivity|].
    destruct (imageCompression file) as [e|c] eqn:Hc; split.
    + intros error H. left. split; [reflexivity|]. congruence.
    + discriminate.
    + intros error H. right. exists c. exact H.
    + intros url H. exists c. split; [exact H|reflexivity].
  - split; [reflexivity|]. split; [split; reflexivity|].
    split; [discriminate|]. split.
    + intros error H. right. exists file. exact H.
    + intros url H. exists file. split; [exact H|reflexivity].
Qed.

(** ** Deleting a task *)

Lemma deleteRun_app (role : string) (a b : list DeleteEvent)
    (st : DeleteFlow.t) :
  deleteRun role (a ++ b) st = deleteRun role b (deleteRun role a st).
Proof. apply fold_left_app. Qed.

Lemma clickedIds_app (a b : list DeleteEvent) :
  clickedIds (a ++ b) = clickedIds a ++ clickedIds b.
Proof. apply flat_map_app. Qed.

Lemma deleteRun_invariant (role : string) (events : list DeleteEvent) :
  deleteFlowInvariant events (deleteRun role events DeleteFlow.initial).
Proof.
  induction events as [|e events IH] using rev_ind.
  - repeat split; try discriminate; cbn; auto using incl_nil_l.
  - unfold deleteFlowInvariant in *. rewrite deleteRun_app, clickedIds_app.
    set (st := deleteRun role events DeleteFlow.initial) in *.
    destruct IH as [Hopen [Hpending [Hincl Hlen]]].
    cbn [deleteRun fold_left].
    destruct e as [i| |]; cbn [deleteOffered deleteStep clickedIds flat_map];
      rewrite ?app_nil_r.
    + destruct (canModify role && canDelete role).
      * unfold handleDelete.
        cbn [DeleteFlow.showDeleteConfirm DeleteFlow.taskToDelete
             DeleteFlow.onDeleteCalls isSome].
        rewrite length_app. cbn [length app].
        split; [reflexivity|]. split.
        { intros j Hj. injection Hj as <-. split.
          - apply in_or_app. right. left. reflexivity.
          - lia. }
        split; [apply incl_appl, Hincl|lia].
      * rewrite length_app. cbn [length app].
        split; [exact Hopen|]. split.
        { intros j Hj. destruct (Hpending j Hj) as [Hin Hlt]. split.
          - apply in_or_app. left. exact Hin.
          - lia. }
        split; [apply incl_appl, Hincl|lia].
    + unfold handleConfirmDelete.
      destruct (DeleteFlow.taskToDelete st) as [i|] eqn:Ht.
      * destruct (truthyStr (Some i)).
        -- destruct (Hpending i eq_refl) as [Hin Hlt].
           cbn [DeleteFlow.showDeleteConfirm DeleteFlow.taskToDelete
                DeleteFlow.onDeleteCalls isSome].
           rewrite length_app. cbn [length].
           split; [reflexivity|]. split; [discriminate|].
           split; [|lia].
           apply incl_app; [exact Hincl|].
           intros x [<-|[]]. exact Hin.
        -- rewrite Ht. split; [exact Hopen|].
           split; [exact Hpending|]. split; assumption.
      * rewrite Ht. split; [exact Hopen|].
        split; [exact Hpending|]. split; assumption.
    + unfold onCloseDeleteConfirmation.
      cbn [DeleteFlow.showDeleteConfirm DeleteFlow.taskToDelete
           DeleteFlow.onDeleteCalls isSome].
      split; [reflexivity|]. split; [discriminate|]. split; assumption.
Qed.

Lemma deleteRun_not_admin (role : string) (events : list DeleteEvent)
    (st : DeleteFlow.t) :
  isAdmin role = false ->
  DeleteFlow.taskToDelete st = None ->
  DeleteFlow.onDeleteCalls (deleteRun role events st)
  = DeleteFlow.onDeleteCalls st
  /\ DeleteFlow.taskToDelete (deleteRun role events st) = None.
Proof.
  intros Hr. revert st. induction events as [|e events IH]; intros st Hn.
  - split; [reflexivity|exact Hn].
  - cbn [deleteRun fold_left]. fold (deleteRun role events).
    destruct e as [i| |]; cbn [deleteOffered deleteStep].
    + unfold canModify, canDelete. rewrite Hr. cbn [andb]. apply IH, Hn.
    + unfold handleConfirmDelete. rewrite Hn. apply IH, Hn.
    + destruct (IH (onCloseDeleteConfirmation st) eq_refl) as [H1 H2].
      split; [exact H1|exact H2].
Qed.

Lemma handleConfirmDelete_twice (st : DeleteFlow.t) :
  DeleteFlow.onDeleteCalls (handleConfirmDelete (handleConfirmDelete st))
  = DeleteFlow.onDeleteCalls (handleConfirmDelete st).
Proof.
  destruct st as [o [i|] c]; [|reflexivity].
  unfold handleConfirmDelete. cbn [DeleteFlow.taskToDelete].
  destruct (truthyStr (Some i)) eqn:Hi; cbn [DeleteFlow.taskToDelete];
    [reflexivity|rewrite Hi; reflexivity].
Qed.

(** X26: deleting from the list or from a card.  After any run of
    clicks, confirmations and dismissals the confirmation is shown exactly
    when a task is pending; every task handed to [onDelete] was clicked for
    deletion before, and there are never more deletions than clicks.  A
    click followed by a confirmation deletes the clicked task and nothing
    else; a second confirmation deletes nothing more; a confirmation after
    a dismissal deletes nothing.  For a role other than admin the Delete
    button is not rendered, and no run deletes anything. *)
Theorem delete_needs_confirmation (role : string)
    (events : list DeleteEvent) :
  let st := deleteRun role events DeleteFlow.initial in
  let calls := DeleteFlow.onDeleteCalls in
  DeleteFlow.showDeleteConfirm st = isSome (DeleteFlow.taskToDelete st)
  /\ incl (calls st) (clickedIds events)
  /\ (length (calls st) <= length (clickedIds events))%nat
  /\ (forall taskId,
        role = "admin"%string -> taskId <> ""%string ->
        calls (deleteRun role [clickDelete taskId; confirmDelete] st)
        = calls st ++ [taskId])
  /\ calls (deleteRun role [confirmDelete; confirmDelete] st)
     = calls (deleteRun role [confirmDelete] st)
  /\ calls (deleteRun role [closeDeleteConfirmation; confirmDelete] st)
     = calls st
  /\ (role <> "admin"%string -> calls st = []).
Proof.
  cbv zeta.
  destruct (deleteRun_invariant role events) as [Hopen [Hpending [Hincl Hlen]]].
  split; [exact Hopen|]. split; [exact Hincl|]. split; [exact Hlen|].
  split; [|split; [|split]].
  - intros taskId -> Hne.
    cbn [deleteRun fold_left deleteOffered deleteStep canModify canDelete
         isAdmin String.eqb Ascii.eqb Bool.eqb andb].
    unfold handleConfirmDelete, handleDelete.
    cbn [DeleteFlow.taskToDelete DeleteFlow.onDeleteCalls truthyStr].
    apply String.eqb_neq in Hne. rewrite Hne. reflexivity.
  - cbn [deleteRun fold_left deleteOffered deleteStep].
    apply handleConfirmDelete_twice.
  - reflexivity.
  - intros Hr. apply String.eqb_neq in Hr.
    destruct (deleteRun_not_admin role events DeleteFlow.initial Hr eq_refl)
      as [H _].
    exact H.
Qed.

(** ** Image viewer *)

Lemma JS_rem_nonneg (a n : Z) :
  0 <= a -> 0 < n -> JS_rem a n = Some (a mod n).
Proof.
  intros Ha Hn. unfold JS_rem.
  destruct (Z.eqb_spec n 0); [lia|]. rewrite Z.rem_mod_nonneg by lia.
  reflexivity.
Qed.

Lemma next_index (i n : Z) :
  0 <= i < n -> (i + 1) mod n = if i + 1 =? n then 0 else i + 1.
Proof.
  intros H. destruct (Z.eqb_spec (i + 1) n) as [->|Hne].
  - apply Z_mod_same_full.
  - apply Z.mod_small. lia.
Qed.

Lemma previous_index (i n : Z) :
  0 <= i < n -> (i - 1 + n) mod n = if i =? 0 then n - 1 else i - 1.
Proof.
  intros H. destruct (Z.eqb_spec i 0) as [->|Hne].
  - rewrite Z.mod_small by lia. lia.
  - replace (i - 1 + n) with (i - 1 + 1 * n) by lia.
    rewrite Z.mod_add by lia. apply Z.mod_small. lia.
Qed.

Lemma handleNext_index (images : list string) (st : ImageViewer.t) (i : Z) :
  ImageViewer.currentIndex st = Some i ->
  0 <= i < Z.of_nat (length images) ->
  ImageViewer.currentIndex (handleNext images st)
  = Some (if i + 1 =? Z.of_nat (length images) then 0 else i + 1).
Proof.
  intros Hi Hr. unfold handleNext, resetTransformations.
  cbn [ImageViewer.currentIndex ImageViewer.setRotation ImageViewer.setZoom
       ImageViewer.setCurrentIndex].
  rewrite Hi, JS_rem_nonneg by lia. rewrite next_index by exact Hr.
  reflexivity.
Qed.

Lemma handlePrevious_index (images : list string) (st : ImageViewer.t)
    (i : Z) :
  ImageViewer.currentIndex st = Some i ->
  0 <= i < Z.of_nat (length images) ->
  ImageViewer.currentIndex (handlePrevious images st)
  = Some (if i =? 0 then Z.of_nat (length images) - 1 else i - 1).
Proof.
  intros Hi Hr. unfold handlePrevious, resetTransformations.
  cbn [ImageViewer.currentIndex ImageViewer.setRotation ImageViewer.setZoom
       ImageViewer.setCurrentIndex].
  rewrite Hi, JS_rem_nonneg by lia. rewrite previous_index by exact Hr.
  reflexivity.
Qed.

Lemma quarter_turns (r : Z) :
  In r [0; 90; 180; 270] -> In (Z.rem (r + 90) 360) [0; 90; 180; 270].
Proof.
  intros [<-|[<-|[<-|[<-|[]]]]]; vm_compute; tauto.
Qed.

Lemma zoomIn_range (z : Q) :
  (1 # 2 <= z)%Q -> (z <= 3)%Q -> (exists k, z == k # 4)%Q ->
  (1 # 2 <= Math_min (z + (1 # 4)) 3)%Q
  /\ (Math_min (z + (1 # 4)) 3 <= 3)%Q
  /\ (exists k, Math_min (z + (1 # 4)) 3 == k # 4)%Q.
Proof.
  intros Hlo Hhi [k Hk]. unfold Math_min.
  destruct (Qle_bool (z + (1 # 4)) 3) eqn:E.
  - apply Qle_bool_iff in E. split; [|split; [exact E|]].
    + apply Qle_trans with z; [exact Hlo|].
      rewrite <- (Qplus_0_r z) at 1. apply Qplus_le_r. discriminate.
    + exists (k + 1). rewrite Hk. unfold Qeq, Qplus. cbn. lia.
  - split; [discriminate|]. split; [apply Qle_refl|].
    exists 12. reflexivity.
Qed.

Lemma zoomOut_range (z : Q) :
  (1 # 2 <= z)%Q -> (z <= 3)%Q -> (exists k, z == k # 4)%Q ->
  (1 # 2 <= Math_max (z - (1 # 4)) (1 # 2))%Q
  /\ (Math_max (z - (1 # 4)) (1 # 2) <= 3)%Q
  /\ (exists k, Math_max (z - (1 # 4)) (1 # 2) == k # 4)%Q.
Proof.
  intros Hlo Hhi [k Hk]. unfold Math_max.
  destruct (Qle_bool (z - (1 # 4)) (1 # 2)) eqn:E.
  - split; [apply Qle_refl|]. split; [discriminate|].
    exists 2. reflexivity.
  - assert (Hgt : ~ (z - (1 # 4) <= 1 # 2)%Q).
    { intros H. apply Qle_bool_iff in H. congruence. }
    apply Qnot_le_lt in Hgt. split; [apply Qlt_le_weak, Hgt|]. split.
    + apply Qle_trans with z; [|exact Hhi].
      rewrite <- (Qplus_0_r z) at 2. apply Qplus_le_r. discriminate.
    + exists (k - 1). rewrite Hk. unfold Qeq, Qminus, Qplus, Qopp. cbn. lia.
Qed.

Lemma reset_inRange (images : list string) (st : ImageViewer.t) :
  (exists i, ImageViewer.currentIndex st = Some i
             /\ 0 <= i < Z.of_nat (length images)) ->
  viewerInRange images (resetTransformations st).
Proof.
  intros H. unfold viewerInRange, resetTransformations.
  cbn [ImageViewer.currentIndex ImageViewer.zoom ImageViewer.rotation
       ImageViewer.setRotation ImageViewer.setZoom].
  split; [exact H|]. split; [discriminate|]. split; [discriminate|].
  split; [exists 4; reflexivity|]. left. reflexivity.
Qed.

Lemma handleKeyDown_inRange (images : list string) (key : string)
    (st : ImageViewer.t) :
  viewerInRange images st -> viewerInRange images (handleKeyDown images key st).
Proof.
  intros Hst. pose proof Hst as [[i [Hi Hr]] [Hlo [Hhi [Hk Hrot]]]].
  unfold handleKeyDown.
  destruct (negb (ImageViewer.isOpen st)); [exact Hst|].
  destruct (String.eqb key "ArrowRight").
  { pose proof (handleNext_index images st i Hi Hr) as Hn.
    unfold handleNext in *. apply reset_inRange.
    unfold resetTransformations in Hn.
    cbn [ImageViewer.currentIndex ImageViewer.setRotation
         ImageViewer.setZoom] in Hn.
    eexists. split; [exact Hn|].
    destruct (Z.eqb_spec (i + 1) (Z.of_nat (length images))); lia. }
  destruct (String.eqb key "ArrowLeft").
  { pose proof (handlePrevious_index images st i Hi Hr) as Hn.
    unfold handlePrevious in *. apply reset_inRange.
    unfold resetTransformations in Hn.
    cbn [ImageViewer.currentIndex ImageViewer.setRotation
         ImageViewer.setZoom] in Hn.
    eexists. split; [exact Hn|]. destruct (Z.eqb_spec i 0); lia. }
  destruct (String.eqb key "Escape").
  { apply reset_inRange. exists i. split; [exact Hi|exact Hr]. }
  destruct (String.eqb key "+").
  { destruct (zoomIn_range _ Hlo Hhi Hk) as [H1 [H2 H3]].
    unfold viewerInRange, handleZoomIn.
    cbn [ImageViewer.currentIndex ImageViewer.zoom ImageViewer.rotation
         ImageViewer.setZoom].
    split; [exists i; split; assumption|]. repeat split; assumption. }
  destruct (String.eqb key "-").
  { destruct (zoomOut_range _ Hlo Hhi Hk) as [H1 [H2 H3]].
    unfold viewerInRange, handleZoomOut.
    cbn [ImageViewer.currentIndex ImageViewer.zoom ImageViewer.rotation
         ImageViewer.setZoom].
    split; [exists i; split; assumption|]. repeat split; assumption. }
  destruct (String.eqb key "r"); [|exact Hst].
  unfold viewerInRange, handleRotate.
  cbn [ImageViewer.currentIndex ImageViewer.zoom ImageViewer.rotation
       ImageViewer.setRotation].
  split; [exists i; split; assumption|].
  split; [exact Hlo|]. split; [exact Hhi|]. split; [exact Hk|].
  apply quarter_turns, Hrot.
Qed.

Lemma handleNext_iter (images : list string) (st : ImageViewer.t) (i : Z)
    (k : nat) :
  ImageViewer.currentIndex st = Some i ->
  0 <= i < Z.of_nat (length images) ->
  ImageViewer.currentIndex (Nat.iter k (handleNext images) st)
  = Some ((i + Z.of_nat k) mod Z.of_nat (length images)).
Proof.
  intros Hi Hr. induction k as [|k IH].
  - unfold Nat.iter. cbn [nat_rect Z.of_nat].
    rewrite Z.add_0_r, Z.mod_small by lia. exact Hi.
  - rewrite Nat.iter_succ.
    assert (Hm := Z.mod_pos_bound (i + Z.of_nat k) (Z.of_nat (length images))
                    ltac:(lia)).
    rewrite (handleNext_index images _ _ IH Hm).
    rewrite <- next_index by exact Hm.
    rewrite Zplus_mod_idemp_l. f_equal. f_equal. lia.
Qed.

(** X27: the image viewer.  Shown at an index within the list, and
    through any run of keys, the viewer keeps an index within the list, a
    zoom between a half and three that is a multiple of a quarter, and a
    rotation of 0, 90, 180 or 270 degrees.  Next and Previous undo one
    another, a Next for every image of the list comes back to the same
    image, four rotations come back to the same rotation, zooming in and
    out again comes back to the same zoom unless the upper limit cut the
    step short, and a closed viewer ignores the keys. *)
Theorem image_viewer (images : list string) (initialIndex : Z)
    (keys : list string) :
  0 <= initialIndex < Z.of_nat (length images) ->
  let st :=
    fold_left (fun s key => handleKeyDown images key s) keys
      (ImageViewer.initial initialIndex) in
  viewerInRange images st
  /\ ImageViewer.currentIndex (handlePrevious images (handleNext images st))
     = ImageViewer.currentIndex st
  /\ ImageViewer.currentIndex (handleNext images (handlePrevious images st))
     = ImageViewer.currentIndex st
  /\ ImageViewer.currentIndex
       (Nat.iter (length images) (handleNext images) st)
     = ImageViewer.currentIndex st
  /\ ImageViewer.rotation (Nat.iter 4 handleRotate st)
     = ImageViewer.rotation st
  /\ ((ImageViewer.zoom st + (1 # 4) <= 3)%Q ->
      (ImageViewer.zoom (handleZoomOut (handleZoomIn st))
       == ImageViewer.zoom st)%Q)
  /\ (ImageViewer.isOpen st = false ->
      forall key, handleKeyDown images key st = st).
Proof.
  intros Hinit. cbv zeta.
  set (st := fold_left _ keys _).
  assert (Hst : viewerInRange images st).
  { unfold st. clear st.
    assert (H0 : viewerInRange images (ImageViewer.initial initialIndex)).
    { unfold viewerInRange, ImageViewer.initial.
      cbn [ImageViewer.currentIndex ImageViewer.zoom ImageViewer.rotation].
      split; [exists initialIndex; split; [reflexivity|exact Hinit]|].
      split; [discriminate|]. split; [discriminate|].
      split; [exists 4; reflexivity|]. left. reflexivity. }
    revert H0. generalize (ImageViewer.initial initialIndex).
    induction keys as [|key keys IH]; intros s Hs; [exact Hs|].
    cbn [fold_left]. apply IH, handleKeyDown_inRange, Hs. }
  split; [exact Hst|].
  destruct Hst as [[i [Hi Hr]] [Hlo [Hhi [[k Hk] Hrot]]]].
  split; [|split; [|split; [|split; [|split]]]].
  - pose proof (handleNext_index images st i Hi Hr) as Hn.
    rewrite (handlePrevious_index images _ _ Hn)
      by (destruct (Z.eqb_spec (i + 1) (Z.of_nat (length images))); lia).
    rewrite Hi. f_equal.
    destruct (Z.eqb_spec (i + 1) (Z.of_nat (length images)));
      [rewrite Z.eqb_refl; lia|].
    destruct (Z.eqb_spec (i + 1) 0); lia.
  - pose proof (handlePrevious_index images st i Hi Hr) as Hn.
    rewrite (handleNext_index images _ _ Hn)
      by (destruct (Z.eqb_spec i 0); lia).
    rewrite Hi. f_equal.
    destruct (Z.eqb_spec i 0) as [->|Hne].
    + rewrite Z.sub_add, Z.eqb_refl. reflexivity.
    + destruct (Z.eqb_spec (i - 1 + 1) (Z.of_nat (length images))); lia.
  - rewrite (handleNext_iter images st i _ Hi Hr), Hi. f_equal.
    replace (i + Z.of_nat (length images))
      with (i + 1 * Z.of_nat (length images)) by lia.
    rewrite Z.mod_add by lia. apply Z.mod_small. exact Hr.
  - unfold Nat.iter. cbn [nat_rect]. unfold handleRotate.
    cbn [ImageViewer.rotation ImageViewer.setRotation].
    destruct Hrot as [<-|[<-|[<-|[<-|[]]]]]; reflexivity.
  - intros Hroom. unfold handleZoomOut, handleZoomIn.
    cbn [ImageViewer.zoom ImageViewer.setZoom]. unfold Math_min.
    apply Qle_bool_iff in Hroom. rewrite Hroom. unfold Math_max.
    destruct (Qle_bool (ImageViewer.zoom st + (1 # 4) - (1 # 4)) (1 # 2))
      eqn:E.
    + apply Qle_bool_iff in E.
      assert (Hz : (ImageViewer.zoom st + (1 # 4) - (1 # 4)
                    == ImageViewer.zoom st)%Q) by ring.
      rewrite Hz in E. apply Qle_antisym; assumption.
    + ring.
  - intros Hclosed key. unfold handleKeyDown. rewrite Hclosed. reflexivity.
Qed.

(** Three images, shown at the last one: the right arrow wraps round to
    the first, and the viewer stays in range. *)
Lemma image_viewer_witness :
  let images := ["a.png"; "b.png"; "c.png"]%string in
  let st :=
    fold_left (fun s key => handleKeyDown images key s)
      ["+"; "r"; "ArrowRight"]%string (ImageViewer.initial 2) in
  viewerInRange images st /\ ImageViewer.currentIndex st = Some 0.
Proof.
  cbv zeta.
  pose proof (image_viewer ["a.png"; "b.png"; "c.png"]%string 2
                ["+"; "r"; "ArrowRight"]%string) as H.
  destruct H as [H _]; [cbn; lia|].
  split; [exact H|reflexivity].
Defined.

(** ** Signing in *)

(** X28: the outcomes of [signIn].  It succeeds exactly when the
    credentials are accepted and the user's document exists with the admin
    role; then the user and the data, with the admin role, are stored and
    [signOut] is not called.  Otherwise the stored user and data are left
    as they were, [signOut] has been called once or twice, and the message
    thrown to the caller is either the one [getAuthErrorMessage] gives for
    the code of a Firebase error that one of the calls threw, or "Invalid
    email id or password. Please try again.": this last message is also
    what a user without the admin role gets, and one whose document is
    missing, as the messages thrown for them inside are caught again.  In
    every case loading ends false. *)
Theorem sign_in_outcomes (getAuthErrorMessage : string -> string)
    (credential : Thrown + User.t) (userDoc : Thrown + option UserDoc.t)
    (signOut : nat -> option Thrown) (st : AuthState.t) :
  let out := signIn getAuthErrorMessage credential userDoc signOut st in
  let generic := "Invalid email id or password. Please try again."%string in
  AuthState.loading (fst out) = false
  /\ (snd out = None <->
      exists u data,
        credential = inr u /\ userDoc = inr (Some data)
        /\ UserDoc.role data = "admin"%string)
  /\ (forall u data,
        credential = inr u -> userDoc = inr (Some data) ->
        UserDoc.role data = "admin"%string ->
        AuthState.user (fst out) = Some u
        /\ AuthState.userData (fst out)
           = Some {| UserData.uid := User.uid u;
                     UserData.email := User.email u;
                     UserData.name := UserDoc.name data;
                     UserData.role := "admin" |}
        /\ AuthState.signOuts (fst out) = AuthState.signOuts st)
  /\ (forall message,
        snd out = Some message ->
        AuthState.user (fst out) = AuthState.user st
        /\ AuthState.userData (fst out) = AuthState.userData st
        /\ (AuthState.signOuts st < AuthState.signOuts (fst out)
            <= AuthState.signOuts st + 2)%nat
        /\ (message = generic
            \/ exists code,
                 message = getAuthErrorMessage code
                 /\ (credential = inl (FirebaseError code)
                     \/ userDoc = inl (FirebaseError code)
                     \/ signOut 0%nat = Some (FirebaseError code))))
  /\ (forall u data,
        credential = inr u -> userDoc = inr (Some data) ->
        UserDoc.role data <> "admin"%string -> signOut 0%nat = None ->
        snd out = Some generic)
  /\ (forall u,
        credential = inr u -> userDoc = inr None -> signOut 0%nat = None ->
        snd out = Some generic).
Proof.
  cbv zeta. unfold signIn, signIn_try.
  destruct credential as [e|u];
    [destruct e as [c|m]
    |destruct userDoc as [e|[data|]];
       [destruct e as [c|m]
       |destruct (String.eqb_spec (UserDoc.role data) "admin") as [Hr|Hr];
          cbn [negb]; [|destruct (signOut 0%nat) as [[c|m]|] eqn:Hs]
       |destruct (signOut 0%nat) as [[c|m]|] eqn:Hs]].
  all: cbn [fst snd AuthState.loading AuthState.user AuthState.userData
            AuthState.signOuts adminData].
  all: split; [reflexivity|].
  all: split; [split; [first [discriminate|intros _; eauto 10]
                      |first [intros _; reflexivity
                             |intros [u' [d' [H1 [H2 H3]]]]; congruence]]|].
  all: split; [intros u' d' H1 H2 H3;
               first [congruence
                     |injection H1 as <-; injection H2 as <-;
                      repeat split; f_equal; lia]|].
  all: split; [intros message Hm;
               first [discriminate
                     |injection Hm as <-;
                      split; [reflexivity|]; split; [reflexivity|];
                      split; [lia|];
                      first [left; reflexivity
                            |right; eexists; split; [reflexivity|]; tauto]]|].
  all: split; intros; congruence.
Qed.

Lemma authStep_adminOnly (getAuthErrorMessage : string -> string)
    (op : AuthOp) (st : AuthState.t) :
  adminOnly st -> adminOnly (authStep getAuthErrorMessage op st).
Proof.
  intros [Hrole Huser]. unfold adminOnly.
  destruct op as [credential userDoc signOut|name credential userDoc setDoc
                 |u userDoc signOut|signOut];
    cbn [authStep];
    unfold signIn, signIn_try, signUp, ensureUserDocument, authStateChanged,
      logout;
    repeat match goal with
           | |- context [match ?x with _ => _ end] => destruct x
           | |- context [if ?x then _ else _] => destruct x
           end;
    cbn [fst snd AuthState.user AuthState.userData adminData];
    (split; [intros data H; first [discriminate
                                  |injection H as <-; reflexivity
                                  |exact (Hrole data H)]
            |first [intros H; contradiction
                   |intros _; discriminate
                   |exact Huser]]).
Qed.

Lemma authRun_adminOnly (getAuthErrorMessage : string -> string)
    (ops : list AuthOp) (st : AuthState.t) :
  adminOnly st -> adminOnly (authRun getAuthErrorMessage ops st).
Proof.
  revert st. induction ops as [|op ops IH]; intros st H; [exact H|].
  cbn [authRun fold_left]. apply IH, authStep_adminOnly, H.
Qed.

Lemma authStep_loading (getAuthErrorMessage : string -> string)
    (op : AuthOp) (st : AuthState.t) :
  AuthState.loading (authStep getAuthErrorMessage op st) = false.
Proof.
  destruct op as [credential userDoc signOut|name credential userDoc setDoc
                 |u userDoc signOut|signOut];
    cbn [authStep];
    unfold signIn, signIn_try, signUp, ensureUserDocument, authStateChanged,
      logout;
    repeat match goal with
           | |- context [match ?x with _ => _ end] => destruct x
           | |- context [if ?x then _ else _] => destruct x
           end;
    reflexivity.
Qed.

(** X29: whatever is done with the provider -- signing in, signing up,
    a change of the authentication state, logging out, in any order and
    with any outcome of the Firebase calls -- the data of the signed-in
    user, when there are any, carry the admin role and come with a user;
    so the list and the cards always let a signed-in user edit and delete.
    After the first operation loading is false.  Signing up writes a
    document only when none exists, with the given name and the admin role;
    when one exists, its name is used and the admin role is stored for the
    session whatever role the document has. *)
Theorem provider_admin_only (getAuthErrorMessage : string -> string)
    (ops : list AuthOp) :
  let st := authRun getAuthErrorMessage ops AuthState.initial in
  (forall data,
     AuthState.userData st = Some data ->
     UserData.role data = "admin"%string
     /\ canModify (UserData.role data) = true
     /\ canDelete (UserData.role data) = true
     /\ (forall taskId,
           deleteOffered (UserData.role data) (clickDelete taskId) = true)
     /\ AuthState.user st <> None)
  /\ (ops <> [] -> AuthState.loading st = false)
  /\ (forall name u userDoc setDoc s,
        let out :=
          signUp getAuthErrorMessage name (inr u) userDoc setDoc s in
        (forall written,
           snd out = Some written ->
           userDoc = inr None
           /\ written = {| UserDoc.name := name; UserDoc.role := "admin" |}
           /\ AuthState.userData (fst (fst out)) = Some (adminData u name))
        /\ (forall data,
              userDoc = inr (Some data) ->
              snd out = None /\ snd (fst out) = None
              /\ AuthState.userData (fst (fst out))
                 = Some (adminData u (UserDoc.name data)))).
Proof.
  cbv zeta. split; [|split].
  - intros data Hd.
    assert (Hinit : adminOnly AuthState.initial).
    { split; [discriminate|]. intros H. contradiction. }
    destruct (authRun_adminOnly getAuthErrorMessage ops _ Hinit)
      as [Hrole Huser].
    pose proof (Hrole data Hd) as Hr.
    unfold deleteOffered, canModify, canDelete, isAdmin. rewrite Hr.
    repeat split. apply Huser. rewrite Hd. discriminate.
  - intros Hne. destruct ops as [|op ops] using rev_ind; [contradiction|].
    unfold authRun. rewrite fold_left_app. cbn [fold_left].
    apply authStep_loading.
  - intros name u userDoc setDoc s. unfold signUp, ensureUserDocument.
    destruct userDoc as [e|[d|]]; [| |destruct setDoc as [e|]];
      cbn [fst snd AuthState.userData]; split;
      try (intros written H; discriminate);
      try (intros data H; discriminate).
    + intros data H. injection H as <-. repeat split.
    + intros written H. injection H as <-. repeat split.
Qed.
